(** * FIFA analytics dashboard: a shallow embedding of the analysis layer

    The development follows the Python sources module by module:
    - [utils/analytics.py]      ([Module Analytics])
    - [tactical_analysis.py]    ([Module TacticalAnalysis])
    - [utils/visualizations.py] ([Module Visualizations])
    - [app.py]                  ([Module App])
    - [advanced_analytics.py]   ([Module AdvancedAnalytics])
    - [generate_player_report] and [analyze_market_trends] of
      [utils/analytics.py]      ([Module AnalyticsReport],
                                 [Module AnalyticsTrends])
    - the rest of [tactical_analysis.py]
                                ([Module TacticalDashboard], [Module TeamBuilder])
    - the skills of a player and the sidebar filters of [app.py]
                                ([Module AppFilters])

    Conventions of the model.
    - A float64 is a rational number, or one of the three special values
      [NaN], [PosInf], [NegInf].  Addition, multiplication and division
      round their exact result to the nearest binary64 number, a tie
      going to the even one, and overflow to an infinity, as IEEE 754
      arithmetic does; a decimal literal of the source is the binary64
      number nearest to it.  The sign of zero is not modelled.
    - A DataFrame is a list of column names and a list of rows; a row is
      an index label and a dictionary from column names to cells.  A cell
      that a row does not hold reads as NaN, as after [pd.concat] of
      frames with different columns.
    - Every DataFrame object lives in a store and is handled through its
      location, so that in-place column assignment and [.copy()] can be
      told apart.
    - Python exceptions are values of [exn]; a computation returns
      [Ok v] or [Raise e] together with the final state.
    - Routines of scikit-learn, and numpy's generator, are parameters of
      the development (class [Sklearn], record [RandomState]). *)

From Stdlib Require Import QArith Lqa.
From stdpp Require Import gmap strings list sorting.
Close Scope Q_scope.
Open Scope string_scope.
Open Scope list_scope.
Open Scope stdpp_scope.

(** ** float64 *)

Inductive float64 : Type :=
  | NaN
  | NegInf
  | Fin (q : Q)
  | PosInf.

#[global] Instance Q_eq_dec : EqDecision Q.
Proof. solve_decision. Defined.
#[global] Instance float64_eq_dec : EqDecision float64.
Proof. solve_decision. Defined.

Definition Qlt_bool (a b : Q) : bool := negb (Qle_bool b a).

Definition of_Z (z : Z) : float64 := Fin (inject_Z z).

(** Sign bookkeeping for the infinite cases. *)
Definition sign_mul (c1 c2 : comparison) : comparison :=
  match c1, c2 with
  | Eq, _ | _, Eq => Eq
  | Lt, Lt | Gt, Gt => Gt
  | _, _ => Lt
  end.

Definition fsign (x : float64) : comparison :=
  match x with
  | NaN => Eq
  | NegInf => Lt
  | PosInf => Gt
  | Fin q => (q ?= 0)%Q
  end.

Definition inf_of_sign (c : comparison) : float64 :=
  match c with Gt => PosInf | Lt => NegInf | Eq => NaN end.

(** *** Rounding to binary64 *)

(** The integer nearest to [n / d], a tie going to the even one ([n] is
    not negative). *)
Definition nearest_even (n : Z) (d : positive) : Z :=
  let q := (n / Zpos d)%Z in
  match (2 * (n mod Zpos d) ?= Zpos d)%Z with
  | Lt => q
  | Gt => (q + 1)%Z
  | Eq => if Z.even q then q else (q + 1)%Z
  end.

(** [n / d] in units of [2 ^ p], to the nearest integer. *)
Definition scaled (n : Z) (d : positive) (p : Z) : Z :=
  if (0 <=? p)%Z then nearest_even n (d * Z.to_pos (2 ^ p))
  else nearest_even (n * 2 ^ (- p)) d.

(** [2 ^ e <= n / d] *)
Definition reaches (n : Z) (d : positive) (e : Z) : bool :=
  if (0 <=? e)%Z then (Zpos d * 2 ^ e <=? n)%Z
  else (Zpos d <=? n * 2 ^ (- e))%Z.

(** The binary64 number nearest to [x], ties to even: 53 significant
    bits, the unit in the last place no smaller than [2 ^ -1074]
    (subnormal numbers), an infinity from [2 ^ 1024] on.  The rational of
    the result is in lowest terms. *)
Definition round64 (x : Q) : float64 :=
  let n := Z.abs (Qnum x) in
  let d := Qden x in
  if (n =? 0)%Z then Fin 0
  else
    let e0 := (Z.log2 n - Z.log2 (Zpos d))%Z in
    let e := if reaches n d e0 then e0 else (e0 - 1)%Z in
    let p := Z.max (e - 52) (-1074) in
    let m := scaled n d p in
    if (0 <=? p)%Z && (2 ^ 1024 <=? m * 2 ^ p)%Z
    then (if (0 <? Qnum x)%Z then PosInf else NegInf)
    else
      Fin (Qred (if (0 <=? p)%Z then inject_Z (Z.sgn (Qnum x) * m * 2 ^ p)
                 else Qmake (Z.sgn (Qnum x) * m) (Z.to_pos (2 ^ (- p))))).

(** A decimal literal of the source, as Python reads it. *)
Definition lit (q : Q) : float64 := round64 q.

(** *** Arithmetic *)

Definition fadd (x y : float64) : float64 :=
  match x, y with
  | NaN, _ | _, NaN => NaN
  | Fin a, Fin b => round64 (a + b)%Q
  | PosInf, NegInf | NegInf, PosInf => NaN
  | PosInf, _ | _, PosInf => PosInf
  | NegInf, _ | _, NegInf => NegInf
  end.

Definition fmul (x y : float64) : float64 :=
  match x, y with
  | NaN, _ | _, NaN => NaN
  | Fin a, Fin b => round64 (a * b)%Q
  | _, _ => inf_of_sign (sign_mul (fsign x) (fsign y))
  end.

(** numpy division: a finite value over zero is an infinity of the sign
    of the numerator, zero over zero is NaN; nothing is raised. *)
Definition fdiv (x y : float64) : float64 :=
  match x, y with
  | NaN, _ | _, NaN => NaN
  | Fin a, Fin b =>
      if Qeq_bool b 0 then inf_of_sign (a ?= 0)%Q else round64 (a / b)%Q
  | Fin _, _ => Fin 0
  | _, Fin b =>
      inf_of_sign (sign_mul (fsign x) (if Qeq_bool b 0 then Gt else (b ?= 0)%Q))
  | _, _ => NaN
  end.

(** IEEE comparisons: anything compared with NaN is false. *)
Definition flt (x y : float64) : bool :=
  match x, y with
  | NaN, _ | _, NaN => false
  | Fin a, Fin b => Qlt_bool a b
  | NegInf, NegInf => false
  | NegInf, _ => true
  | _, NegInf => false
  | PosInf, _ => false
  | Fin _, PosInf => true
  end.

Definition fle (x y : float64) : bool :=
  match x, y with
  | NaN, _ | _, NaN => false
  | Fin a, Fin b => Qle_bool a b
  | NegInf, _ => true
  | _, NegInf => false
  | _, PosInf => true
  | PosInf, _ => false
  end.

Definition feqb (x y : float64) : bool := fle x y && fle y x.

Definition is_nan (x : float64) : bool :=
  match x with NaN => true | _ => false end.

Definition is_finite (x : float64) : bool :=
  match x with Fin _ => true | _ => false end.

(** Equality of floats up to the representation of the rational. *)
Definition feq (x y : float64) : Prop :=
  match x, y with
  | NaN, NaN | NegInf, NegInf | PosInf, PosInf => True
  | Fin a, Fin b => (a == b)%Q
  | _, _ => False
  end.

(** ** Cells, rows, frames *)

Inductive value : Type :=
  | Num (x : float64)
  | Str (s : string).

#[global] Instance value_eq_dec : EqDecision value.
Proof. solve_decision. Defined.

(** [pd.notna]: the only missing value is NaN (pandas stores a missing
    string as a float NaN as well). *)
Definition notna (v : value) : bool :=
  match v with Num NaN => false | _ => true end.

Record row : Type := Row { label : Z; cells : gmap string value }.

#[global] Instance row_eq_dec : EqDecision row.
Proof. solve_decision. Defined.

Record DataFrame : Type := Frame { columns : list string; rows : list row }.

#[global] Instance DataFrame_eq_dec : EqDecision DataFrame.
Proof. solve_decision. Defined.

Definition cell (r : row) (c : string) : value :=
  default (Num NaN) (cells r !! c).

Definition has_column (df : DataFrame) (c : string) : bool :=
  bool_decide (c ∈ columns df).

(** [pd.DataFrame()] *)
Definition empty_frame : DataFrame := Frame [] [].

(** ** Exceptions and the state-and-exception monad *)

Inductive exn : Type :=
  | KeyError (key : string)
  | ValueError (msg : string)
  | TypeError (msg : string)
  | FileNotFoundError (path : string)
  | ParserError (msg : string)
  | IndexError (msg : string)
  | AttributeError (msg : string)
  | SklearnError (routine : string)
  | KeyboardInterrupt
  | StopException.

#[global] Instance exn_eq_dec : EqDecision exn.
Proof. solve_decision. Defined.

(** [SklearnError r] stands for whatever exception the scikit-learn
    routine [r] raises on its own; it is an [Exception].
    [isinstance(e, Exception)]: [KeyboardInterrupt] and streamlit's
    [StopException] derive from [BaseException] only. *)
Definition is_Exception (e : exn) : bool :=
  match e with
  | KeyboardInterrupt | StopException => false
  | _ => true
  end.

Inductive result (A : Type) : Type :=
  | Ok (a : A)
  | Raise (e : exn).
Arguments Ok {A} a.
Arguments Raise {A} e.

Definition M (S A : Type) : Type := S -> result A * S.

Definition ret {S A} (a : A) : M S A := fun s => (Ok a, s).
Definition raise {S A} (e : exn) : M S A := fun s => (Raise e, s).
Definition bind {S A B} (m : M S A) (k : A -> M S B) : M S B :=
  fun s =>
    match m s with
    | (Ok a, s') => k a s'
    | (Raise e, s') => (Raise e, s')
    end.
Definition lift {S A} (r : result A) : M S A := fun s => (r, s).
Definition get {S} : M S S := fun s => (Ok s, s).
Definition put {S} (s : S) : M S unit := fun _ => (Ok tt, s).

Notation "'let*' x ':=' m 'in' k" := (bind m (fun x => k))
  (at level 10, x name, m at level 100, k at level 200).
Notation "m '>>' k" := (bind m (fun _ => k))
  (at level 100, k at level 200, right associativity).

(** Exceptions without state, for the pure pandas routines. *)
Definition rbind {A B} (r : result A) (k : A -> result B) : result B :=
  match r with Ok a => k a | Raise e => Raise e end.

Fixpoint rmap {A B} (f : A -> result B) (l : list A) : result (list B) :=
  match l with
  | [] => Ok []
  | x :: l' =>
      rbind (f x) (fun y => rbind (rmap f l') (fun ys => Ok (y :: ys)))
  end.

(** ** pandas routines on frames and columns *)

(** [df[c]]: the cells of one column, [KeyError] when there is none. *)
Definition column (df : DataFrame) (c : string) : result (list value) :=
  if has_column df c then Ok ((fun r => cell r c) <$> rows df)
  else Raise (KeyError c).

(** The first of [cs] that is not a column of [df]. *)
Definition missing_column (df : DataFrame) (cs : list string) : option string :=
  List.find (fun c => negb (has_column df c)) cs.

Definition restrict (cs : list string) (r : row) : row :=
  Row (label r) (filter (fun kv => kv.1 ∈ cs) (cells r)).

(** [df[cs]] for a list of column names. *)
Definition select (df : DataFrame) (cs : list string) : result DataFrame :=
  match missing_column df cs with
  | Some c => Raise (KeyError c)
  | None => Ok (Frame cs (restrict cs <$> rows df))
  end.

Fixpoint mask_rows {A} (l : list A) (m : list bool) : list A :=
  match l, m with
  | x :: l', b :: m' => if b then x :: mask_rows l' m' else mask_rows l' m'
  | _, _ => []
  end.

(** [df[mask]] for a boolean column computed from [df] itself. *)
Definition where_ (df : DataFrame) (m : list bool) : DataFrame :=
  Frame (columns df) (mask_rows (rows df) m).

Definition set_cell (c : string) (v : value) (r : row) : row :=
  Row (label r) (<[c := v]> (cells r)).

(** [df[c] = vs]: same length required; a new name is appended to the
    columns. *)
Definition assign (df : DataFrame) (c : string) (vs : list value)
  : result DataFrame :=
  if bool_decide (length vs = length (rows df)) then
    Ok (Frame (if has_column df c then columns df else columns df ++ [c])
          (zip_with (set_cell c) vs (rows df)))
  else Raise (ValueError "Length of values does not match length of index").

(** [df.head(n)] for a non-negative [n]. *)
Definition head (df : DataFrame) (n : nat) : DataFrame :=
  Frame (columns df) (take n (rows df)).

Definition complete (cs : list string) (r : row) : bool :=
  forallb (fun c => notna (cell r c)) cs.

(** [df.dropna()] of a frame whose columns are [cs], and
    [df.dropna(subset=cs)]. *)
Definition dropna (df : DataFrame) : DataFrame :=
  Frame (columns df) (List.filter (complete (columns df)) (rows df)).

Definition dropna_subset (df : DataFrame) (cs : list string)
  : result DataFrame :=
  match missing_column df cs with
  | Some c => Raise (KeyError c)
  | None => Ok (Frame (columns df) (List.filter (complete cs) (rows df)))
  end.

(** [df.loc[labels]]: for each label in turn, every row that carries it. *)
Definition loc_rows (df : DataFrame) (labels : list Z) : DataFrame :=
  Frame (columns df)
    (labels ≫= (fun i => List.filter (fun r => bool_decide (label r = i)) (rows df))).

(** Arithmetic on cells: a string operand is a [TypeError]. *)
Definition as_float (v : value) : result float64 :=
  match v with
  | Num x => Ok x
  | Str _ => Raise (TypeError "unsupported operand type(s)")
  end.

Definition div_cells (a b : value) : result value :=
  rbind (as_float a) (fun x => rbind (as_float b) (fun y => Ok (Num (fdiv x y)))).

Fixpoint zip_rmap {A B C} (f : A -> B -> result C) (l : list A) (k : list B)
  : result (list C) :=
  match l, k with
  | x :: l', y :: k' =>
      rbind (f x y) (fun z => rbind (zip_rmap f l' k') (fun zs => Ok (z :: zs)))
  | _, _ => Ok []
  end.

(** ** Sorting (stable), as [np.lexsort] and small [np.argsort] are *)

Section Sorting.
Context {A : Type} (le : A -> A -> bool).

Fixpoint insert_sorted (x : A) (l : list A) : list A :=
  match l with
  | [] => [x]
  | y :: l' => if le x y then x :: y :: l' else y :: insert_sorted x l'
  end.

Fixpoint stable_sort (l : list A) : list A :=
  match l with
  | [] => []
  | x :: l' => insert_sorted x (stable_sort l')
  end.
End Sorting.

(** Orders on sort keys with NaN last in either direction
    ([na_position='last']). *)
Definition asc_le (x y : float64) : bool :=
  match x, y with
  | _, NaN => true
  | NaN, _ => false
  | _, _ => fle x y
  end.

Definition desc_le (x y : float64) : bool :=
  match x, y with
  | _, NaN => true
  | NaN, _ => false
  | _, _ => fle y x
  end.

Definition lex_le {A} (le1 le2 : A -> A -> bool) (x y : A) : bool :=
  if le1 x y then (if le1 y x then le2 x y else true) else false.

(** The number in a cell of a numeric column. *)
Definition as_num (v : value) : float64 :=
  match v with Num x => x | Str _ => NaN end.

Definition num_key (c : string) (r : row) : float64 := as_num (cell r c).

(** [Series.median()]: NaN is skipped; the middle value, or the mean of
    the two middle values; NaN when nothing is left. *)
Definition median (xs : list float64) : float64 :=
  let s := stable_sort fle (List.filter (fun x => negb (is_nan x)) xs) in
  let n := length s in
  if bool_decide (n = 0%nat) then NaN
  else if Nat.even n then
    fdiv (fadd (nth (n / 2 - 1) s NaN) (nth (n / 2) s NaN)) (Fin 2)
  else nth (n / 2) s NaN.

(** ** The store of DataFrame objects *)

Abbreviation loc := nat (only parsing).
Abbreviation store := (list DataFrame) (only parsing).

Definition load (l : loc) : M store DataFrame :=
  fun s =>
    match s !! l with
    | Some df => (Ok df, s)
    | None => (Raise (ValueError "dangling reference"), s)
    end.

Definition alloc (df : DataFrame) : M store loc :=
  fun s => (Ok (length s), s ++ [df]).

Definition write (l : loc) (df : DataFrame) : M store unit :=
  fun s => (Ok tt, <[l := df]> s).

(** [df.copy()] *)
Definition copy (l : loc) : M store loc :=
  let* df := load l in alloc df.

(** [df[c] = vs], in place. *)
Definition setitem (l : loc) (c : string) (vs : list value) : M store unit :=
  let* df := load l in
  let* df' := lift (assign df c vs) in
  write l df'.

(** [df[c]] *)
Definition getitem (l : loc) (c : string) : M store (list value) :=
  let* df := load l in lift (column df c).

(** Routines that build a new frame object from an existing one. *)
Definition derive (l : loc) (f : DataFrame -> result DataFrame) : M store loc :=
  let* df := load l in
  let* df' := lift (f df) in
  alloc df'.

(** [df.sort_values(keys, ascending=...)] on numeric columns: each key is
    a column name and its [ascending] flag; lexicographic and stable. *)
Fixpoint keys_le (keys : list (string * bool)) (r1 r2 : row) : bool :=
  match keys with
  | [] => true
  | (c, asc) :: ks =>
      lex_le
        (fun a b => (if asc then asc_le else desc_le) (num_key c a) (num_key c b))
        (keys_le ks) r1 r2
  end.

Definition sort_values (df : DataFrame) (keys : list (string * bool))
  : result DataFrame :=
  match missing_column df (keys.*1) with
  | Some c => Raise (KeyError c)
  | None => Ok (Frame (columns df) (stable_sort (keys_le keys) (rows df)))
  end.

(** [series < x] *)
Definition lt_cell (x : float64) (v : value) : bool :=
  match v with Num a => flt a x | Str _ => false end.

(** [df.values]: the cells of each row in column order. *)
Definition values (df : DataFrame) : list (list value) :=
  (fun r => cell r <$> columns df) <$> rows df.

(** [df.empty]: some axis has length zero. *)
Definition empty (df : DataFrame) : bool :=
  bool_decide (rows df = []) || bool_decide (columns df = []).

(** [series == z] for an integer [z]. *)
Definition eq_cell (z : Z) (v : value) : bool :=
  match v with Num a => feqb a (of_Z z) | Str _ => false end.

(** ** Python and numpy helpers *)

(** [sub in s] on strings. *)
Fixpoint contains (sub s : string) : bool :=
  String.prefix sub s ||
  match s with
  | EmptyString => false
  | String _ s' => contains sub s'
  end.

(** The bound of a slice: a negative bound counts from the end, and
    bounds are clamped to the list. *)
Definition slice_bound (len : nat) (i : Z) : nat :=
  if (i <? 0)%Z then Z.to_nat (Z.max 0 (Z.of_nat len + i))
  else Z.to_nat (Z.min i (Z.of_nat len)).

(** [l[start:stop]] *)
Definition py_slice {A} (l : list A) (start stop : Z) : list A :=
  let a := slice_bound (length l) start in
  let b := slice_bound (length l) stop in
  take (b - a) (drop a l).

(** [a.argsort()]: positions in ascending order of the values, NaN last;
    equal values keep their order (numpy sorts short arrays by
    insertion). *)
Definition argsort (xs : list float64) : list nat :=
  fst <$> stable_sort (fun a b => asc_le a.2 b.2) (zip (seq 0 (length xs)) xs).

(** [a[idx]] for an array of positions. *)
Definition take_positions {A} (l : list A) (idx : list nat) : list A :=
  omap (fun i => l !! i) idx.

(** ** scikit-learn *)

(** The routines of scikit-learn that the program calls.  A routine
    returns [None] when it raises. *)
Class Sklearn : Type := {
  (** one entry of [cosine_similarity(X, Y)] *)
  cosine : list Q -> list Q -> float64;
  (** [train_test_split(X, y, test_size=0.2, random_state=42)] *)
  train_test_split :
    list (list value) -> list value ->
    option (list (list value) * list (list value) * list value * list value);
  (** a fitted [StandardScaler] *)
  Scaler : Type;
  scaler_fit : list (list value) -> option Scaler;
  scaler_transform : Scaler -> list (list value) -> option (list (list float64));
  (** a fitted [RandomForestRegressor(n_estimators=100, random_state=42)] *)
  Forest : Type;
  forest_fit : list (list float64) -> list value -> option Forest;
  forest_predict : Forest -> list (list float64) -> option (list float64);
  feature_importances_ : Forest -> list float64;
  (** a fitted [GradientBoostingRegressor(n_estimators=100, random_state=42)] *)
  Boosting : Type;
  boosting_fit : list (list float64) -> list value -> option Boosting;
  boosting_predict : Boosting -> list (list float64) -> option (list float64);
  (** metrics *)
  mean_absolute_error : list value -> list float64 -> option float64;
  r2_score : list value -> list float64 -> option float64;
  mean_squared_error : list value -> list float64 -> option float64;
  np_sqrt : float64 -> float64;
  (** [KMeans(n_clusters, random_state=42, n_init).fit_predict(X)] *)
  kmeans_fit_predict :
    Z -> option Z -> list (list float64) -> option (list Z);
}.

Definition sk {A} (routine : string) (o : option A) : result A :=
  match o with
  | Some a => Ok a
  | None => Raise (SklearnError routine)
  end.

(** Input validation of the pairwise metrics: every cell a finite
    number, at least one row on each side. *)
Definition finite_row (r : list value) : option (list Q) :=
  mapM (fun v => match v with Num (Fin q) => Some q | _ => None end) r.

Definition cosine_similarity `{Sklearn} (X Y : list (list value))
  : result (list (list float64)) :=
  match mapM finite_row X, mapM finite_row Y with
  | Some (x :: xs), Some (y :: ys) =>
      Ok ((fun a => cosine a <$> (y :: ys)) <$> (x :: xs))
  | _, _ => Raise (SklearnError "cosine_similarity")
  end.

(** [scaler.fit_transform(X)] *)
Definition fit_transform `{Sklearn} (X : list (list value))
  : result (Scaler * list (list float64)) :=
  rbind (sk "StandardScaler.fit" (scaler_fit X)) (fun sc =>
  rbind (sk "StandardScaler.transform" (scaler_transform sc X)) (fun Xs =>
  Ok (sc, Xs))).

(** ** utils/analytics.py *)

Module Analytics.

(** *** class PlayerValuePredictor *)

Record PlayerValuePredictor `{Sklearn} : Type := Predictor {
  rf_model : option Forest;
  gb_model : option Boosting;
  scaler : option Scaler;
  feature_cols : list string;
  is_trained : bool;
}.
Arguments Predictor {_} _ _ _ _ _.

Record metrics : Type := Metrics {
  mae : float64; r2 : float64; rmse : float64; test_size : nat;
}.

Section Predictor.
Context `{Sklearn}.

(** [__init__]: the three estimators are created unfitted. *)
Definition init : PlayerValuePredictor :=
  Predictor None None None
    ["overall"; "potential"; "age"; "pace"; "shooting";
     "passing"; "dribbling"; "defending"; "physic";
     "height_cm"; "weight_kg"; "weak_foot"; "skill_moves"]
    false.

Definition in_range (v : value) : result bool :=
  rbind (as_float v) (fun y => Ok (flt (Fin 0) y && flt y (Fin 200000000))).

Definition prepare_data (self : PlayerValuePredictor) (df : DataFrame)
  : result (list (list value) * list value) :=
  rbind (select df (feature_cols self)) (fun X =>
  rbind (column df "value_eur") (fun y =>
  rbind (rmap in_range y) (fun ok =>
  let mask :=
    zip_with andb ok (complete (feature_cols self) <$> rows X) in
  Ok (mask_rows (values X) mask, mask_rows y mask)))).

Definition ensemble (rf_pred gb_pred : float64) : float64 :=
  fadd (fmul (lit (6 # 10)) rf_pred) (fmul (lit (4 # 10)) gb_pred).

Definition train (df : DataFrame) : M PlayerValuePredictor metrics :=
  let* self := get in
  let* Xy := lift (prepare_data self df) in
  let* split :=
    lift (sk "train_test_split" (train_test_split Xy.1 Xy.2)) in
  let '(X_train, X_test, y_train, y_test) := split in
  let* sc := lift (sk "StandardScaler.fit" (scaler_fit X_train)) in
  put (Predictor (rf_model self) (gb_model self) (Some sc)
         (feature_cols self) (is_trained self)) >>
  let* X_train_scaled :=
    lift (sk "StandardScaler.transform" (scaler_transform sc X_train)) in
  let* X_test_scaled :=
    lift (sk "StandardScaler.transform" (scaler_transform sc X_test)) in
  let* rf :=
    lift (sk "RandomForestRegressor.fit" (forest_fit X_train_scaled y_train)) in
  put (Predictor (Some rf) (gb_model self) (Some sc)
         (feature_cols self) (is_trained self)) >>
  let* gb :=
    lift (sk "GradientBoostingRegressor.fit"
            (boosting_fit X_train_scaled y_train)) in
  put (Predictor (Some rf) (Some gb) (Some sc)
         (feature_cols self) (is_trained self)) >>
  let* rf_pred :=
    lift (sk "RandomForestRegressor.predict" (forest_predict rf X_test_scaled)) in
  let* gb_pred :=
    lift (sk "GradientBoostingRegressor.predict"
            (boosting_predict gb X_test_scaled)) in
  let ensemble_pred := zip_with ensemble rf_pred gb_pred in
  let* mae :=
    lift (sk "mean_absolute_error" (mean_absolute_error y_test ensemble_pred)) in
  let* r2 := lift (sk "r2_score" (r2_score y_test ensemble_pred)) in
  let* mse :=
    lift (sk "mean_squared_error" (mean_squared_error y_test ensemble_pred)) in
  put (Predictor (Some rf) (Some gb) (Some sc) (feature_cols self) true) >>
  ret (Metrics mae r2 (np_sqrt mse) (length y_test)).

(** [a[0]] *)
Definition first {A} (l : list A) : result A :=
  match l with
  | x :: _ => Ok x
  | [] => Raise (IndexError "index 0 is out of bounds")
  end.

Definition predict (player_features : list value)
  : M PlayerValuePredictor float64 :=
  let* self := get in
  if negb (is_trained self) then
    raise (ValueError "Model must be trained first")
  else
    let* sc := lift (sk "StandardScaler.transform" (scaler self)) in
    let* features_scaled :=
      lift (sk "StandardScaler.transform"
              (scaler_transform sc [player_features])) in
    let* rf := lift (sk "RandomForestRegressor.predict" (rf_model self)) in
    let* rf_preds :=
      lift (sk "RandomForestRegressor.predict"
              (forest_predict rf features_scaled)) in
    let* rf_pred := lift (first rf_preds) in
    let* gb :=
      lift (sk "GradientBoostingRegressor.predict" (gb_model self)) in
    let* gb_preds :=
      lift (sk "GradientBoostingRegressor.predict"
              (boosting_predict gb features_scaled)) in
    let* gb_pred := lift (first gb_preds) in
    ret (ensemble rf_pred gb_pred).

Definition get_feature_importance
  : M PlayerValuePredictor (list (string * float64)) :=
  let* self := get in
  if negb (is_trained self) then
    raise (ValueError "Model must be trained first")
  else
    let* rf :=
      lift (sk "RandomForestRegressor.feature_importances_"
              (rf_model self)) in
    let importance := feature_importances_ rf in
    if bool_decide (length importance = length (feature_cols self)) then
      ret (stable_sort (fun a b => desc_le a.2 b.2)
             (zip (feature_cols self) importance))
    else raise (ValueError "All arrays must be of the same length").
End Predictor.

(** *** class PlayerAnalyzer *)

Definition goalkeeper_weights : list (string * float64) :=
  [("goalkeeping_diving", lit (2 # 10)); ("goalkeeping_handling", lit (2 # 10));
   ("goalkeeping_kicking", lit (15 # 100));
   ("goalkeeping_positioning", lit (2 # 10));
   ("goalkeeping_reflexes", lit (25 # 100))].

Definition defender_weights : list (string * float64) :=
  [("defending", lit (3 # 10)); ("physic", lit (2 # 10)); ("pace", lit (2 # 10));
   ("passing", lit (2 # 10)); ("dribbling", lit (1 # 10))].

Definition midfielder_weights : list (string * float64) :=
  [("passing", lit (3 # 10)); ("dribbling", lit (25 # 100));
   ("defending", lit (15 # 100)); ("physic", lit (15 # 100));
   ("shooting", lit (15 # 100))].

Definition forward_weights : list (string * float64) :=
  [("shooting", lit (3 # 10)); ("pace", lit (25 # 100));
   ("dribbling", lit (25 # 100)); ("passing", lit (1 # 10));
   ("physic", lit (1 # 10))].

(** [sub in position]: a position that is not a string (a NaN cell)
    is not iterable. *)
Definition occurs_in (position : value) (sub : string) : result bool :=
  match position with
  | Str s => Ok (contains sub s)
  | Num _ => Raise (TypeError "argument of type 'float' is not iterable")
  end.

(** [any(pos in position for pos in subs)], left to right. *)
Fixpoint any_occurs_in (position : value) (subs : list string) : result bool :=
  match subs with
  | [] => Ok false
  | sub :: rest =>
      rbind (occurs_in position sub) (fun b =>
      if b then Ok true else any_occurs_in position rest)
  end.

Definition select_weights (position : value)
  : result (list (string * float64)) :=
  rbind (occurs_in position "GK") (fun gk =>
  if gk then Ok goalkeeper_weights else
  rbind (any_occurs_in position ["CB"; "LB"; "RB"; "LWB"; "RWB"]) (fun df =>
  if df then Ok defender_weights else
  rbind (any_occurs_in position ["CM"; "CDM"; "CAM"]) (fun mf =>
  if mf then Ok midfielder_weights else Ok forward_weights))).

(** The loop over [weights.items()], with its two accumulators. *)
Fixpoint weighted_loop (player_data : gmap string value)
    (weights : list (string * float64)) (performance_index : float64)
    (total_weight : float64) : result (float64 * float64) :=
  match weights with
  | [] => Ok (performance_index, total_weight)
  | (attribute, weight) :: rest =>
      match player_data !! attribute with
      | Some v =>
          if notna v then
            rbind (as_float v) (fun x =>
            weighted_loop player_data rest
              (fadd performance_index (fmul x weight))
              (fadd total_weight weight))
          else weighted_loop player_data rest performance_index total_weight
      | None => weighted_loop player_data rest performance_index total_weight
      end
  end.

Definition calculate_performance_index (player_data : gmap string value)
  : result float64 :=
  let position := default (Str "") (player_data !! "player_positions") in
  rbind (select_weights position) (fun weights =>
  rbind (weighted_loop player_data weights (Fin 0) (Fin 0)) (fun acc =>
  let '(performance_index, total_weight) := acc in
  if flt (Fin 0) total_weight
  then Ok (fdiv performance_index total_weight)
  else Ok performance_index)).

Definition similarity_features : list string :=
  ["overall"; "pace"; "shooting"; "passing";
   "dribbling"; "defending"; "physic"; "age"].

Definition similar_columns : list string :=
  ["long_name"; "club_name"; "overall"; "value_eur"; "similarity_score"].

Definition find_similar_players `{Sklearn}
    (df : loc) (target_player_id : Z) (n_similar : Z) : M store loc :=
  let* player_id := getitem df "player_id" in
  let* target_player :=
    derive df (fun d => Ok (where_ d (eq_cell target_player_id <$> player_id))) in
  let* target := load target_player in
  if empty target then alloc empty_frame
  else
    let* target_features :=
      lift (rbind (select target similarity_features) (fun d => Ok (values d))) in
    let* selected := derive df (fun d => select d similarity_features) in
    let* all_features := derive selected (fun d => Ok (dropna d)) in
    let* features := load all_features in
    let* matrix := lift (cosine_similarity target_features (values features)) in
    let* similarities := lift (first matrix) in
    let similar_indices :=
      rev (py_slice (argsort similarities) (- n_similar - 1) (-1)) in
    let labels := take_positions (label <$> rows features) similar_indices in
    let* similar_players := derive df (fun d => Ok (loc_rows d labels)) in
    let* similar_players := copy similar_players in
    setitem similar_players "similarity_score"
      (Num <$> take_positions similarities similar_indices) >>
    derive similar_players (fun d => select d similar_columns).

Definition undervalued_columns : list string :=
  ["long_name"; "club_name"; "overall"; "value_eur"; "value_per_overall"].

Definition identify_undervalued_players (df : loc) (threshold : float64)
  : M store loc :=
  let* df_copy := copy df in
  let* value_eur := getitem df_copy "value_eur" in
  let* overall := getitem df_copy "overall" in
  let* ratio := lift (zip_rmap div_cells value_eur overall) in
  setitem df_copy "value_per_overall" ratio >>
  let* value_per_overall := getitem df_copy "value_per_overall" in
  let median_value_per_overall := median (as_num <$> value_per_overall) in
  let mask :=
    lt_cell (fmul median_value_per_overall threshold) <$> value_per_overall in
  let* undervalued := derive df_copy (fun d => Ok (where_ d mask)) in
  let* undervalued :=
    derive undervalued
      (fun d => sort_values d [("overall", false); ("value_eur", true)]) in
  let* selected := derive undervalued (fun d => select d undervalued_columns) in
  derive selected (fun d => Ok (head d 20)).

End Analytics.

(** ** tactical_analysis.py *)

Module TacticalAnalysis.

Definition cluster_features : list string :=
  ["pace"; "shooting"; "passing"; "dribbling";
   "defending"; "physic"; "overall"].

(** [PlayerClusterAnalyzer.perform_clustering].  The fitted scaler and
    the fitted KMeans object that the method leaves on [self] are not
    part of the state. *)
Definition perform_clustering `{Sklearn} (df : loc) (n_clusters : Z)
  : M store loc :=
  let* selected := derive df (fun d => select d cluster_features) in
  let* cluster_data := derive selected (fun d => Ok (dropna d)) in
  let* data := load cluster_data in
  let* fitted := lift (fit_transform (values data)) in
  let scaled_data := fitted.2 in
  let* clusters :=
    lift (sk "KMeans.fit_predict"
            (kmeans_fit_predict n_clusters (Some 10%Z) scaled_data)) in
  let* located := derive df (fun d => Ok (loc_rows d (label <$> rows data))) in
  let* result_df := copy located in
  setitem result_df "cluster" ((fun k => Num (of_Z k)) <$> clusters) >>
  ret result_df.

End TacticalAnalysis.

(** ** numpy's global generator and [DataFrame.sample] *)

(** The generator is known by the sequence of numbers it will deliver
    and by how many it has delivered. *)
Record RandomState : Type := Generator { outputs : nat -> nat; delivered : nat }.

(** A number between 0 and [max], both included. *)
Definition random_interval (max : nat) : M RandomState nat :=
  fun g =>
    (Ok (outputs g (delivered g) mod S max)%nat,
     Generator (outputs g) (S (delivered g))).

(** [x[i], x[j] = x[j], x[i]] *)
Definition swap {A} (i j : nat) (x : list A) : list A :=
  match x !! i, x !! j with
  | Some a, Some b => <[j := a]> (<[i := b]> x)
  | _, _ => x
  end.

(** [for i in reversed(range(1, n)): j = random_interval(i); swap],
    entered with [i = n - 1]. *)
Fixpoint shuffle {A} (i : nat) (x : list A) : M RandomState (list A) :=
  match i with
  | O => ret x
  | S i' =>
      let* j := random_interval i in
      shuffle i' (swap i j x)
  end.

(** [np.random.permutation(n)] *)
Definition permutation (n : nat) : M RandomState (list nat) :=
  shuffle (n - 1) (seq 0 n).

(** [np.random.choice(n, size, replace=False)] *)
Definition choice (n size : nat) : M RandomState (list nat) :=
  let* idx := permutation n in ret (take size idx).

(** [df.sample(n)] without [random_state]: the global generator. *)
Definition sample (df : DataFrame) (n : nat) : M RandomState DataFrame :=
  if bool_decide (length (rows df) < n)%nat then
    raise (ValueError
      "Cannot take a larger sample than population when 'replace=False'")
  else
    let* locs := choice (length (rows df)) n in
    ret (Frame (columns df) (take_positions (rows df) locs)).

(** ** plotly express *)

Record trace : Type := Trace {
  name : string;
  xs : list value;
  ys : list value;
  marker_color : list value;
  marker_size : list value;
  customdata : list (list value);
}.

Record Figure : Type := Fig {
  data : list trace;
  title : string;
  height : option Z;
  opacity : option Q;
}.

#[global] Instance trace_eq_dec : EqDecision trace.
Proof. solve_decision. Defined.
#[global] Instance Figure_eq_dec : EqDecision Figure.
Proof. solve_decision. Defined.

Definition is_numeric (v : value) : bool :=
  match v with Num _ => true | Str _ => false end.

(** A marker size is a number in [0, inf]. *)
Definition valid_size (v : value) : bool :=
  match v with Num s => fle (Fin 0) s | Str _ => false end.

Definition trace_of (nm : string) (x y : string) (color size : option string)
    (hover : list string) (rs : list row) : trace :=
  Trace nm ((fun r => cell r x) <$> rs) ((fun r => cell r y) <$> rs)
    (from_option (fun c => (fun r => cell r c) <$> rs) [] color)
    (from_option (fun c => (fun r => cell r c) <$> rs) [] size)
    ((fun r => cell r <$> hover) <$> rs).

Definition cell_name (v : value) : string :=
  match v with Str s => s | Num _ => "nan" end.

(** The distinct values of a list in order of first appearance. *)
Fixpoint distinct {A} `{EqDecision A} (l : list A) : list A :=
  match l with
  | [] => []
  | x :: l' => x :: List.filter (fun y => negb (bool_decide (y = x))) (distinct l')
  end.

(** [px.scatter(df, x=, y=, color=, size=, hover_data=, title=)]: a
    numeric colour column gives one trace with a colour per point, any
    other one a trace per value of the column. *)
Definition px_scatter (df : DataFrame) (x y color : string)
    (size : option string) (hover : list string) (ttl : string)
  : result Figure :=
  match missing_column df (x :: y :: color :: from_option (fun c => [c]) [] size ++ hover) with
  | Some c => Raise (ValueError ("not the name of a column: " +:+ c))
  | None =>
      if negb (forallb (fun r => from_option (fun c => valid_size (cell r c)) true size)
                 (rows df))
      then Raise (ValueError "Invalid element(s) received for the 'size' property")
      else if forallb (fun r => is_numeric (cell r color)) (rows df) then
        Ok (Fig [trace_of "" x y (Some color) size hover (rows df)] ttl None None)
      else
        Ok (Fig ((fun v =>
                    trace_of (cell_name v) x y None size hover
                      (List.filter (fun r => bool_decide (cell r color = v)) (rows df)))
                 <$> distinct ((fun r => cell r color) <$> rows df))
              ttl None None)
  end.

(** ** utils/visualizations.py *)

Module Visualizations.

(** [series.str.contains(pat, na=False)] on one cell, for a pattern
    that holds no operator of a regular expression (the position names
    hold none): such a pattern is searched as it is written.  A cell
    that is no string gives [False]. *)
Definition str_contains (pat : string) (v : value) : bool :=
  match v with Str s => contains pat s | Num _ => false end.

(** The characters that are operators in a regular expression. *)
Definition regex_operators : string := ".^$*+?{}[]\|()".

(** The pattern holds none of them. *)
Definition literal (pat : string) : bool :=
  forallb
    (fun c => negb (bool_decide (c ∈ String.list_ascii_of_string regex_operators)))
    (String.list_ascii_of_string pat).

(** [series.str.contains(pat, na=False)] on a column, for such a
    pattern.  The accessor [.str] is for a column of strings: on a
    column that holds numbers only, NaN among them, it raises
    [AttributeError] (a column without cells is taken to be one of
    strings). *)
Definition series_str_contains (pat : string) (cells : list value)
  : result (list bool) :=
  if forallb is_numeric cells && negb (bool_decide (cells = []))
  then Raise (AttributeError "Can only use .str accessor with string values!")
  else Ok (str_contains pat <$> cells).

(** [position_filter] is [None] or a string. *)
Definition create_value_vs_performance_scatter
    (df : DataFrame) (position_filter : option string)
  : M RandomState Figure :=
  let* df_filtered :=
    match position_filter with
    | Some p =>
        if negb (bool_decide (p = "")) && negb (bool_decide (p = "All")) then
          let* positions := lift (column df "player_positions") in
          let* mask := lift (series_str_contains p positions) in
          ret (where_ df mask)
        else ret df
    | None => ret df
    end in
  let sample_size := Nat.min 1000 (length (rows df_filtered)) in
  let* df_sample := sample df_filtered sample_size in
  let* fig :=
    lift (px_scatter df_sample "overall" "value_eur" "age" (Some "potential")
            ["long_name"; "club_name"; "player_positions"]
            "Player Value vs Overall Rating") in
  ret (Fig (data fig) (title fig) (Some 500%Z) (Some (7 # 10)%Q)).

End Visualizations.

(** ** streamlit and the file system *)

Inductive element : Type :=
  | Markdown (body : string)
  | Error (body : string).

#[global] Instance element_eq_dec : EqDecision element.
Proof. solve_decision. Defined.

(** One run of a dashboard script: what [pd.read_csv] yields for each
    path, and what has been put on the page so far. *)
Record session : Type := Session {
  files : string -> result DataFrame;
  screen : list element;
}.

Definition read_csv (path : string) : M session DataFrame :=
  fun w => (files w path, w).

Definition st_markdown (body : string) : M session unit :=
  fun w => (Ok tt, Session (files w) (screen w ++ [Markdown body])).

Definition st_error (body : string) : M session unit :=
  fun w => (Ok tt, Session (files w) (screen w ++ [Error body])).

(** [st.stop()] ends the run by raising [StopException]. *)
Definition st_stop {A} : M session A := raise StopException.

(** [try: body except Exception as e: handler(e)] *)
Definition try_except {S A} (body : M S A) (handler : exn -> M S A) : M S A :=
  fun s =>
    match body s with
    | (Ok a, s') => (Ok a, s')
    | (Raise e, s') => if is_Exception e then handler e s' else (Raise e, s')
    end.

(** [str(e)] *)
Definition str (e : exn) : string :=
  match e with
  | KeyError k => "'" +:+ k +:+ "'"
  | ValueError m | TypeError m | ParserError m | IndexError m
  | AttributeError m => m
  | FileNotFoundError p =>
      "[Errno 2] No such file or directory: '" +:+ p +:+ "'"
  | SklearnError r => r
  | KeyboardInterrupt | StopException => ""
  end.

(** [df[c] = v] for one value [v]. *)
Definition assign_all (df : DataFrame) (c : string) (v : value) : DataFrame :=
  Frame (if has_column df c then columns df else columns df ++ [c])
    (set_cell c v <$> rows df).

(** [pd.concat([a, b], ignore_index=True)]: the union of the columns,
    the rows of [a] then those of [b], relabelled from 0. *)
Definition concat (a b : DataFrame) : DataFrame :=
  Frame (columns a ++ List.filter (fun c => negb (has_column a c)) (columns b))
    (imap (fun i r => Row (Z.of_nat i) (cells r)) (rows a ++ rows b)).

(** [series.fillna(0)] *)
Definition fillna0 (v : value) : value :=
  if notna v then v else Num (Fin 0).

(** [pd.cut(age, bins=[0, 20, 25, 30, 35, 50], labels=[...])]: intervals
    closed on the right, NaN outside of them. *)
Definition age_group (v : value) : result value :=
  rbind (as_float v) (fun a =>
  Ok (if flt (Fin 0) a && fle a (Fin 20) then Str "U20"
      else if flt (Fin 20) a && fle a (Fin 25) then Str "20-25"
      else if flt (Fin 25) a && fle a (Fin 30) then Str "25-30"
      else if flt (Fin 30) a && fle a (Fin 35) then Str "30-35"
      else if flt (Fin 35) a && fle a (Fin 50) then Str "35+"
      else Num NaN)).

(** ** app.py *)

Module App.

Definition core_fields : list string := ["overall"; "potential"; "value_eur"].

(** The body of the [try] block of [load_data]. *)
Definition load_data_body : M session DataFrame :=
  let* male_players := read_csv "data/male_players.csv" in
  let* female_players := read_csv "data/female_players.csv" in
  let male_players := assign_all male_players "gender" (Str "Male") in
  let female_players := assign_all female_players "gender" (Str "Female") in
  let all_players := concat male_players female_players in
  let* all_players := lift (dropna_subset all_players core_fields) in
  let* value_eur := lift (column all_players "value_eur") in
  let* all_players :=
    lift (assign all_players "value_eur" (fillna0 <$> value_eur)) in
  let* wage_eur := lift (column all_players "wage_eur") in
  let* all_players :=
    lift (assign all_players "wage_eur" (fillna0 <$> wage_eur)) in
  let* age := lift (column all_players "age") in
  let* groups := lift (rmap age_group age) in
  let* all_players := lift (assign all_players "age_group" groups) in
  ret all_players.

Definition load_data : M session (option DataFrame) :=
  try_except
    (let* all_players := load_data_body in ret (Some all_players))
    (fun e => st_error ("Error loading data: " +:+ str e) >> ret None).

(** The text of the page header (its markup is left out). *)
Definition header : string := "FIFA Analytics Dashboard".

(** [main]: [render] is everything after the data has been loaded
    (sidebar filters and the four tabs). *)
Definition main (render : DataFrame -> M session unit) : M session unit :=
  st_markdown header >>
  let* df := load_data in
  match df with
  | None => st_stop
  | Some df => render df
  end.

(** The Age-vs-Overall chart of the Overview tab. *)
Definition age_vs_overall_scatter (filtered_df : DataFrame)
  : M RandomState Figure :=
  let* df_sample :=
    sample filtered_df (Nat.min 1000 (length (rows filtered_df))) in
  lift (px_scatter df_sample "age" "overall" "gender" None []
          "Age vs Overall Rating").

Definition cluster_features : list string :=
  ["overall"; "pace"; "shooting"; "passing";
   "dribbling"; "defending"; "physic"].

(** The clustering step of the ML Insights tab; [n_clusters] is what
    the slider returns.  [None] when a size test fails and no
    [cluster_df] is made. *)
Definition clustering_step `{Sklearn} (filtered_df : loc) (n_clusters : Z)
  : M store (option loc) :=
  let* filtered := load filtered_df in
  if bool_decide (10 < length (rows filtered))%nat then
    let* selected := derive filtered_df (fun d => select d cluster_features) in
    let* cluster_data := derive selected (fun d => Ok (dropna d)) in
    let* cdata := load cluster_data in
    if bool_decide (5 < length (rows cdata))%nat then
      let* fitted := lift (fit_transform (values cdata)) in
      let scaled_data := fitted.2 in
      let* clusters :=
        lift (sk "KMeans.fit_predict"
                (kmeans_fit_predict n_clusters None scaled_data)) in
      let* located :=
        derive filtered_df (fun d => Ok (loc_rows d (label <$> rows cdata))) in
      let* cluster_df := copy located in
      setitem cluster_df "cluster" ((fun k => Num (of_Z k)) <$> clusters) >>
      ret (Some cluster_df)
    else ret None
  else ret None.

End App.

(** ** advanced_analytics.py *)

Module AdvancedAnalytics.

(** The body of the [try] block of the nested [load_data]. *)
Definition load_data_body : M session DataFrame :=
  let* male_players := read_csv "data/male_players.csv" in
  let* female_players := read_csv "data/female_players.csv" in
  let male_players := assign_all male_players "gender" (Str "Male") in
  let female_players := assign_all female_players "gender" (Str "Female") in
  let all_players := concat male_players female_players in
  lift (dropna_subset all_players ["overall"; "potential"]).

Definition load_data : M session (option DataFrame) :=
  try_except
    (let* all_players := load_data_body in ret (Some all_players))
    (fun e => st_error ("Error loading data: " +:+ str e) >> ret None).

End AdvancedAnalytics.

(** * Further functions of the program *)

(** ** More pandas and Python routines *)

(** [series.sum()] and [series.mean()]: NaN is skipped; the sum of
    nothing is 0, the mean of nothing is NaN.  The numbers are added
    from the first to the last (on a long column numpy adds in blocks,
    which can change the last bits of the sum). *)
Definition fsum (xs : list float64) : float64 :=
  foldl fadd (Fin 0) (List.filter (fun x => negb (is_nan x)) xs).

Definition mean (xs : list float64) : float64 :=
  let kept := List.filter (fun x => negb (is_nan x)) xs in
  fdiv (fsum xs) (of_Z (Z.of_nat (length kept))).

(** The numbers of a numeric column, for [mean], [sum] and [nlargest];
    a string cell is a [TypeError] ([sum] would concatenate a column
    made of strings only, which is not described). *)
Definition numeric_column (df : DataFrame) (c : string) : result (list float64) :=
  rbind (column df c) (rmap as_float).

(** [a == b] on cells. *)
Definition same_value (a b : value) : bool :=
  match a, b with
  | Num x, Num y => feqb x y
  | Str s, Str t => bool_decide (s = t)
  | _, _ => false
  end.

(** [series == name] for a string. *)
Definition eq_str (name : string) (v : value) : bool := same_value v (Str name).

(** [series.unique()]: the values of a column, each once, in order of
    first appearance; NaN counts as one value. *)
Definition same_key (a b : value) : bool :=
  negb (notna a) && negb (notna b) || same_value a b.

Fixpoint unique (vs : list value) : list value :=
  match vs with
  | [] => []
  | v :: vs' => v :: List.filter (fun w => negb (same_key w v)) (unique vs')
  end.

(** [series.nunique()]: NaN is not counted. *)
Definition nunique (vs : list value) : nat :=
  length (unique (List.filter notna vs)).

(** [series.isin(names)] for a list of strings. *)
Definition isin (names : list string) (v : value) : bool :=
  match v with
  | Str s => bool_decide (s ∈ names)
  | Num _ => false
  end.

(** [series >= z] and [series <= z] for an integer [z]: a string cell is
    a [TypeError]. *)
Definition ge_cell (z : Z) (v : value) : result bool :=
  rbind (as_float v) (fun x => Ok (fle (of_Z z) x)).

Definition le_cell (z : Z) (v : value) : result bool :=
  rbind (as_float v) (fun x => Ok (fle x (of_Z z))).

(** [df.nlargest(n, c)] on a numeric column: the first [n] rows in
    descending order of [c], NaN last, equal values in their order in the
    frame ([keep='first']); no row for [n <= 0].  (pandas selects with a
    stable sort when [n] is less than the number of rows; a frame of at
    most [n] rows is short here, [n] being at most 6, and numpy sorts a
    short array by insertion.)  A column of strings is a [TypeError]. *)
Definition nlargest (df : DataFrame) (n : Z) (c : string) : result DataFrame :=
  rbind (numeric_column df c) (fun _ =>
  Ok (Frame (columns df)
        (take (Z.to_nat n)
           (stable_sort (fun a b => desc_le (num_key c a) (num_key c b))
              (rows df))))).

(** [df.iloc[0]] as a Series: every column of the frame with the cell of
    the first row; [IndexError] on a frame without rows. *)
Definition series_of (df : DataFrame) (r : row) : gmap string value :=
  list_to_map ((fun c => (c, cell r c)) <$> columns df).

Definition iloc0 (df : DataFrame) : result (gmap string value) :=
  match rows df with
  | r :: _ => Ok (series_of df r)
  | [] => Raise (IndexError "single positional indexer is out-of-bounds")
  end.

(** [series[c]] *)
Definition item (s : gmap string value) (c : string) : result value :=
  match s !! c with
  | Some v => Ok v
  | None => Raise (KeyError c)
  end.

(** [sorted(values)]: numbers ascending, or strings in lexicographic
    order; numbers and strings together are a [TypeError].  (What Python
    returns when a NaN is among the numbers is not described.) *)
Definition py_le (a b : value) : bool :=
  match a, b with
  | Num x, Num y => fle x y
  | Str s, Str t => String.leb s t
  | _, _ => false
  end.

Definition py_sorted (vs : list value) : result (list value) :=
  if forallb is_numeric vs || forallb (fun v => negb (is_numeric v)) vs
  then Ok (stable_sort py_le vs)
  else Raise (TypeError "'<' not supported between instances of 'str' and 'float'").

(** ** utils/analytics.py: [generate_player_report] *)

Module AnalyticsReport.

Record report : Type := Report {
  name : value; club : value; position : value; age : value;
  nationality : value;
  overall : value; potential : value; performance_index : float64;
  market_value : value; wage : value;
  similar_players : nat;
  pace : value; shooting : value; passing : value;
  dribbling : value; defending : value; physic : value;
}.

(** [similar_players] is the location of the frame that
    [find_similar_players] returns. *)
Definition generate_player_report `{Sklearn} (df : loc) (player_id : Z)
  : M store report :=
  let* ids := getitem df "player_id" in
  let* matching := derive df (fun d => Ok (where_ d (eq_cell player_id <$> ids))) in
  let* found := load matching in
  let* player_data := lift (iloc0 found) in
  let* name := lift (item player_data "long_name") in
  let* club := lift (item player_data "club_name") in
  let* position := lift (item player_data "player_positions") in
  let* age := lift (item player_data "age") in
  let* nationality := lift (item player_data "nationality_name") in
  let* overall := lift (item player_data "overall") in
  let* potential := lift (item player_data "potential") in
  let* performance_index :=
    lift (Analytics.calculate_performance_index player_data) in
  let* market_value := lift (item player_data "value_eur") in
  let* wage := lift (item player_data "wage_eur") in
  let* similar_players := Analytics.find_similar_players df player_id 5 in
  let* pace := lift (item player_data "pace") in
  let* shooting := lift (item player_data "shooting") in
  let* passing := lift (item player_data "passing") in
  let* dribbling := lift (item player_data "dribbling") in
  let* defending := lift (item player_data "defending") in
  let* physic := lift (item player_data "physic") in
  ret (Report name club position age nationality overall potential
         performance_index market_value wage similar_players
         pace shooting passing dribbling defending physic).

End AnalyticsReport.

(** ** tactical_analysis.py: after [perform_clustering] *)

Module TacticalDashboard.

Record cluster_info : Type := ClusterInfo {
  cluster_id : value;
  cluster_name : string;
  player_count : nat;
  avg_overall : float64;
  avg_pace : float64;
  avg_shooting : float64;
  avg_passing : float64;
  avg_dribbling : float64;
  avg_defending : float64;
  avg_physic : float64;
  top_players : list value;
}.

(** The name of a cluster from the means of its features. *)
Definition name_of (avg : string -> float64) : string :=
  if flt (Fin 70) (avg "defending") && flt (avg "pace") (Fin 60)
  then "Defensive Anchors"
  else if flt (Fin 80) (avg "pace") && flt (Fin 70) (avg "shooting")
  then "Pace & Power"
  else if flt (Fin 80) (avg "passing") && flt (Fin 75) (avg "dribbling")
  then "Playmakers"
  else if flt (Fin 80) (avg "shooting") then "Clinical Finishers"
  else if flt (Fin 60) (avg "defending") && flt (Fin 70) (avg "passing")
  then "Box-to-Box"
  else "Balanced Players".

(** [avg_stats[c]] for one of the features. *)
Definition stat (avg_stats : list (string * float64)) (c : string) : float64 :=
  default NaN (snd <$> List.find (fun cs => bool_decide (cs.1 = c)) avg_stats).

(** The body of the loop of [get_cluster_characteristics]. *)
Definition cluster_row (clustered_df : DataFrame) (id : value)
  : result cluster_info :=
  rbind (column clustered_df "cluster") (fun cl =>
  let cluster_players := where_ clustered_df (same_value id <$> cl) in
  rbind (select cluster_players TacticalAnalysis.cluster_features) (fun feats =>
  rbind (rmap (fun c => rbind (numeric_column feats c) (fun xs => Ok (c, mean xs)))
           TacticalAnalysis.cluster_features) (fun avg_stats =>
  rbind (nlargest cluster_players 3 "overall") (fun top =>
  rbind (column top "long_name") (fun names =>
  let avg := stat avg_stats in
  Ok (ClusterInfo id (name_of avg) (length (rows cluster_players))
        (avg "overall") (avg "pace") (avg "shooting") (avg "passing")
        (avg "dribbling") (avg "defending") (avg "physic") names)))))).

Definition get_cluster_characteristics (clustered_df : DataFrame)
  : result (list cluster_info) :=
  rbind (column clustered_df "cluster") (fun cl =>
  rbind (py_sorted (unique cl)) (fun ids =>
  rmap (cluster_row clustered_df) ids)).

Definition formation_positions : list (string * list (string * Z)) :=
  [("4-3-3", [("GK", 1); ("CB", 2); ("LB", 1); ("RB", 1); ("CM", 2);
              ("CAM", 1); ("LW", 1); ("RW", 1); ("ST", 1)]%Z);
   ("4-4-2", [("GK", 1); ("CB", 2); ("LB", 1); ("RB", 1); ("CM", 2);
              ("LM", 1); ("RM", 1); ("ST", 2)]%Z)].

Definition best_columns : list string :=
  ["long_name"; "club_name"; "overall"; "value_eur"].

(** The body of the loop of [tactical_formation_analyzer]. *)
Definition best_for (df : DataFrame) (slot : string * Z)
  : result (string * DataFrame) :=
  rbind (column df "player_positions") (fun positions =>
  rbind (Visualizations.series_str_contains slot.1 positions) (fun mask =>
  let position_players := where_ df mask in
  rbind (nlargest position_players (slot.2 * 3) "overall") (fun best_players =>
  rbind (select best_players best_columns) (fun best =>
  Ok (slot.1, best))))).

Definition tactical_formation_analyzer (df : DataFrame) (formation : string)
  : result (option (list (string * DataFrame))) :=
  match List.find (fun f => bool_decide (f.1 = formation)) formation_positions with
  | None => Ok None
  | Some f => rbind (rmap (best_for df) f.2) (fun best_team => Ok (Some best_team))
  end.

Definition loaded_fields : list string :=
  ["overall"; "pace"; "shooting"; "passing"; "dribbling"; "defending"; "physic"].

(** The body of the [try] block of the [load_data] of [main]. *)
Definition load_data_body : M session DataFrame :=
  let* male_players := read_csv "data/male_players.csv" in
  let* female_players := read_csv "data/female_players.csv" in
  let male_players := assign_all male_players "gender" (Str "Male") in
  let female_players := assign_all female_players "gender" (Str "Female") in
  let all_players := concat male_players female_players in
  lift (dropna_subset all_players loaded_fields).

Definition load_data : M session (option DataFrame) :=
  try_except
    (let* all_players := load_data_body in ret (Some all_players))
    (fun e => st_error ("Error loading data: " +:+ str e) >> ret None).

(** The Player Clustering mode of [main], up to the cluster
    characteristics: [n_clusters] and [min_overall] are what the two
    sliders return. *)
Definition player_clustering `{Sklearn} (df : loc) (n_clusters min_overall : Z)
  : M store (loc * list cluster_info) :=
  let* overall := getitem df "overall" in
  let* mask := lift (rmap (ge_cell min_overall) overall) in
  let* filtered_df := derive df (fun d => Ok (where_ d mask)) in
  let* clustered_df := TacticalAnalysis.perform_clustering filtered_df n_clusters in
  let* clustered := load clustered_df in
  let* cluster_chars := lift (get_cluster_characteristics clustered) in
  ret (clustered_df, cluster_chars).

End TacticalDashboard.

(** ** tactical_analysis.py: the Team Builder *)

Module TeamBuilder.

Record team_stats : Type := TeamStats {
  avg_overall : float64;
  avg_age : float64;
  total_value : float64;
  nationality_diversity : nat;
  league_diversity : nat;
  avg_pace : float64;
  avg_shooting : float64;
  avg_passing : float64;
  avg_defending : float64;
}.

Definition create_team_chemistry_analysis (df : DataFrame)
    (selected_players : list string) : result (option team_stats) :=
  if bool_decide (length selected_players < 11)%nat then Ok None
  else
    rbind (column df "long_name") (fun names =>
    let team_df := where_ df (isin selected_players <$> names) in
    rbind (numeric_column team_df "overall") (fun overall =>
    rbind (numeric_column team_df "age") (fun age =>
    rbind (numeric_column team_df "value_eur") (fun value =>
    rbind (column team_df "nationality_name") (fun nationality =>
    rbind (column team_df "league_name") (fun league =>
    rbind (numeric_column team_df "pace") (fun pace =>
    rbind (numeric_column team_df "shooting") (fun shooting =>
    rbind (numeric_column team_df "passing") (fun passing =>
    rbind (numeric_column team_df "defending") (fun defending =>
    Ok (Some (TeamStats (mean overall) (mean age) (fsum value)
                (nunique nationality) (nunique league)
                (mean pace) (mean shooting) (mean passing)
                (mean defending))))))))))))).

End TeamBuilder.

(** ** app.py: the skills of a player and the sidebar filters *)

Module AppFilters.

Definition skill_cols : list string :=
  ["pace"; "shooting"; "passing"; "dribbling"; "defending"; "physic"].

(** [get_player_skills]: a dictionary in the order of [skill_cols]. *)
Definition get_player_skills (df : DataFrame) (player_id : Z)
  : result (list (string * value)) :=
  rbind (column df "player_id") (fun ids =>
  rbind (iloc0 (where_ df (eq_cell player_id <$> ids))) (fun player =>
  rmap (fun col => rbind (item player col) (fun v => Ok (col, v)))
    (List.filter (has_column df) skill_cols))).

(** One optional filter of the sidebar: ['All'] leaves the frame as it
    is. *)
Definition filter_unless_all (selected : string) (c : string)
    (test : string -> list value -> result (list bool)) (df : DataFrame)
  : result DataFrame :=
  if bool_decide (selected = "All") then Ok df
  else
    rbind (column df c) (fun vs =>
    rbind (test selected vs) (fun mask => Ok (where_ df mask))).

(** [series == name] on a column. *)
Definition series_eq (name : string) (cells : list value) : result (list bool) :=
  Ok (eq_str name <$> cells).

(** The [&] of boolean columns. *)
Definition in_range (lo hi : Z) (v : value) : result bool :=
  rbind (ge_cell lo v) (fun a => rbind (le_cell hi v) (fun b => Ok (a && b))).

(** "Apply filters" in [main]: the selections of the three select boxes
    and of the two range sliders. *)
Definition apply_filters (df : DataFrame)
    (selected_gender selected_position selected_league : string)
    (age_range overall_range : Z * Z) : result DataFrame :=
  let filtered_df := df in
  rbind (filter_unless_all selected_gender "gender" series_eq filtered_df)
    (fun filtered_df =>
  rbind (filter_unless_all selected_position "player_positions"
           Visualizations.series_str_contains filtered_df) (fun filtered_df =>
  rbind (filter_unless_all selected_league "league_name" series_eq filtered_df)
    (fun filtered_df =>
  rbind (column filtered_df "age") (fun age =>
  rbind (rmap (in_range age_range.1 age_range.2) age) (fun age_ok =>
  rbind (column filtered_df "overall") (fun overall =>
  rbind (rmap (in_range overall_range.1 overall_range.2) overall)
    (fun overall_ok =>
  Ok (where_ filtered_df (zip_with andb age_ok overall_ok))))))))).

End AppFilters.

(** ** utils/analytics.py: [analyze_market_trends] *)

(** The order of the groups of [groupby]: numbers in ascending order,
    then strings in lexicographic order (a missing key makes no group). *)
Definition key_le (a b : value) : bool :=
  match a, b with
  | Num x, Num y => asc_le x y
  | Num _, Str _ => true
  | Str _, Num _ => false
  | Str s, Str t => String.leb s t
  end.

(** The rows of a group. *)
Definition group (df : DataFrame) (key : string) (k : value) : list row :=
  List.filter (fun r => same_value k (cell r key)) (rows df).

(** [df.groupby(key)[c].mean()]: for each value of the key column, in
    the order of the groups, the mean of [c] over the rows of the
    group. *)
Definition groupby_mean (df : DataFrame) (key c : string)
  : result (list (value * float64)) :=
  rbind (column df key) (fun keys =>
  rbind (numeric_column df c) (fun _ =>
  Ok ((fun k => (k, mean (num_key c <$> group df key k)))
        <$> stable_sort key_le (unique (List.filter notna keys))))).

(** [series.sort_values(ascending=False)]: NaN last (equal values are
    left in the order of the series; pandas promises no order among
    them). *)
Definition sort_series_descending (s : list (value * float64))
  : list (value * float64) :=
  stable_sort (fun a b => desc_le a.2 b.2) s.

Module AnalyticsTrends.

Record trends : Type := Trends {
  age : list (value * float64);
  overall : list (value * float64);
  position : list (value * float64);
  league : list (value * float64);
}.

Definition analyze_market_trends (df : DataFrame) : result trends :=
  rbind (groupby_mean df "age" "value_eur") (fun age_trend =>
  rbind (groupby_mean df "overall" "value_eur") (fun overall_trend =>
  rbind (groupby_mean df "player_positions" "value_eur") (fun by_position =>
  let position_trend := sort_series_descending by_position in
  rbind (groupby_mean df "league_name" "value_eur") (fun by_league =>
  let league_trend := sort_series_descending by_league in
  Ok (Trends age_trend overall_trend
        (take 10 position_trend) (take 10 league_trend)))))).

End AnalyticsTrends.

(** * Vocabulary of the statements *)

(** ** Undervalued players *)

Definition ratio (r : row) : float64 :=
  fdiv (num_key "value_eur" r) (num_key "overall" r).

Definition with_ratio (r : row) : row :=
  set_cell "value_per_overall" (Num (ratio r)) r.

Definition below_threshold (df : DataFrame) (t : float64) (r : row) : bool :=
  flt (ratio r) (fmul (median (ratio <$> rows df)) t).

(** Higher overall first; for the same overall, lower value first. *)
Definition ranks_before (r1 r2 : row) : Prop :=
  flt (num_key "overall" r2) (num_key "overall" r1) = true \/
  (feqb (num_key "overall" r1) (num_key "overall" r2) = true /\
   fle (num_key "value_eur" r1) (num_key "value_eur" r2) = true).

(** Players rated 45 with the given market values. *)
Definition priced_at (values : list Z) : DataFrame :=
  Frame ["long_name"; "club_name"; "overall"; "value_eur"]
    (imap (fun i v =>
             Row (Z.of_nat i)
               (list_to_map [("long_name", Str "Player"); ("club_name", Str "Club");
                             ("overall", Num (of_Z 45)); ("value_eur", Num (of_Z v))]))
       values).

(** ** Frames of the store *)

(** [keeps s0 m Q]: run from any store that extends [s0], [m] ends in a
    store that still extends [s0], and the value it returns satisfies
    [Q]. *)
Definition keeps {A} (s0 : store) (m : M store A) (Q : A -> Prop) : Prop :=
  forall s r s', s0 `prefix_of` s -> m s = (r, s') ->
    s0 `prefix_of` s' /\ forall a, r = Ok a -> Q a.

Definition fresh_from (s0 : store) (l : loc) : Prop := (length s0 <= l)%nat.

(** ** Clustering *)

(** What scikit-learn documents for [KMeans.fit_predict]: one label for
    each sample, the labels being indices of clusters. *)
Definition kmeans_contract `{Sklearn} : Prop :=
  forall n n_init X labels,
    kmeans_fit_predict n n_init X = Some labels ->
    length labels = length X /\ Forall (fun k => 0 <= k < n)%Z labels.

(** [StandardScaler.transform] returns one row for each row it is given. *)
Definition scaler_contract `{Sklearn} : Prop :=
  forall sc X Xs, scaler_transform sc X = Some Xs -> length Xs = length X.

Definition set_cluster (k : Z) (r : row) : row :=
  set_cell "cluster" (Num (of_Z k)) r.

(** [m], run from [s] where [l] holds [df], leaves every frame of [s] as
    it was, [df] at [l] among them, and a location it returns is a new
    one. *)
Definition input_unchanged (s : store) (l : loc) (df : DataFrame)
    (m : M store loc) : Prop :=
  forall r s', m s = (r, s') ->
    s' !! l = Some df /\
    take (length s) s' = s /\
    forall l', r = Ok l' -> (length s <= l')%nat /\ l' <> l.

(** The same labelled rows as [df], less those with a missing feature,
    each with one cluster label below [n]. *)
Definition clustered (features : list string) (n : Z) (df out : DataFrame)
  : Prop :=
  exists clusters : list Z,
    rows out =
      zip_with set_cluster clusters (List.filter (complete features) (rows df)) /\
    length clusters = length (List.filter (complete features) (rows df)) /\
    Forall (fun k => 0 <= k < n)%Z clusters.

(** ** Examples *)

(** An instance to run the definitions on: similarity by dot product,
    scaling by the identity, constant regressors and metrics, cluster
    labels by position modulo the number of clusters. *)
Definition dot (a b : list Q) : Q :=
  foldr Qplus 0%Q (zip_with Qmult a b).

Definition example_sklearn : Sklearn := {|
  cosine := fun a b => Fin (dot a b);
  train_test_split := fun X y =>
    match X with
    | [] => None
    | _ => Some (X, take 1 X, y, take 1 y)
    end;
  Scaler := unit;
  scaler_fit := fun X => match X with [] => None | _ => Some tt end;
  scaler_transform := fun _ X =>
    Some (List.map (List.map as_num) X);
  Forest := unit;
  forest_fit := fun _ _ => Some tt;
  forest_predict := fun _ X => Some (replicate (length X) (Fin 1000));
  feature_importances_ := fun _ => replicate 13 (Fin (1 # 13));
  Boosting := unit;
  boosting_fit := fun _ _ => Some tt;
  boosting_predict := fun _ X => Some (replicate (length X) (Fin 2000));
  mean_absolute_error := fun _ _ => Some (Fin 0);
  r2_score := fun _ _ => Some (Fin 1);
  mean_squared_error := fun _ _ => Some (Fin 0);
  np_sqrt := fun x => x;
  kmeans_fit_predict := fun n _ X =>
    if bool_decide (0 < n <= Z.of_nat (length X))%Z
    then Some (List.map (fun i => Z.of_nat i mod n)%Z (seq 0 (length X)))
    else None;
|}.

Definition example_columns : list string :=
  ["player_id"; "long_name"; "club_name"; "player_positions"; "overall";
   "potential"; "value_eur"; "wage_eur"; "age"; "pace"; "shooting";
   "passing"; "dribbling"; "defending"; "physic"; "height_cm"; "weight_kg";
   "weak_foot"; "skill_moves"].

(** Player number [i]: the rating grows and the value falls with [i]. *)
Definition example_player (i : Z) : row :=
  Row i (list_to_map
    [("player_id", Num (of_Z (100 + i))); ("long_name", Str "Player");
     ("club_name", Str "Club"); ("player_positions", Str "ST");
     ("overall", Num (of_Z (60 + i))); ("potential", Num (of_Z (70 + i)));
     ("value_eur", Num (of_Z (1000000 - 50000 * i)));
     ("wage_eur", Num (of_Z 1000)); ("age", Num (of_Z (20 + i)));
     ("pace", Num (of_Z (50 + i))); ("shooting", Num (of_Z (80 - i)));
     ("passing", Num (of_Z 60)); ("dribbling", Num (of_Z (55 + 2 * i)));
     ("defending", Num (of_Z 40)); ("physic", Num (of_Z 65));
     ("height_cm", Num (of_Z 180)); ("weight_kg", Num (of_Z 75));
     ("weak_foot", Num (of_Z 3)); ("skill_moves", Num (of_Z 3))]).

Definition example_frame (n : nat) : DataFrame :=
  Frame example_columns ((fun i => example_player (Z.of_nat i)) <$> seq 0 n).

(** The same frame, the pace of the first player missing. *)
Definition example_frame_gap (n : nat) : DataFrame :=
  Frame example_columns
    (set_cell "pace" (Num NaN) (example_player (-1))
       :: ((fun i => example_player (Z.of_nat i)) <$> seq 0 n)).


(** ** Performance index *)

(** An attribute counts when the record has it and it is not NaN. *)
Definition present (player_data : gmap string value) (aw : string * float64)
  : bool :=
  match player_data !! aw.1 with
  | Some v => notna v
  | None => false
  end.

Definition attribute (player_data : gmap string value) (a : string) : float64 :=
  as_num (default (Num NaN) (player_data !! a)).

(** The weighted sum over the attributes that count: the products of
    attribute and weight, added to 0 in the order of the weight set. *)
Definition weighted_sum (player_data : gmap string value)
    (weights : list (string * float64)) : float64 :=
  foldl (fun sum aw => fadd sum (fmul (attribute player_data aw.1) aw.2))
    (Fin 0) (List.filter (present player_data) weights).

(** The total weight of the attributes that count, added in the same
    order. *)
Definition weight_present (player_data : gmap string value)
    (weights : list (string * float64)) : float64 :=
  foldl (fun sum aw => fadd sum aw.2)
    (Fin 0) (List.filter (present player_data) weights).

(** The weighted sum divided by the weight that took part in it. *)
Definition weighted_mean (player_data : gmap string value)
    (weights : list (string * float64)) : float64 :=
  if flt (Fin 0) (weight_present player_data weights)
  then fdiv (weighted_sum player_data weights)
         (weight_present player_data weights)
  else weighted_sum player_data weights.

(** The weight set of a position string: goalkeeper first, then
    defender, then midfielder, forward otherwise. *)
Definition weights_of_position (position : string)
  : list (string * float64) :=
  if contains "GK" position then Analytics.goalkeeper_weights
  else if existsb (fun p => contains p position) ["CB"; "LB"; "RB"; "LWB"; "RWB"]
  then Analytics.defender_weights
  else if existsb (fun p => contains p position) ["CM"; "CDM"; "CAM"]
  then Analytics.midfielder_weights
  else Analytics.forward_weights.

(** The position string of a record: [''] when the record has none. *)
Definition position_is (player_data : gmap string value) (position : string)
  : Prop :=
  default (Str "") (player_data !! "player_positions") = Str position.

(** No weighted attribute of the record is a string. *)
Definition numeric_attributes (player_data : gmap string value)
    (weights : list (string * float64)) : Prop :=
  forall a v, a ∈ weights.*1 -> player_data !! a = Some v -> is_numeric v = true.

(** A striker of whom only the shooting is known. *)
Definition striker_shooting_only : gmap string value :=
  list_to_map [("player_positions", Str "ST"); ("shooting", Num (of_Z 80));
               ("pace", Num NaN)].

(** A record whose position is missing. *)
Definition position_missing : gmap string value :=
  list_to_map [("player_positions", Num NaN); ("shooting", Num (of_Z 80))].

(** A centre-back with 80 in each of the five defender attributes. *)
Definition centre_back_at_80 : gmap string value :=
  list_to_map [("player_positions", Str "CB"); ("defending", Num (of_Z 80));
               ("physic", Num (of_Z 80)); ("pace", Num (of_Z 80));
               ("passing", Num (of_Z 80)); ("dribbling", Num (of_Z 80))].

(** A midfielder with the five midfield attributes. *)
Definition complete_midfielder : gmap string value :=
  list_to_map [("player_positions", Str "CM, CDM"); ("passing", Num (of_Z 80));
               ("dribbling", Num (of_Z 76)); ("defending", Num (of_Z 70));
               ("physic", Num (of_Z 66)); ("shooting", Num (of_Z 60))].

(** ** Similar players *)

(** The frame behind the location a computation returns. *)
Definition returned (out : result nat * list DataFrame) : option DataFrame :=
  match out with
  | (Ok l, s) => s !! l
  | (Raise _, _) => None
  end.

(** Two players with the same eight feature values. *)
Definition twin (i : Z) (id : Z) (name : string) : row :=
  Row i (list_to_map
    [("player_id", Num (of_Z id)); ("long_name", Str name);
     ("club_name", Str "Club"); ("overall", Num (of_Z 80));
     ("value_eur", Num (of_Z 1000000)); ("pace", Num (of_Z 70));
     ("shooting", Num (of_Z 75)); ("passing", Num (of_Z 72));
     ("dribbling", Num (of_Z 78)); ("defending", Num (of_Z 40));
     ("physic", Num (of_Z 68)); ("age", Num (of_Z 25))]).

Definition twins : DataFrame :=
  Frame ["player_id"; "long_name"; "club_name"; "overall"; "value_eur";
         "pace"; "shooting"; "passing"; "dribbling"; "defending"; "physic";
         "age"]
    [twin 0 1 "Target"; twin 1 2 "Twin"].

(** ** Sampled charts *)

(** The rows that pass the position filter of
    [create_value_vs_performance_scatter]. *)
Definition position_filtered (df : DataFrame) (position_filter : option string)
  : list row :=
  match position_filter with
  | None | Some "" | Some "All" => rows df
  | Some p =>
      List.filter (fun r => Visualizations.str_contains p (cell r "player_positions"))
        (rows df)
  end.

(** The filter, when there is one, holds no operator of a regular
    expression. *)
Definition literal_filter (position_filter : option string) : Prop :=
  match position_filter with
  | Some p => Visualizations.literal p = true
  | None => True
  end.

(** [shown] are [k] rows drawn without repetition from [population]. *)
Definition drawn_from (population : list row) (k : nat) (shown : list row) : Prop :=
  exists p, p ≡ₚ population /\ shown = take k p.

(** A frame of [n] players whose overall rating is their number. *)
Definition numbered_player (i : nat) : row :=
  Row (Z.of_nat i) (list_to_map
    [("long_name", Str "Player"); ("club_name", Str "Club");
     ("player_positions", Str "ST"); ("overall", Num (of_Z (Z.of_nat i)));
     ("potential", Num (of_Z 80)); ("value_eur", Num (of_Z 1000000));
     ("age", Num (of_Z 25)); ("gender", Str "Male")]).

Definition numbered_frame (n : nat) : DataFrame :=
  Frame ["long_name"; "club_name"; "player_positions"; "overall"; "potential";
         "value_eur"; "age"; "gender"]
    (numbered_player <$> seq 0 n).

(** A generator that delivers 0, 1, 2, ... *)
Definition counting_generator : RandomState := Generator (fun k => k) 0.

(** The x values that a chart plots. *)
Definition plotted (out : result Figure) : list value :=
  match out with
  | Ok fig => data fig ≫= xs
  | Raise _ => []
  end.

(** A first call of [create_value_vs_performance_scatter] on 1001
    players, and a second call with the same arguments right after it. *)
Definition first_call : result Figure * RandomState :=
  Visualizations.create_value_vs_performance_scatter
    (numbered_frame 1001) None counting_generator.

Definition second_call : result Figure * RandomState :=
  Visualizations.create_value_vs_performance_scatter
    (numbered_frame 1001) None first_call.2.

(** ** Loading *)

(** The three core fields of a row, as they are. *)
Definition core (r : row) : value * value * value :=
  (cell r "overall", cell r "potential", cell r "value_eur").

(** The three core fields are there. *)
Definition core_present (c : value * value * value) : bool :=
  notna c.1.1 && notna c.1.2 && notna c.2.

(** Overall and potential are there. *)
Definition ratings_present (c : value * value * value) : bool :=
  notna c.1.1 && notna c.1.2.

(** The rows of both files, male players first. *)
Definition players_on_file (male female : DataFrame) : list row :=
  rows male ++ rows female.

(** The message that [load_data] shows for the exception [e]. *)
Definition loading_error (e : exn) : element :=
  Error ("Error loading data: " +:+ str e).

(** A session where the file of the male players is not there. *)
Definition session_without_male_file : session :=
  Session
    (fun path =>
       if bool_decide (path = "data/female_players.csv")
       then Ok (example_frame 2)
       else Raise (FileNotFoundError path))
    [].

(** Two files: a woman with a rating of 150 and a value, a man without
    value, a man without overall rating. *)
Definition odd_player (i : Z) (overall value : float64) : row :=
  Row i (list_to_map
    [("long_name", Str "Player"); ("overall", Num overall);
     ("potential", Num (of_Z 70)); ("value_eur", Num value);
     ("wage_eur", Num NaN); ("age", Num (of_Z 27))]).

Definition odd_columns : list string :=
  ["long_name"; "overall"; "potential"; "value_eur"; "wage_eur"; "age"].

Definition session_with_odd_rows : session :=
  Session
    (fun path =>
       if bool_decide (path = "data/male_players.csv")
       then Ok (Frame odd_columns
                  [odd_player 0 (of_Z 81) NaN; odd_player 1 NaN (of_Z 500)])
       else if bool_decide (path = "data/female_players.csv")
       then Ok (Frame odd_columns [odd_player 0 (of_Z 150) (of_Z (-3))])
       else Raise (FileNotFoundError path))
    [].

(** The frame that a call of [load_data] returned ([pd.DataFrame()] when
    it returned none). *)
Definition loaded (out : result (option DataFrame) * session) : DataFrame :=
  match out.1 with
  | Ok (Some df) => df
  | _ => empty_frame
  end.

Definition has_loaded (out : result (option DataFrame) * session) : bool :=
  match out.1 with
  | Ok (Some _) => true
  | _ => false
  end.

(** ** The value predictor *)

(** The error of the guard of [predict] and [get_feature_importance]. *)
Definition not_trained : exn := ValueError "Model must be trained first".

(** The calls that a client can make on a predictor. *)
Inductive call : Type :=
  | Train (df : DataFrame)
  | Predict (player_features : list value)
  | FeatureImportance.

Definition error_of {A} (r : result A) : option exn :=
  match r with
  | Ok _ => None
  | Raise e => Some e
  end.

(** One call: the exception it raised, if any, and the predictor after
    it. *)
Definition perform `{Sklearn} (c : call) (self : Analytics.PlayerValuePredictor)
  : option exn * Analytics.PlayerValuePredictor :=
  match c with
  | Train df => let out := Analytics.train df self in (error_of out.1, out.2)
  | Predict x => let out := Analytics.predict x self in (error_of out.1, out.2)
  | FeatureImportance =>
      let out := Analytics.get_feature_importance self in (error_of out.1, out.2)
  end.

(** A sequence of calls on a new predictor: the predictor after them. *)
Definition after_calls `{Sklearn} (cs : list call) : Analytics.PlayerValuePredictor :=
  foldl (fun self c => (perform c self).2) Analytics.init cs.

(** Some call of [cs], made in turn on a new predictor, is a [train]
    that returned. *)
Definition train_succeeded `{Sklearn} (cs : list call) : Prop :=
  exists before df after,
    cs = before ++ Train df :: after /\
    (perform (Train df) (after_calls before)).1 = None.

(** ** Training data *)

(** A player [prepare_data] can use: a market value strictly between 0
    and 200 million, and every feature present. *)
Definition trainable (features : list string) (r : row) : bool :=
  match cell r "value_eur" with
  | Num y => flt (Fin 0) y && flt y (Fin 200000000)
  | Str _ => false
  end && complete features r.

(** The three estimators of a predictor have been fitted. *)
Definition fitted `{Sklearn} (self : Analytics.PlayerValuePredictor) : Prop :=
  is_Some (Analytics.rf_model self) /\
  is_Some (Analytics.gb_model self) /\
  is_Some (Analytics.scaler self).

(** What the two regressors of a predictor say for one player. *)
Definition regressor_predictions `{Sklearn}
    (self : Analytics.PlayerValuePredictor) (player_features : list value)
  : option (float64 * float64) :=
  sc ← Analytics.scaler self;
  features_scaled ← scaler_transform sc [player_features];
  rf ← Analytics.rf_model self;
  rf_pred ← forest_predict rf features_scaled ≫= fun l => l !! 0%nat;
  gb ← Analytics.gb_model self;
  gb_pred ← boosting_predict gb features_scaled ≫= fun l => l !! 0%nat;
  Some (rf_pred, gb_pred).

(** Three players worth 50000, 0 and -50000. *)
Definition cheap_players : DataFrame :=
  Frame example_columns [example_player 19; example_player 20; example_player 21].

(** The features of a new predictor. *)
Definition init_features : list string :=
  @Analytics.feature_cols example_sklearn Analytics.init.

(** Similarity scores with the most similar first (a NaN score, were
    there one, before the others). *)
Definition most_similar_first (scores : list float64) : Prop :=
  StronglySorted (fun a b => asc_le b a = true) scores.

(** A row of the frame carries the id. *)
Definition has_player (df : DataFrame) (id : Z) : Prop :=
  Exists (fun r => eq_cell id (cell r "player_id") = true) (rows df).

(** Four players, the second one a goalkeeper: he has none of the six
    outfield ratings. *)
Definition squad_with_goalkeeper : DataFrame :=
  Frame example_columns
    [example_player 0;
     foldr (fun c r => set_cell c (Num NaN) r) (example_player 1)
       ["pace"; "shooting"; "passing"; "dribbling"; "defending"; "physic"];
     example_player 2; example_player 3].

(** ** Formations and teams *)

(** The position occurs in the positions of the player. *)
Definition plays (position : string) (r : row) : bool :=
  Visualizations.str_contains position (cell r "player_positions").

(** [best] holds, with the four columns shown, the first [n] of the
    players of [df] for [position] in descending order of their overall
    rating. *)
Definition best_rated (df : DataFrame) (position : string) (n : Z)
    (best : DataFrame) : Prop :=
  columns best = TacticalDashboard.best_columns /\
  exists ranked : list row,
    rows best = restrict TacticalDashboard.best_columns <$> take (Z.to_nat n) ranked /\
    ranked ≡ₚ List.filter (plays position) (rows df) /\
    StronglySorted
      (fun a b => desc_le (num_key "overall" a) (num_key "overall" b) = true)
      ranked.

(** The player is one of the selected ones. *)
Definition selected (names : list string) (r : row) : bool :=
  isin names (cell r "long_name").

(** The columns that [create_team_chemistry_analysis] reads. *)
Definition team_columns : list string :=
  ["long_name"; "overall"; "age"; "value_eur"; "nationality_name";
   "league_name"; "pace"; "shooting"; "passing"; "defending"].

(** Eleven names that no example player has. *)
Definition strangers : list string :=
  ["A"; "B"; "C"; "D"; "E"; "F"; "G"; "H"; "I"; "J"; "K"].

(** The example players with their nationality and league. *)
Definition example_league (n : nat) : DataFrame :=
  Frame (example_columns ++ ["nationality_name"; "league_name"])
    ((fun i => set_cell "league_name" (Str "League")
                 (set_cell "nationality_name" (Str "Nation")
                    (example_player (Z.of_nat i)))) <$> seq 0 n).

(** ** Cluster characteristics *)

(** The row has the cluster id. *)
Definition in_cluster (id : value) (r : row) : bool :=
  same_value id (cell r "cluster").

(** The players of a frame in the cluster. *)
Definition members (df : DataFrame) (id : value) : list row :=
  List.filter (in_cluster id) (rows df).

(** The overall rating is at least [min_overall]. *)
Definition rated_at_least (min_overall : Z) (r : row) : bool :=
  fle (of_Z min_overall) (num_key "overall" r).

(** The cluster id in a cell. *)
Definition cluster_cell (k : Z) : value := Num (of_Z k).

(** Four players in two clusters. *)
Definition example_clustered : DataFrame :=
  Frame (example_columns ++ ["cluster"])
    (zip_with set_cluster [0; 1; 0; 1]%Z (rows (example_frame 4))).

(** ** The players of the tactical dashboard *)

(** The rows of both files with their gender, male players first. *)
Definition tagged_players (male female : DataFrame) : list row :=
  (set_cell "gender" (Str "Male") <$> rows male)
  ++ (set_cell "gender" (Str "Female") <$> rows female).

(** Two files; the first of the male players has no pace. *)
Definition session_with_goalkeeper : session :=
  Session
    (fun path =>
       if bool_decide (path = "data/male_players.csv")
       then Ok (example_frame_gap 2)
       else if bool_decide (path = "data/female_players.csv")
       then Ok (example_frame 2)
       else Raise (FileNotFoundError path))
    [].

(** ** The sidebar filters and the skills of a player *)

(** The first row of the frame with the id. *)
Definition first_with_id (df : DataFrame) (id : Z) : option row :=
  List.head (List.filter (fun r => eq_cell id (cell r "player_id")) (rows df)).

(** A bound of a slider lies on the right side of a value. *)
Definition within (range : Z * Z) (v : value) : bool :=
  fle (of_Z range.1) (as_num v) && fle (as_num v) (of_Z range.2).

(** The row passes every filter of the sidebar that is not on ['All']. *)
Definition passes (selected_gender selected_position selected_league : string)
    (age_range overall_range : Z * Z) (r : row) : bool :=
  (bool_decide (selected_gender = "All")
   || eq_str selected_gender (cell r "gender"))
  && (bool_decide (selected_position = "All")
      || Visualizations.str_contains selected_position (cell r "player_positions"))
  && (bool_decide (selected_league = "All")
      || eq_str selected_league (cell r "league_name"))
  && (within age_range (cell r "age") && within overall_range (cell r "overall")).

(** ** Market trends *)

(** [trend] has one entry for each value of the key column that is not
    missing, with the mean market value of the rows that have it. *)
Definition trend_of (df : DataFrame) (key : string)
    (trend : list (value * float64)) : Prop :=
  trend.*1 ≡ₚ unique (List.filter notna ((fun r => cell r key) <$> rows df)) /\
  Forall (fun e => e.2 = mean (num_key "value_eur" <$> group df key e.1)) trend.

(** The ten entries of a trend with the highest means, highest first. *)
Definition top_ten_of (df : DataFrame) (key : string)
    (shown : list (value * float64)) : Prop :=
  exists ranked,
    shown = take 10 ranked /\
    trend_of df key ranked /\
    StronglySorted (fun a b => desc_le a.2 b.2 = true) ranked.

(** The example players in two leagues. *)
Definition example_two_leagues : DataFrame :=
  Frame (example_columns ++ ["league_name"])
    ((fun i => set_cell "league_name"
                 (Str (if Nat.even i then "Premier" else "Liga"))
                 (example_player (Z.of_nat i))) <$> seq 0 4).

(** ** Numbers that are not negative *)

(** [0 <= x]: a number that is not negative, or the positive infinity;
    not NaN. *)
Definition nonneg (x : float64) : Prop := fle (Fin 0) x = true.

(** Every weighted attribute that the record holds is NaN or a number
    that is not negative. *)
Definition rated_nonneg (player_data : gmap string value)
    (weights : list (string * float64)) : Prop :=
  forall a v, a ∈ weights.*1 -> player_data !! a = Some v ->
    v = Num NaN \/ exists q, v = Num (Fin q) /\ (0 <= q)%Q.

(** All the lists that keep some elements of a list, in their order. *)
Fixpoint sublists {A} (l : list A) : list (list A) :=
  match l with
  | [] => [[]]
  | x :: l' => ((fun s => x :: s) <$> sublists l') ++ sublists l'
  end.

(** The weights are positive, and however many of a set are added, the
    sum is a number. *)
Definition sound_weights (weights : list (string * float64)) : bool :=
  forallb (fun aw => flt (Fin 0) aw.2 && is_finite aw.2) weights
  && forallb (fun s => is_finite (foldl (fun sum aw => fadd sum aw.2) (Fin 0) s))
       (sublists weights).

(** A defender with 100 in each of the five defender attributes. *)
Definition defender_at_100 : gmap string value :=
  list_to_map [("player_positions", Str "RB"); ("defending", Num (of_Z 100));
               ("physic", Num (of_Z 100)); ("pace", Num (of_Z 100));
               ("passing", Num (of_Z 100)); ("dribbling", Num (of_Z 100))].

(** * Properties *)

(** ** The order on float64 *)

Lemma Qle_bool_total a b : Qle_bool a b = true \/ Qle_bool b a = true.
Proof.
  rewrite !Qle_bool_iff. destruct (Qlt_le_dec a b) as [H|H]; [left|right]; auto.
  apply Qlt_le_weak, H.
Qed.

Lemma Qle_bool_trans a b c :
  Qle_bool a b = true -> Qle_bool b c = true -> Qle_bool a c = true.
Proof. rewrite !Qle_bool_iff. apply Qle_trans. Qed.

Lemma fle_trans x y z : fle x y = true -> fle y z = true -> fle x z = true.
Proof.
  destruct x, y, z; simpl; try done. apply Qle_bool_trans.
Qed.

Lemma fle_total x y :
  is_nan x = false -> is_nan y = false -> fle x y = true \/ fle y x = true.
Proof.
  destruct x, y; simpl; try done; auto. intros _ _. apply Qle_bool_total.
Qed.

Lemma flt_not_nan x y : flt x y = true -> is_nan x = false /\ is_nan y = false.
Proof. destruct x, y; simpl; done. Qed.

Lemma fdiv_not_nan x y :
  is_nan (fdiv x y) = false -> is_nan x = false /\ is_nan y = false.
Proof. destruct x, y; simpl; done. Qed.

Lemma asc_le_total x y : asc_le x y = true \/ asc_le y x = true.
Proof.
  destruct x, y; simpl; auto. apply Qle_bool_total.
Qed.

Lemma asc_le_trans x y z :
  asc_le x y = true -> asc_le y z = true -> asc_le x z = true.
Proof.
  destruct x, y, z; simpl; try done. apply Qle_bool_trans.
Qed.

Lemma desc_le_total x y : desc_le x y = true \/ desc_le y x = true.
Proof.
  destruct x, y; simpl; auto. apply Qle_bool_total.
Qed.

Lemma desc_le_trans x y z :
  desc_le x y = true -> desc_le y z = true -> desc_le x z = true.
Proof.
  destruct x, y, z; simpl; try done. intros; eapply Qle_bool_trans; eauto.
Qed.

(** ** Total preorders given by a boolean test, and the stable sort *)

Section Preorder.
Context {A : Type}.

Definition total (le : A -> A -> bool) : Prop :=
  forall x y, le x y = true \/ le y x = true.

Definition transitive (le : A -> A -> bool) : Prop :=
  forall x y z, le x y = true -> le y z = true -> le x z = true.

Lemma lex_le_total (le1 le2 : A -> A -> bool) :
  total le1 -> total le2 -> total (lex_le le1 le2).
Proof.
  intros T1 T2 x y. unfold lex_le.
  destruct (le1 x y) eqn:Exy, (le1 y x) eqn:Eyx; auto.
  destruct (T1 x y); congruence.
Qed.

Lemma lex_le_trans (le1 le2 : A -> A -> bool) :
  total le1 -> transitive le1 -> transitive le2 ->
  transitive (lex_le le1 le2).
Proof.
  intros T1 R1 R2 x y z. unfold lex_le.
  destruct (le1 x y) eqn:Exy; [|done].
  destruct (le1 y z) eqn:Eyz; [|by destruct (le1 y x)].
  rewrite (R1 x y z Exy Eyz).
  destruct (le1 z x) eqn:Ezx; [|done].
  rewrite (R1 z x y Ezx Exy), (R1 y z x Eyz Ezx). apply R2.
Qed.

Context (le : A -> A -> bool).

Lemma insert_sorted_perm x l : insert_sorted le x l ≡ₚ x :: l.
Proof.
  induction l as [|y l IH]; simpl; [done|].
  destruct (le x y); [done|]. rewrite IH. apply Permutation_swap.
Qed.

Lemma stable_sort_perm l : stable_sort le l ≡ₚ l.
Proof.
  induction l as [|x l IH]; simpl; [done|].
  by rewrite insert_sorted_perm, IH.
Qed.

Lemma insert_sorted_sorted x l :
  total le -> transitive le ->
  StronglySorted (fun a b => le a b = true) l ->
  StronglySorted (fun a b => le a b = true) (insert_sorted le x l).
Proof.
  intros T R. induction 1 as [|y l Hs IH Hy]; simpl.
  - repeat constructor.
  - destruct (le x y) eqn:E.
    + constructor; [by constructor|]. constructor; [done|].
      eapply Forall_impl; [exact Hy|]. intros z Hz. by apply (R x y z).
    + constructor; [done|].
      rewrite insert_sorted_perm. constructor; [|done].
      destruct (T x y); congruence.
Qed.

Lemma stable_sort_sorted l :
  total le -> transitive le ->
  StronglySorted (fun a b => le a b = true) (stable_sort le l).
Proof.
  intros T R. induction l as [|x l IH]; simpl; [constructor|].
  by apply insert_sorted_sorted.
Qed.

Lemma stable_sort_length l : length (stable_sort le l) = length l.
Proof. apply Permutation_length, stable_sort_perm. Qed.
End Preorder.

Lemma keys_le_total keys : total (keys_le keys).
Proof.
  induction keys as [|[c asc] ks IH]; [by left|].
  simpl. apply lex_le_total; [|done].
  intros x y. destruct asc; [apply asc_le_total|apply desc_le_total].
Qed.

Lemma keys_le_trans keys : transitive (keys_le keys).
Proof.
  induction keys as [|[c asc] ks IH]; [done|].
  simpl. apply lex_le_trans; [| |done].
  - intros x y. destruct asc; [apply asc_le_total|apply desc_le_total].
  - intros x y z. destruct asc; [apply asc_le_trans|apply desc_le_trans].
Qed.

(** ** Running the store primitives *)

Lemma load_run (s : store) l df : s !! l = Some df -> load l s = (Ok df, s).
Proof. intros H. unfold load. by rewrite H. Qed.

Lemma copy_run (s : store) l df :
  s !! l = Some df -> copy l s = (Ok (length s), s ++ [df]).
Proof. intros H. unfold copy, bind. by rewrite (load_run _ _ _ H). Qed.

Lemma getitem_run (s : store) l df c :
  s !! l = Some df -> getitem l c s = (column df c, s).
Proof. intros H. unfold getitem, bind. rewrite (load_run _ _ _ H). by destruct (column df c). Qed.

Lemma setitem_run (s : store) l df c vs :
  s !! l = Some df ->
  setitem l c vs s =
    match assign df c vs with
    | Ok d => (Ok tt, <[l := d]> s)
    | Raise e => (Raise e, s)
    end.
Proof.
  intros H. unfold setitem, bind. rewrite (load_run _ _ _ H).
  unfold lift. by destruct (assign df c vs).
Qed.

Lemma derive_run (s : store) l df f :
  s !! l = Some df ->
  derive l f s =
    match f df with
    | Ok d => (Ok (length s), s ++ [d])
    | Raise e => (Raise e, s)
    end.
Proof.
  intros H. unfold derive, bind. rewrite (load_run _ _ _ H).
  unfold lift. by destruct (f df).
Qed.

Lemma lookup_snoc (s : store) df : (s ++ [df]) !! length s = Some df.
Proof. by rewrite list_lookup_middle. Qed.

Lemma insert_snoc (s : store) df d : <[length s := d]> (s ++ [df]) = s ++ [d].
Proof.
  rewrite insert_app_r_alt by lia. by rewrite Nat.sub_diag.
Qed.

Lemma lookup_old (s t : store) l df : s !! l = Some df -> (s ++ t) !! l = Some df.
Proof. apply lookup_app_l_Some. Qed.

(** ** Undervalued players *)

Lemma zip_rmap_div vs os rs :
  zip_rmap div_cells vs os = Ok rs ->
  rs = zip_with (fun v o => Num (fdiv (as_num v) (as_num o))) vs os.
Proof.
  revert os rs. induction vs as [|v vs IH]; intros [|o os] rs; simpl;
    try (intros [= <-]; done).
  destruct v as [x|], o as [y|]; simpl; try done.
  destruct (zip_rmap div_cells vs os) eqn:E; simpl; [|done].
  intros [= <-]. f_equal. by apply IH.
Qed.

Lemma column_cells df c vs :
  column df c = Ok vs -> vs = (fun r => cell r c) <$> rows df.
Proof. unfold column. destruct (has_column df c); by intros [= <-]. Qed.

Lemma assign_rows df c vs d :
  assign df c vs = Ok d -> rows d = zip_with (set_cell c) vs (rows df).
Proof. unfold assign. case_bool_decide; by intros [= <-]. Qed.

Lemma zip_with_fmap_same {A B C D} (f : B -> C -> D) (g : A -> B) (h : A -> C) l :
  zip_with f (g <$> l) (h <$> l) = (fun x => f (g x) (h x)) <$> l.
Proof. induction l as [|x l IH]; csimpl; [done|]. by rewrite IH. Qed.

Lemma zip_with_fmap_self {A B C} (f : B -> A -> C) (g : A -> B) l :
  zip_with f (g <$> l) l = (fun x => f (g x) x) <$> l.
Proof. induction l as [|x l IH]; csimpl; [done|]. by rewrite IH. Qed.

Lemma mask_rows_fmap {A B} (f : A -> B) (p : A -> bool) l :
  mask_rows (f <$> l) (p <$> l) = f <$> List.filter p l.
Proof.
  induction l as [|x l IH]; csimpl; [done|]. destruct (p x); csimpl; by rewrite IH.
Qed.

Lemma cell_set_cell c v r : cell (set_cell c v r) c = v.
Proof. unfold cell, set_cell. simpl. by rewrite lookup_insert_eq. Qed.

Lemma cell_set_cell_ne c c' v r : c <> c' -> cell (set_cell c v r) c' = cell r c'.
Proof. intros. unfold cell, set_cell. simpl. by rewrite lookup_insert_ne. Qed.

Lemma flt_fle_false x y :
  is_nan x = false -> is_nan y = false -> fle x y = false -> flt y x = true.
Proof.
  destruct x, y; simpl; try done. unfold Qlt_bool. by intros _ _ ->.
Qed.

Lemma StronglySorted_impl {A} (R1 R2 : A -> A -> Prop) (P : A -> Prop) l :
  (forall a b, P a -> P b -> R1 a b -> R2 a b) ->
  Forall P l -> StronglySorted R1 l -> StronglySorted R2 l.
Proof.
  intros HR HP. induction 1 as [|x l Hs IH Hx]; [constructor|].
  inversion HP as [|?? Px Pl]; subst. constructor; [by apply IH|].
  rewrite Forall_forall in *. intros y Hy. apply HR; auto.
Qed.

Lemma keys_le_ranks_before r1 r2 :
  is_nan (ratio r1) = false -> is_nan (ratio r2) = false ->
  keys_le [("overall", false); ("value_eur", true)] (with_ratio r1) (with_ratio r2) = true ->
  ranks_before (with_ratio r1) (with_ratio r2).
Proof.
  intros N1 N2. unfold ranks_before, keys_le, lex_le, num_key, with_ratio.
  rewrite !cell_set_cell_ne by done.
  apply fdiv_not_nan in N1 as [Nv1 No1], N2 as [Nv2 No2].
  unfold num_key in *.
  set (o1 := as_num (cell r1 "overall")) in *.
  set (o2 := as_num (cell r2 "overall")) in *.
  set (v1 := as_num (cell r1 "value_eur")) in *.
  set (v2 := as_num (cell r2 "value_eur")) in *.
  assert (D : forall x y, is_nan x = false -> is_nan y = false -> desc_le x y = fle y x)
    by (by intros [] []).
  assert (U : forall x y, is_nan x = false -> is_nan y = false -> asc_le x y = fle x y)
    by (by intros [] []).
  rewrite !D, !U by done.
  destruct (fle o2 o1) eqn:E21; [|done].
  destruct (fle o1 o2) eqn:E12.
  - destruct (fle v1 v2) eqn:Ev; [|done]. intros _. right. unfold feqb.
    by rewrite E12, E21.
  - intros _. left. by apply flt_fle_false.
Qed.

Lemma identify_undervalued_players_run (s : store) l df t l' s' :
  s !! l = Some df ->
  Analytics.identify_undervalued_players l t s = (Ok l', s') ->
  exists S new,
    s' = s ++ new /\
    s' !! l' =
      Some (Frame Analytics.undervalued_columns
              (restrict Analytics.undervalued_columns <$> take 20 S)) /\
    S ≡ₚ with_ratio <$> List.filter (below_threshold df t) (rows df) /\
    StronglySorted ranks_before S.
Proof.
  intros Hl. unfold Analytics.identify_undervalued_players.
  unfold bind at 1. rewrite (copy_run _ _ _ Hl).
  unfold bind at 1. rewrite (getitem_run _ _ df) by apply lookup_snoc.
  destruct (column df "value_eur") as [vs|] eqn:Ev; [|done].
  unfold bind at 1. rewrite (getitem_run _ _ df) by apply lookup_snoc.
  destruct (column df "overall") as [os|] eqn:Eo; [|done].
  unfold bind at 1. unfold lift at 1.
  destruct (zip_rmap div_cells vs os) as [rs|] eqn:Er; [|done].
  unfold bind at 1. rewrite (setitem_run _ _ df) by apply lookup_snoc.
  destruct (assign df "value_per_overall" rs) as [d1|] eqn:Ea; [|done].
  rewrite insert_snoc.
  unfold bind at 1. rewrite (getitem_run _ _ d1) by apply lookup_snoc.
  destruct (column d1 "value_per_overall") as [vpo|] eqn:Evpo; [|done].
  unfold bind at 1. rewrite (derive_run _ _ d1) by apply lookup_snoc.
  unfold bind at 1. rewrite (derive_run _ _ _ _ (lookup_snoc _ _)).
  match goal with
  | |- context [sort_values ?d ?k] =>
      destruct (sort_values d k) as [d2|] eqn:Es; [|done]
  end.
  unfold bind at 1. rewrite (derive_run _ _ _ _ (lookup_snoc _ _)).
  destruct (select d2 Analytics.undervalued_columns) as [d3|] eqn:Esel; [|done].
  rewrite (derive_run _ _ _ _ (lookup_snoc _ _)).
  intros [= <- <-].
  apply column_cells in Ev, Eo, Evpo. apply zip_rmap_div in Er.
  apply assign_rows in Ea.
  rewrite Ev, Eo, zip_with_fmap_same in Er.
  change (rs = (fun r => Num (ratio r)) <$> rows df) in Er.
  rewrite Er, zip_with_fmap_self in Ea.
  change (rows d1 = with_ratio <$> rows df) in Ea.
  assert (Hvpo : vpo = (fun r => Num (ratio r)) <$> rows df).
  { rewrite Evpo, Ea, <- list_fmap_compose. apply list_fmap_ext.
    intros i r _. simpl. apply cell_set_cell. }
  assert (Hmask :
    mask_rows (rows d1) (lt_cell (fmul (median (as_num <$> vpo)) t) <$> vpo)
    = with_ratio <$> List.filter (below_threshold df t) (rows df)).
  { rewrite Ea, Hvpo, <- !list_fmap_compose. apply mask_rows_fmap. }
  unfold sort_values in Es.
  destruct (missing_column _ _); [done|]. injection Es as <-.
  unfold select in Esel.
  destruct (missing_column _ _); [done|]. injection Esel as <-.
  simpl in *. rewrite Hmask.
  set (le := keys_le [("overall", false); ("value_eur", true)]).
  set (Q := with_ratio <$> List.filter (below_threshold df t) (rows df)).
  exists (stable_sort le Q). eexists. split; [by rewrite <- !app_assoc|].
  split; [|split].
  - rewrite lookup_snoc. unfold head. simpl. by rewrite fmap_take.
  - apply stable_sort_perm.
  - pose proof (stable_sort_sorted le Q (keys_le_total _) (keys_le_trans _)) as HS.
    eapply (StronglySorted_impl _ _
              (fun r => exists r0, r = with_ratio r0 /\ is_nan (ratio r0) = false));
      [| |exact HS].
    + intros a b (a0 & -> & Na) (b0 & -> & Nb). by apply keys_le_ranks_before.
    + rewrite Forall_forall. intros r Hr.
      rewrite list_elem_of_In in Hr.
      apply (Permutation_in _ (stable_sort_perm le Q)) in Hr.
      unfold Q in Hr. apply in_map_iff in Hr as (r0 & <- & Hr0).
      apply filter_In in Hr0 as [_ Hb]. exists r0. split; [done|].
      unfold below_threshold in Hb. by apply flt_not_nan in Hb as [? _].
Qed.

Lemma zip_rmap_div_numeric (rs : list row) :
  Forall (fun r => is_numeric (cell r "value_eur") = true /\
                   is_numeric (cell r "overall") = true) rs ->
  exists vs,
    zip_rmap div_cells ((fun r => cell r "value_eur") <$> rs)
      ((fun r => cell r "overall") <$> rs) = Ok vs /\
    length vs = length rs.
Proof.
  induction 1 as [|r rs [Hv Ho] _ (vs & IH & Hlen)]; csimpl; [by exists []|].
  destruct (cell r "value_eur") as [x|]; [|done].
  destruct (cell r "overall") as [y|]; [|done].
  simpl. rewrite IH. simpl. eexists. split; [done|]. simpl. by rewrite Hlen.
Qed.

Lemma has_column_true df c : has_column df c = true <-> c ∈ columns df.
Proof. unfold has_column. apply bool_decide_eq_true. Qed.

Lemma missing_column_none df cs :
  missing_column df cs = None <-> forall c, c ∈ cs -> c ∈ columns df.
Proof.
  unfold missing_column. split.
  - intros H c Hc. apply has_column_true.
    apply list_elem_of_In in Hc.
    pose proof (find_none _ _ H c Hc) as Hn. by apply negb_false_iff in Hn.
  - intros H. destruct (find _ cs) as [c|] eqn:E; [|done].
    apply find_some in E as [Hc Hn]. apply list_elem_of_In, H, has_column_true in Hc.
    by rewrite Hc in Hn.
Qed.

(** On a frame with the four columns it reads, the value and the overall
    rating being numbers, [identify_undervalued_players] returns. *)
Lemma identify_undervalued_players_returns (s : store) l df t :
  s !! l = Some df ->
  (forall c, c ∈ ["value_eur"; "overall"; "long_name"; "club_name"] ->
             c ∈ columns df) ->
  Forall (fun r => is_numeric (cell r "value_eur") = true /\
                   is_numeric (cell r "overall") = true) (rows df) ->
  exists l' s', Analytics.identify_undervalued_players l t s = (Ok l', s').
Proof.
  intros Hl Hcols Hnum. unfold Analytics.identify_undervalued_players.
  unfold bind at 1. rewrite (copy_run _ _ _ Hl).
  unfold bind at 1. rewrite (getitem_run _ _ df) by apply lookup_snoc.
  unfold column at 1.
  rewrite (proj2 (has_column_true df "value_eur")) by (apply Hcols; repeat constructor).
  unfold bind at 1. rewrite (getitem_run _ _ df) by apply lookup_snoc.
  unfold column at 1.
  rewrite (proj2 (has_column_true df "overall")) by (apply Hcols; repeat constructor).
  destruct (zip_rmap_div_numeric _ Hnum) as (vs & -> & Hlen).
  unfold bind at 1, lift at 1.
  unfold bind at 1. rewrite (setitem_run _ _ df) by apply lookup_snoc.
  unfold assign. rewrite bool_decide_eq_true_2 by done.
  rewrite insert_snoc.
  set (d1 := Frame _ _).
  assert (Hd1 : forall c, c ∈ columns df \/ c = "value_per_overall" -> c ∈ columns d1).
  { intros c Hc. unfold d1. simpl. destruct (has_column df "value_per_overall") eqn:E.
    - destruct Hc as [?| ->]; [done|]. by apply has_column_true.
    - apply elem_of_app. destruct Hc as [?| ->]; [by left|right; constructor]. }
  unfold bind at 1. rewrite (getitem_run _ _ d1) by apply lookup_snoc.
  unfold column at 1.
  rewrite (proj2 (has_column_true d1 "value_per_overall")) by (apply Hd1; by right).
  unfold bind at 1. rewrite (derive_run _ _ d1) by apply lookup_snoc.
  unfold bind at 1. rewrite (derive_run _ _ _ _ (lookup_snoc _ _)).
  unfold sort_values.
  rewrite (proj2 (missing_column_none _ _))
    by (intros c Hc; simpl; apply Hd1; left; apply Hcols;
        repeat (apply elem_of_cons in Hc as [-> | Hc]);
        [repeat constructor ..|by apply elem_of_nil in Hc]).
  unfold bind at 1. rewrite (derive_run _ _ _ _ (lookup_snoc _ _)).
  unfold select.
  rewrite (proj2 (missing_column_none _ _)).
  - rewrite (derive_run _ _ _ _ (lookup_snoc _ _)). by eexists _, _.
  - intros c Hc. simpl. apply Hd1. unfold Analytics.undervalued_columns in Hc.
    repeat (apply elem_of_cons in Hc as [-> | Hc]);
      [left; apply Hcols; repeat constructor ..|by right|by apply elem_of_nil in Hc].
Qed.

(** ** Computations that leave the frames of a store alone *)

Section Keeps.
Context (s0 : store).

Lemma keeps_ret {A} (a : A) (Q : A -> Prop) : Q a -> keeps s0 (ret a) Q.
Proof. intros HQ s r s' Hs [= <- <-]. split; [done|]. by intros ? [= <-]. Qed.

Lemma keeps_raise {A} e (Q : A -> Prop) : keeps s0 (raise e) Q.
Proof. intros s r s' Hs [= <- <-]. by split. Qed.

Lemma keeps_lift {A} (x : result A) : keeps s0 (lift x) (fun _ => True).
Proof. intros s r s' Hs [= <- <-]. by split. Qed.

Lemma keeps_bind {A B} (m : M store A) (k : A -> M store B) P Q :
  keeps s0 m P -> (forall a, P a -> keeps s0 (k a) Q) -> keeps s0 (bind m k) Q.
Proof.
  intros Hm Hk s r s' Hs. unfold bind.
  destruct (m s) as [[a|e] s1] eqn:E; destruct (Hm _ _ _ Hs E) as [H1 H2].
  - apply (Hk a); auto.
  - intros [= <- <-]. by split.
Qed.

Lemma keeps_weaken {A} (m : M store A) (P Q : A -> Prop) :
  keeps s0 m P -> (forall a, P a -> Q a) -> keeps s0 m Q.
Proof.
  intros Hm HPQ s r s' Hs E. destruct (Hm _ _ _ Hs E) as [H1 H2].
  split; [done|]. intros a Ha. apply HPQ; auto.
Qed.

Lemma keeps_load l : keeps s0 (load l) (fun _ => True).
Proof.
  intros s r s' Hs. unfold load. destruct (s !! l); intros [= <- <-]; by split.
Qed.

Lemma keeps_alloc df : keeps s0 (alloc df) (fresh_from s0).
Proof.
  intros s r s' Hs [= <- <-]. split.
  - by apply prefix_app_r.
  - intros a [= <-]. by apply prefix_length.
Qed.

Lemma keeps_write l df : fresh_from s0 l -> keeps s0 (write l df) (fun _ => True).
Proof.
  intros Hl s r s' [k ->] [= <- <-]. split; [|done].
  rewrite insert_app_r_alt by done. by apply prefix_app_r.
Qed.

Lemma keeps_copy l : keeps s0 (copy l) (fresh_from s0).
Proof.
  eapply keeps_bind; [apply keeps_load|]. intros df _. apply keeps_alloc.
Qed.

Lemma keeps_getitem l c : keeps s0 (getitem l c) (fun _ => True).
Proof.
  eapply keeps_bind; [apply keeps_load|]. intros df _. apply keeps_lift.
Qed.

Lemma keeps_setitem l c vs :
  fresh_from s0 l -> keeps s0 (setitem l c vs) (fun _ => True).
Proof.
  intros Hl. eapply keeps_bind; [apply keeps_load|]. intros df _.
  eapply keeps_bind; [apply keeps_lift|]. intros d _. by apply keeps_write.
Qed.

Lemma keeps_derive l f : keeps s0 (derive l f) (fresh_from s0).
Proof.
  eapply keeps_bind; [apply keeps_load|]. intros df _.
  eapply keeps_bind; [apply keeps_lift|]. intros d _. apply keeps_alloc.
Qed.
End Keeps.

Ltac keeps_step :=
  first
    [ apply keeps_copy | apply keeps_derive | apply keeps_alloc
    | apply keeps_getitem | apply keeps_load | apply keeps_lift
    | apply keeps_raise
    | apply keeps_setitem; assumption
    | apply keeps_ret; (assumption || exact I)
    | eapply keeps_bind; [keeps_step|intros ? ?] ].

Lemma identify_undervalued_players_keeps s0 l t :
  keeps s0 (Analytics.identify_undervalued_players l t) (fresh_from s0).
Proof. unfold Analytics.identify_undervalued_players. repeat keeps_step. Qed.

Lemma find_similar_players_keeps `{Sklearn} s0 l id n :
  keeps s0 (Analytics.find_similar_players l id n) (fresh_from s0).
Proof.
  unfold Analytics.find_similar_players. repeat keeps_step.
  destruct (empty _); repeat keeps_step.
Qed.

Lemma perform_clustering_keeps `{Sklearn} s0 l n :
  keeps s0 (TacticalAnalysis.perform_clustering l n) (fresh_from s0).
Proof. unfold TacticalAnalysis.perform_clustering. repeat keeps_step. Qed.

Lemma clustering_step_keeps `{Sklearn} s0 l n :
  keeps s0 (App.clustering_step l n) (from_option (fresh_from s0) True).
Proof.
  unfold App.clustering_step. repeat keeps_step.
  case_bool_decide; [|by apply keeps_ret]. repeat keeps_step.
  case_bool_decide; [|by apply keeps_ret]. repeat keeps_step.
Qed.

(** ** Clustering *)

Lemma cell_restrict cs r c : c ∈ cs -> cell (restrict cs r) c = cell r c.
Proof.
  intros Hc. unfold cell, restrict. simpl.
  destruct (cells r !! c) as [v|] eqn:E.
  - erewrite map_lookup_filter_Some_2; eauto.
  - rewrite map_lookup_filter_None_2; auto.
Qed.

Lemma complete_restrict cs r : complete cs (restrict cs r) = complete cs r.
Proof.
  unfold complete. 
  assert (G : forall l, (forall c, c ∈ l -> c ∈ cs) ->
     forallb (fun c => notna (cell (restrict cs r) c)) l
     = forallb (fun c => notna (cell r c)) l).
  { induction l as [|c l IH]; intros Hl; simpl; [done|].
    rewrite cell_restrict by (apply Hl; left). f_equal. apply IH.
    intros c' Hc'. apply Hl. by right. }
  by apply G.
Qed.

Lemma filter_fmap_restrict cs (l : list row) :
  List.filter (complete cs) (restrict cs <$> l)
  = restrict cs <$> List.filter (complete cs) l.
Proof.
  induction l as [|r l IH]; csimpl; [done|].
  rewrite complete_restrict. destruct (complete cs r); csimpl; by rewrite IH.
Qed.

(** Rows located by the labels of rows of the frame itself: when there
    are as many as labels, they are the very rows the labels came from. *)
Lemma loc_rows_exact (all picked : list row) :
  (forall r, r ∈ picked -> r ∈ all) ->
  length ((label <$> picked) ≫= fun i => List.filter (fun r => bool_decide (label r = i)) all)
    = length picked ->
  ((label <$> picked) ≫= fun i => List.filter (fun r => bool_decide (label r = i)) all)
    = picked.
Proof.
  induction picked as [|r picked IH]; intros Hin; csimpl; [done|].
  set (f := fun i => List.filter (fun r => bool_decide (label r = i)) all) in *.
  assert (Hge : forall l : list row, (forall r, r ∈ l -> r ∈ all) ->
            (length l <= length ((label <$> l) ≫= f))%nat).
  { induction l as [|x l IHl]; intros Hl; csimpl; [lia|].
    rewrite length_app.
    assert (x ∈ f (label x)) as Hx.
    { unfold f. rewrite list_elem_of_In. apply filter_In. split.
      - apply list_elem_of_In, Hl. left.
      - by apply bool_decide_eq_true. }
    destruct (f (label x)); [by apply elem_of_nil in Hx|]. simpl.
    specialize (IHl (fun r Hr => Hl r (list_elem_of_further _ _ _ Hr))). lia. }
  rewrite length_app. intros Hlen.
  assert (r ∈ f (label r)) as Hr.
  { unfold f. rewrite list_elem_of_In. apply filter_In. split.
    - apply list_elem_of_In, Hin. left.
    - by apply bool_decide_eq_true. }
  pose proof (Hge picked (fun r Hr => Hin r (list_elem_of_further _ _ _ Hr))) as Hp.
  destruct (f (label r)) as [|x [|y xs]] eqn:Ef.
  - by apply elem_of_nil in Hr.
  - apply list_elem_of_singleton in Hr as ->.
    change (f (label x) ++ (label <$> picked) ≫= f = x :: picked).
    change (length (f (label x)) + length ((label <$> picked) ≫= f)
            = S (length picked))%nat in Hlen.
    rewrite Ef in Hlen |- *. simpl in *. f_equal.
    apply IH; [|lia]. intros r' Hr'. apply Hin. by right.
  - change (length (f (label r)) + length ((label <$> picked) ≫= f)
            = S (length picked))%nat in Hlen.
    rewrite Ef in Hlen. simpl in Hlen. lia.
Qed.

Lemma select_rows df cs d :
  select df cs = Ok d -> d = Frame cs (restrict cs <$> rows df).
Proof. unfold select. destruct (missing_column df cs); by intros [= <-]. Qed.

Lemma assign_length df c vs d :
  assign df c vs = Ok d -> length vs = length (rows df).
Proof. unfold assign. case_bool_decide; by intros [= <-]. Qed.

Lemma label_restrict cs (l : list row) : label <$> (restrict cs <$> l) = label <$> l.
Proof. by rewrite <- list_fmap_compose. Qed.

(** The rows that [df.loc[...].copy()] and the assignment of the labels
    produce, once the assignment has gone through. *)
Lemma labelled_rows df cs (clusters : list value) d c :
  length clusters = length (List.filter (complete cs) (rows df)) ->
  assign (loc_rows df (label <$> rows (dropna (Frame cs (restrict cs <$> rows df)))))
    c clusters = Ok d ->
  rows d = zip_with (set_cell c) clusters (List.filter (complete cs) (rows df)).
Proof.
  intros Hc Ha. pose proof (assign_length _ _ _ _ Ha) as Hlen.
  apply assign_rows in Ha. revert Ha Hlen. unfold loc_rows, dropna. simpl.
  rewrite filter_fmap_restrict, label_restrict.
  intros Ha Hlen. rewrite Ha. f_equal. apply loc_rows_exact; [|congruence].
  intros r Hr. apply list_elem_of_In, filter_In in Hr as [Hr _].
  by apply list_elem_of_In.
Qed.

Lemma values_length df : length (values df) = length (rows df).
Proof. unfold values. by rewrite length_fmap. Qed.

Section Clustering.
Context `{Sklearn}.
Hypothesis Hk : kmeans_contract.
Hypothesis Hs : scaler_contract.

Lemma fit_transform_length X sc Xs :
  fit_transform X = Ok (sc, Xs) -> length Xs = length X.
Proof.
  unfold fit_transform.
  destruct (scaler_fit X) as [sc'|]; simpl; [|done].
  destruct (scaler_transform sc' X) as [Xs'|] eqn:E; simpl; [|done].
  intros [= <- <-]. by apply (Hs sc').
Qed.

Lemma perform_clustering_run (s : store) l df n l' s' :
  s !! l = Some df ->
  TacticalAnalysis.perform_clustering l n s = (Ok l', s') ->
  exists out clusters,
    s' !! l' = Some out /\
    rows out =
      zip_with set_cluster clusters
        (List.filter (complete TacticalAnalysis.cluster_features) (rows df)) /\
    length clusters =
      length (List.filter (complete TacticalAnalysis.cluster_features) (rows df)) /\
    Forall (fun k => 0 <= k < n)%Z clusters.
Proof.
  intros Hl. unfold TacticalAnalysis.perform_clustering.
  unfold bind at 1. rewrite (derive_run _ _ _ _ Hl).
  destruct (select df _) as [d1|] eqn:E1; [|done].
  unfold bind at 1. rewrite (derive_run _ _ _ _ (lookup_snoc _ _)).
  unfold bind at 1. rewrite (load_run _ _ _ (lookup_snoc _ _)).
  unfold bind at 1. unfold lift at 1.
  destruct (fit_transform _) as [[sc Xs]|] eqn:Ef; [|done].
  unfold bind at 1. unfold lift at 1. simpl.
  destruct (kmeans_fit_predict _ _ _) as [clusters|] eqn:Ek; [|done]. simpl.
  unfold bind at 1.
  rewrite (derive_run _ _ df) by (rewrite <- app_assoc; by apply lookup_old).
  unfold bind at 1. rewrite (copy_run _ _ _ (lookup_snoc _ _)).
  unfold bind at 1. rewrite (setitem_run _ _ _ _ _ (lookup_snoc _ _)).
  destruct (assign _ _ _) as [d|] eqn:Ea; [|done].
  rewrite insert_snoc. intros [= <- <-].
  apply select_rows in E1 as ->. simpl in *.
  apply fit_transform_length in Ef. rewrite values_length in Ef.
  apply Hk in Ek as [Ek1 Ek2].
  exists d, clusters. split; [apply lookup_snoc|].
  assert (Hlen : length clusters =
    length (List.filter (complete TacticalAnalysis.cluster_features) (rows df))).
  { rewrite Ek1, Ef. unfold dropna. simpl.
    by rewrite filter_fmap_restrict, length_fmap. }
  split; [|done].
  apply labelled_rows in Ea; [|by rewrite length_fmap].
  rewrite Ea. by rewrite zip_with_fmap_l.
Qed.

Lemma clustering_step_run (s : store) l df n l' s' :
  s !! l = Some df ->
  App.clustering_step l n s = (Ok (Some l'), s') ->
  exists out clusters,
    s' !! l' = Some out /\
    rows out =
      zip_with set_cluster clusters
        (List.filter (complete App.cluster_features) (rows df)) /\
    length clusters =
      length (List.filter (complete App.cluster_features) (rows df)) /\
    Forall (fun k => 0 <= k < n)%Z clusters.
Proof.
  intros Hl. unfold App.clustering_step.
  unfold bind at 1. rewrite (load_run _ _ _ Hl).
  case_bool_decide; [|done].
  unfold bind at 1. rewrite (derive_run _ _ _ _ Hl).
  destruct (select df _) as [d1|] eqn:E1; [|done].
  unfold bind at 1. rewrite (derive_run _ _ _ _ (lookup_snoc _ _)).
  unfold bind at 1. rewrite (load_run _ _ _ (lookup_snoc _ _)).
  case_bool_decide; [|done].
  unfold bind at 1. unfold lift at 1.
  destruct (fit_transform _) as [[sc Xs]|] eqn:Ef; [|done].
  unfold bind at 1. unfold lift at 1. simpl.
  destruct (kmeans_fit_predict _ _ _) as [clusters|] eqn:Ek; [|done]. simpl.
  unfold bind at 1.
  rewrite (derive_run _ _ df) by (rewrite <- app_assoc; by apply lookup_old).
  unfold bind at 1. rewrite (copy_run _ _ _ (lookup_snoc _ _)).
  unfold bind at 1. rewrite (setitem_run _ _ _ _ _ (lookup_snoc _ _)).
  destruct (assign _ _ _) as [d|] eqn:Ea; [|done].
  rewrite insert_snoc. intros [= <- <-].
  apply select_rows in E1 as ->. simpl in *.
  apply fit_transform_length in Ef. rewrite values_length in Ef.
  apply Hk in Ek as [Ek1 Ek2].
  exists d, clusters. split; [apply lookup_snoc|].
  assert (Hlen : length clusters =
    length (List.filter (complete App.cluster_features) (rows df))).
  { rewrite Ek1, Ef. unfold dropna. simpl.
    by rewrite filter_fmap_restrict, length_fmap. }
  split; [|done].
  apply labelled_rows in Ea; [|by rewrite length_fmap].
  rewrite Ea. by rewrite zip_with_fmap_l.
Qed.
End Clustering.

(** ** The claims on undervalued players, frames and clustering *)


Lemma run_returns {S A} (out : result A * S) (a : A) :
  out.1 = Ok a -> out = (Ok a, out.2).
Proof. destruct out as [r s]. simpl. by intros ->. Qed.

Lemma example_kmeans_contract : @kmeans_contract example_sklearn.
Proof.
  intros n n_init X labels. simpl. case_bool_decide as Hn; [|done].
  intros [= <-]. split; [by rewrite length_map, length_seq|].
  apply Forall_forall. intros k Hk. apply list_elem_of_In, in_map_iff in Hk as (i & <- & _).
  apply Z.mod_pos_bound. lia.
Qed.

Lemma example_scaler_contract : @scaler_contract example_sklearn.
Proof. intros sc X Xs [= <-]. by rewrite length_map. Qed.

(** C2.  When [identify_undervalued_players] returns, the frame it
    returns holds the first 20 rows of a list [S] that is sorted by
    overall rating descending and, within equal overall, by value
    ascending, and that consists of exactly the rows of the input whose
    ratio [value_eur / overall] is strictly below the threshold times the
    median ratio; each row carries its ratio and is cut down to the five
    columns returned. *)
Theorem identify_undervalued_players_filter_sort_head
    (s : store) (l : loc) (df : DataFrame) (t : float64) (l' : loc) (s' : store) :
  s !! l = Some df ->
  Analytics.identify_undervalued_players l t s = (Ok l', s') ->
  exists S : list row,
    s' !! l' =
      Some (Frame Analytics.undervalued_columns
              (restrict Analytics.undervalued_columns <$> take 20 S)) /\
    S ≡ₚ with_ratio <$> List.filter (below_threshold df t) (rows df) /\
    StronglySorted ranks_before S.
Proof.
  intros Hl Hrun.
  destruct (identify_undervalued_players_run _ _ _ _ _ _ Hl Hrun)
    as (S & new & _ & Hout & Hperm & Hsorted).
  by exists S.
Qed.

Lemma identify_undervalued_players_filter_sort_head_witness :
  exists S : list row,
    (Analytics.identify_undervalued_players 0%nat (lit (8 # 10))
       [example_frame 6]).2 !! 5%nat =
      Some (Frame Analytics.undervalued_columns
              (restrict Analytics.undervalued_columns <$> take 20 S)) /\
    S ≡ₚ with_ratio <$> List.filter (below_threshold (example_frame 6) (lit (8 # 10)))
                          (rows (example_frame 6)) /\
    StronglySorted ranks_before S.
Proof.
  apply (identify_undervalued_players_filter_sort_head
           [example_frame 6] 0%nat (example_frame 6) (lit (8 # 10)) 5%nat).
  - reflexivity.
  - apply run_returns. vm_compute. reflexivity.
Defined.

(** The comparison with the threshold is one of float64 numbers.  With
    the threshold 0.8, of three players rated 45 and worth 120000,
    150000 and 450000 the first is returned: its ratio,
    2666.6666666666665, is below 0.8 times the median, 2666.666666666667,
    though 120000 / 45 is 0.8 times 150000 / 45; of three worth 80000,
    100000 and 300000 none is, ratio and bound both being
    1777.7777777777778. *)
Lemma identify_undervalued_players_at_the_bound :
  (fun d => label <$> rows d)
    <$> returned (Analytics.identify_undervalued_players 0%nat (lit (8 # 10))
                    [priced_at [120000; 150000; 450000]%Z])
  = Some [0%Z] /\
  (fun d => label <$> rows d)
    <$> returned (Analytics.identify_undervalued_players 0%nat (lit (8 # 10))
                    [priced_at [80000; 100000; 300000]%Z])
  = Some [].
Proof. split; vm_compute; reflexivity. Qed.

(** C4.  The analysis operations leave the DataFrame they are given as
    it was, rows and columns, whether they return or raise; the frame
    they return is a new object, so the columns they add
    ([value_per_overall], [similarity_score], [cluster]) are on that copy
    only.  [calculate_performance_index] reads a record and touches no
    frame. *)
Theorem analysis_operations_leave_input_unchanged `{Sklearn}
    (s : store) (l : loc) (df : DataFrame) :
  s !! l = Some df ->
  (forall t, input_unchanged s l df (Analytics.identify_undervalued_players l t)) /\
  (forall id n, input_unchanged s l df (Analytics.find_similar_players l id n)) /\
  (forall n, input_unchanged s l df (TacticalAnalysis.perform_clustering l n)) /\
  (forall player_data,
     lift (Analytics.calculate_performance_index player_data) s
     = (Analytics.calculate_performance_index player_data, s)).
Proof.
  intros Hl.
  assert (G : forall m : M store loc, keeps s m (fresh_from s) ->
                input_unchanged s l df m).
  { intros m Hm r s' Hrun.
    destruct (Hm s r s' (reflexivity _) Hrun) as [[new ->] Hfresh].
    split; [by apply lookup_old|]. split; [by rewrite take_app_length|].
    intros l' ->. specialize (Hfresh l' eq_refl). unfold fresh_from in Hfresh.
    split; [done|]. apply lookup_lt_Some in Hl. lia. }
  split; [|split; [|split]].
  - intros t. apply G, identify_undervalued_players_keeps.
  - intros id n. apply G, find_similar_players_keeps.
  - intros n. apply G, perform_clustering_keeps.
  - done.
Qed.

Lemma analysis_operations_leave_input_unchanged_witness :
  let s := [example_frame 6] in
  (forall t, input_unchanged s 0%nat (example_frame 6)
               (Analytics.identify_undervalued_players 0%nat t)) /\
  (forall id n, input_unchanged s 0%nat (example_frame 6)
               (@Analytics.find_similar_players example_sklearn 0%nat id n)) /\
  (forall n, input_unchanged s 0%nat (example_frame 6)
               (@TacticalAnalysis.perform_clustering example_sklearn 0%nat n)) /\
  (forall player_data,
     lift (Analytics.calculate_performance_index player_data) s
     = (Analytics.calculate_performance_index player_data, s)).
Proof.
  intros s.
  apply (@analysis_operations_leave_input_unchanged example_sklearn
           s 0%nat (example_frame 6)).
  reflexivity.
Defined.

(** C5.  Given that [KMeans.fit_predict] returns one label per sample,
    each between 0 and [n - 1], and that the scaler returns one row per
    sample: the frame returned by [perform_clustering], and the
    [cluster_df] of the ML Insights tab, hold the rows of the input
    without those that miss a clustering feature, each with exactly one
    cluster label between 0 and [n - 1]. *)
Theorem clustering_assigns_one_label `{Sklearn}
    (s : store) (l : loc) (df : DataFrame) (n : Z) :
  kmeans_contract -> scaler_contract ->
  s !! l = Some df ->
  (forall l' s',
     TacticalAnalysis.perform_clustering l n s = (Ok l', s') ->
     exists out, s' !! l' = Some out /\
       clustered TacticalAnalysis.cluster_features n df out) /\
  (forall l' s',
     App.clustering_step l n s = (Ok (Some l'), s') ->
     exists out, s' !! l' = Some out /\
       clustered App.cluster_features n df out).
Proof.
  intros Hk Hs Hl. split; intros l' s' Hrun.
  - destruct (perform_clustering_run Hk Hs _ _ _ _ _ _ Hl Hrun)
      as (out & clusters & Hout & Hrows & Hlen & Hrange).
    exists out. split; [done|]. by exists clusters.
  - destruct (clustering_step_run Hk Hs _ _ _ _ _ _ Hl Hrun)
      as (out & clusters & Hout & Hrows & Hlen & Hrange).
    exists out. split; [done|]. by exists clusters.
Qed.

Lemma clustering_assigns_one_label_witness :
  let df := example_frame_gap 11 in
  let s := [df] in
  (exists out,
     (@TacticalAnalysis.perform_clustering example_sklearn 0%nat 3 s).2 !! 4%nat
       = Some out /\
     clustered TacticalAnalysis.cluster_features 3 df out) /\
  (exists out,
     (@App.clustering_step example_sklearn 0%nat 3 s).2 !! 4%nat = Some out /\
     clustered App.cluster_features 3 df out).
Proof.
  intros df s.
  destruct (@clustering_assigns_one_label example_sklearn s 0%nat df 3
              example_kmeans_contract example_scaler_contract eq_refl)
    as [H1 H2].
  split.
  - apply (H1 4%nat). apply run_returns. vm_compute. reflexivity.
  - apply (H2 4%nat). apply run_returns. vm_compute. reflexivity.
Defined.

(** ** Similar players *)

Lemma asc_le_refl x : asc_le x x = true.
Proof. destruct x; simpl; try done. apply Qle_bool_iff, Qle_refl. Qed.



Lemma py_slice_length {A} (l : list A) (n : Z) :
  (0 <= n)%Z -> (length (py_slice l (- n - 1) (-1)) <= Z.to_nat n)%nat.
Proof.
  intros Hn. unfold py_slice, slice_bound.
  rewrite length_take, length_drop.
  destruct (- n - 1 <? 0)%Z eqn:E1.
  2: { apply Z.ltb_ge in E1. exfalso. lia. }
  change (-1 <? 0)%Z with true. cbv iota. lia.
Qed.

Lemma take_positions_length {A} (l : list A) idx :
  (length (take_positions l idx) <= length idx)%nat.
Proof.
  unfold take_positions. induction idx as [|i idx IH]; csimpl; [done|].
  destruct (l !! i); csimpl; lia.
Qed.

Lemma mask_rows_none {A} (l : list A) (m : list bool) :
  Forall (fun b => b = false) m -> mask_rows l m = [].
Proof.
  intros H. revert l. induction H as [|b m -> _ IH]; intros [|x l]; simpl; auto.
Qed.

(** When no row has the player id asked for, [find_similar_players]
    returns an empty frame. *)
Lemma find_similar_players_unknown_id `{Sklearn} (s : store) l df id n :
  s !! l = Some df ->
  has_column df "player_id" = true ->
  Forall (fun r => eq_cell id (cell r "player_id") = false) (rows df) ->
  returned (Analytics.find_similar_players l id n s) = Some empty_frame.
Proof.
  intros Hl Hc Hno. unfold Analytics.find_similar_players.
  unfold bind at 1. rewrite (getitem_run _ _ _ _ Hl).
  unfold column. rewrite Hc.
  unfold bind at 1. rewrite (derive_run _ _ _ _ Hl).
  unfold bind at 1. rewrite (load_run _ _ _ (lookup_snoc _ _)).
  unfold where_. rewrite mask_rows_none.
  - simpl. unfold alloc. simpl. rewrite length_app. simpl.
    replace (length s + 1)%nat with (length (s ++ [Frame (columns df) []]))
      by (rewrite length_app; simpl; lia).
    apply lookup_snoc.
  - apply Forall_fmap, Forall_fmap. eapply Forall_impl; [exact Hno|]. done.
Qed.

(** When it returns, [find_similar_players] returns at most [n_similar]
    rows (for an [n_similar] that is not negative). *)
Lemma find_similar_players_at_most `{Sklearn} (s : store) l df id n out :
  s !! l = Some df ->
  (0 <= n)%Z ->
  returned (Analytics.find_similar_players l id n s) = Some out ->
  (length (rows out) <= Z.to_nat n)%nat.
Proof.
  intros Hl Hn. unfold Analytics.find_similar_players.
  unfold bind at 1. rewrite (getitem_run _ _ _ _ Hl).
  destruct (column df "player_id") as [ids|]; [|done].
  unfold bind at 1. rewrite (derive_run _ _ _ _ Hl).
  unfold bind at 1. rewrite (load_run _ _ _ (lookup_snoc _ _)).
  destruct (empty _).
  { unfold alloc, returned.
    replace (length (s ++ [where_ df (eq_cell id <$> ids)]))
      with (length (s ++ [where_ df (eq_cell id <$> ids)]) + 0)%nat by lia.
    rewrite lookup_app_r by lia.
    replace (_ + 0 - _)%nat with 0%nat by lia. intros [= <-]. simpl. lia. }
  unfold bind at 1, lift at 1.
  destruct (rbind _ _) as [tf|]; [|done].
  unfold bind at 1. rewrite (derive_run _ _ df) by by apply lookup_old.
  destruct (select df _) as [sel|]; [|done].
  unfold bind at 1. rewrite (derive_run _ _ _ _ (lookup_snoc _ _)).
  unfold bind at 1. rewrite (load_run _ _ _ (lookup_snoc _ _)).
  unfold bind at 1, lift at 1.
  destruct (cosine_similarity _ _) as [matrix|]; [|done].
  unfold bind at 1, lift at 1.
  destruct (Analytics.first matrix) as [sims|]; [|done].
  set (idx := rev _). set (labels := take_positions _ idx).
  unfold bind at 1.
  rewrite (derive_run _ _ df)
    by (rewrite <- !app_assoc; by apply lookup_old).
  unfold bind at 1. rewrite (copy_run _ _ _ (lookup_snoc _ _)).
  unfold bind at 1. rewrite (setitem_run _ _ _ _ _ (lookup_snoc _ _)).
  destruct (assign _ _ _) as [scored|] eqn:Ea; [|done].
  rewrite insert_snoc, (derive_run _ _ _ _ (lookup_snoc _ _)).
  destruct (select scored _) as [final|] eqn:Es; [|done].
  unfold returned. rewrite lookup_snoc. intros [= <-].
  apply select_rows in Es as ->. simpl. rewrite length_fmap.
  apply assign_rows in Ea. rewrite Ea, length_zip_with, length_fmap.
  pose proof (take_positions_length sims idx).
  assert (length idx <= Z.to_nat n)%nat; [|lia].
  unfold idx. rewrite length_rev. by apply py_slice_length.
Qed.

Lemma argsort_pair x : argsort [x; x] = [0; 1]%nat.
Proof. unfold argsort. simpl. by rewrite asc_le_refl. Qed.

Lemma select_ok df cs :
  missing_column df cs = None -> select df cs = Ok (Frame cs (restrict cs <$> rows df)).
Proof. unfold select. by intros ->. Qed.

(** Replace a closed subterm by its value. *)
Ltac eval_here t :=
  let v := eval vm_compute in t in
  replace t with v by (vm_compute; reflexivity);
  cbv beta iota.

(** C10.  The claim fails on the code at a frame of two players with the
    same feature values: asked for the players similar to the first one,
    [find_similar_players] returns one row, the row of that very player.
    The two similarities are equal, the sort leaves the target first, and
    the slice that is meant to drop the target drops the twin. *)
Theorem find_similar_players_returns_target `{Sklearn} :
  (fun d => (fun r => (label r, cell r "long_name")) <$> rows d)
    <$> returned (Analytics.find_similar_players 0%nat 1 5 [twins])
  = Some [(0%Z, Str "Target")].
Proof.
  unfold Analytics.find_similar_players.
  unfold bind at 1. rewrite (getitem_run _ _ twins) by done.
  eval_here (column twins "player_id").
  unfold bind at 1. rewrite (derive_run _ _ twins) by done. cbv beta iota.
  unfold bind at 1. rewrite (load_run _ _ _ (lookup_snoc _ _)).
  match goal with |- context [empty ?d] => eval_here (empty d) end.
  unfold bind at 1. unfold lift at 1.
  rewrite select_ok by (vm_compute; reflexivity). cbn [rbind].
  unfold bind at 1.
  rewrite (derive_run _ _ twins) by done.
  rewrite select_ok by (vm_compute; reflexivity).
  unfold bind at 1. rewrite (derive_run _ _ _ _ (lookup_snoc _ _)). cbv beta iota.
  unfold bind at 1. rewrite (load_run _ _ _ (lookup_snoc _ _)).
  unfold bind at 1. unfold lift at 1.
  unfold cosine_similarity.
  match goal with |- context [mapM finite_row ?a] => eval_here (mapM finite_row a) end.
  match goal with |- context [mapM finite_row ?a] => eval_here (mapM finite_row a) end.
  cbn [fmap list_fmap].
  match goal with |- context [cosine ?a ?b] => generalize (cosine a b) end.
  intros x.
  unfold bind at 1. unfold lift at 1. simpl Analytics.first. cbv beta iota.
  rewrite argsort_pair.
  match goal with |- context [rev ?a] => eval_here (rev a) end.
  match goal with |- context [take_positions (label <$> ?a) ?b] =>
    eval_here (take_positions (label <$> a) b) end.
  unfold bind at 1.
  rewrite (derive_run _ _ twins) by done. cbv beta iota.
  unfold bind at 1. rewrite (copy_run _ _ _ (lookup_snoc _ _)).
  unfold bind at 1. rewrite (setitem_run _ _ _ _ _ (lookup_snoc _ _)).
  unfold assign.
  match goal with |- context [bool_decide ?a] => eval_here (bool_decide a) end.
  rewrite insert_snoc.
  rewrite (derive_run _ _ _ _ (lookup_snoc _ _)).
  rewrite select_ok by (vm_compute; reflexivity).
  unfold returned. rewrite lookup_snoc. 
  vm_compute. reflexivity.
Qed.

(** ** Performance index *)


Section PerformanceIndex.
Context (player_data : gmap string value).

(** The loop adds to its two accumulators what the weighted sum and the
    total weight add to 0, attribute after attribute. *)
Lemma weighted_loop_spec weights performance_index total_weight :
  numeric_attributes player_data weights ->
  Analytics.weighted_loop player_data weights performance_index total_weight
  = Ok (foldl (fun sum aw => fadd sum (fmul (attribute player_data aw.1) aw.2))
          performance_index (List.filter (present player_data) weights),
        foldl (fun sum aw => fadd sum aw.2)
          total_weight (List.filter (present player_data) weights)).
Proof.
  revert performance_index total_weight.
  induction weights as [|[a w] ws IH]; intros acc tw Hnum; [done|].
  assert (Hws : numeric_attributes player_data ws).
  { intros a' v Ha' Hv. apply (Hnum a' v); [|done]. by right. }
  cbn [Analytics.weighted_loop List.filter].
  assert (Hp : present player_data (a, w)
               = match player_data !! a with Some v => notna v | None => false end)
    by done.
  rewrite Hp. clear Hp.
  destruct (player_data !! a) as [v|] eqn:Ea; [|by apply IH].
  destruct (notna v) eqn:Ev; [|by apply IH].
  pose proof (Hnum a v ltac:(by left) Ea) as Hv.
  destruct v as [x|]; [|done]. cbn [as_float rbind foldl fst snd].
  rewrite IH by done. unfold attribute. by rewrite Ea.
Qed.
End PerformanceIndex.

Lemma any_occurs_in_existsb position subs :
  Analytics.any_occurs_in (Str position) subs
  = Ok (existsb (fun p => contains p position) subs).
Proof.
  induction subs as [|p subs IH]; simpl; [done|].
  destruct (contains p position); simpl; [done|]. apply IH.
Qed.

Lemma select_weights_of_position position :
  Analytics.select_weights (Str position) = Ok (weights_of_position position).
Proof.
  unfold Analytics.select_weights, weights_of_position.
  rewrite !any_occurs_in_existsb. unfold Analytics.occurs_in. cbn [rbind].
  destruct (contains "GK" position); [done|].
  destruct (existsb _ _); [done|].
  by destruct (existsb _ _).
Qed.

Lemma weights_of_position_cases position :
  weights_of_position position ∈
    [Analytics.goalkeeper_weights; Analytics.defender_weights;
     Analytics.midfielder_weights; Analytics.forward_weights].
Proof.
  unfold weights_of_position.
  repeat (match goal with |- context [if ?b then _ else _] => destruct b end);
    set_solver.
Qed.

Lemma calculate_performance_index_run player_data position :
  position_is player_data position ->
  numeric_attributes player_data (weights_of_position position) ->
  Analytics.calculate_performance_index player_data
  = Ok (weighted_mean player_data (weights_of_position position)).
Proof.
  intros Hpos Hnum. unfold Analytics.calculate_performance_index.
  rewrite Hpos, select_weights_of_position. cbn [rbind].
  rewrite weighted_loop_spec by done. cbn [rbind].
  unfold weighted_mean, weighted_sum, weight_present.
  by destruct (flt _ _).
Qed.

(** C1 (amended).  For a record whose position is a string, or absent,
    and whose weighted attributes are numbers: the weight set is the
    goalkeeper one when ['GK'] occurs in the position, else the defender
    one when one of ['CB', 'LB', 'RB', 'LWB', 'RWB'] occurs, else the
    midfielder one when one of ['CM', 'CDM', 'CAM'] occurs, else the
    forward one; [calculate_performance_index] returns the weighted sum
    over the attributes of that set that are present and not NaN, divided
    by the total weight of those attributes, both added in the order of
    the weight set in float64 arithmetic; it returns 0 when no attribute
    of the set is present. *)
Theorem calculate_performance_index_weighted_mean
    (player_data : gmap string value) (position : string) :
  position_is player_data position ->
  numeric_attributes player_data (weights_of_position position) ->
  Analytics.calculate_performance_index player_data
  = Ok (weighted_mean player_data (weights_of_position position)) /\
  (existsb (present player_data) (weights_of_position position) = false ->
   weighted_mean player_data (weights_of_position position) = Fin 0).
Proof.
  intros Hpos Hnum. split; [by apply calculate_performance_index_run|].
  intros Hnone. unfold weighted_mean, weight_present, weighted_sum.
  replace (List.filter (present player_data) (weights_of_position position))
    with (@nil (string * float64)); [done|].
  symmetry. clear Hpos Hnum. revert Hnone.
  induction (weights_of_position position) as [|aw ws IH]; [done|].
  cbn [existsb List.filter]. intros Hnone.
  apply orb_false_iff in Hnone as [-> Hnone]. by apply IH.
Qed.

Lemma calculate_performance_index_weighted_mean_witness :
  Analytics.calculate_performance_index complete_midfielder
  = Ok (weighted_mean complete_midfielder (weights_of_position "CM, CDM")) /\
  (existsb (present complete_midfielder) (weights_of_position "CM, CDM") = false ->
   weighted_mean complete_midfielder (weights_of_position "CM, CDM") = Fin 0).
Proof.
  apply (calculate_performance_index_weighted_mean complete_midfielder "CM, CDM").
  - reflexivity.
  - intros a v Ha. vm_compute in Ha.
    repeat (apply elem_of_cons in Ha as [-> | Ha]);
      try (by apply elem_of_nil in Ha);
      vm_compute; intros [= <-]; reflexivity.
Defined.

(** C1, as stated, fails.  A striker of whom only the shooting (80) is
    known gets an index equal to 80, while the weighted sum of the
    forward weights over what is known is 24; and a record whose position
    is NaN gets no index at all, the function raises [TypeError]. *)
Lemma calculate_performance_index_not_weighted_sum :
  (exists x,
     Analytics.calculate_performance_index striker_shooting_only = Ok x /\
     feq x (Fin 80) /\
     feq (weighted_sum striker_shooting_only (weights_of_position "ST")) (Fin 24) /\
     ~ feq x (weighted_sum striker_shooting_only (weights_of_position "ST"))) /\
  Analytics.calculate_performance_index position_missing
  = Raise (TypeError "argument of type 'float' is not iterable").
Proof.
  split; [|vm_compute; reflexivity].
  eexists. split; [vm_compute; reflexivity|].
  split; [vm_compute; reflexivity|]. split; [vm_compute; reflexivity|].
  vm_compute. discriminate.
Qed.

(** Nor is the index the weighted sum when all five attributes are
    there: the defender weights add up to 0.9999999999999999 in float64,
    and a centre-back with 80 everywhere, whose weighted sum is 80, gets
    80.00000000000001. *)
Lemma centre_back_above_weighted_sum :
  weight_present centre_back_at_80 (weights_of_position "CB")
  = Fin (9007199254740991 # 9007199254740992) /\
  weighted_sum centre_back_at_80 (weights_of_position "CB") = Fin 80 /\
  Analytics.calculate_performance_index centre_back_at_80
  = Ok (Fin (5629499534213121 # 70368744177664)) /\
  flt (Fin 80) (Fin (5629499534213121 # 70368744177664)) = true.
Proof. vm_compute. done. Qed.

(** ** Sampled charts *)


Lemma swap_perm {A} i j (x : list A) : swap i j x ≡ₚ x.
Proof.
  unfold swap. destruct (x !! i) as [a|] eqn:Ei; [|done].
  destruct (x !! j) as [b|] eqn:Ej; [|done].
  by apply Permutation_insert_swap.
Qed.

Lemma shuffle_perm {A} i (x : list A) g y g' :
  shuffle i x g = (Ok y, g') -> y ≡ₚ x.
Proof.
  revert x g. induction i as [|i IH]; intros x g; simpl.
  - by intros [= <- <-].
  - unfold bind, random_interval. intros Hrun. apply IH in Hrun.
    by rewrite Hrun, swap_perm.
Qed.

Lemma shuffle_returns {A} i (x : list A) g : exists y g', shuffle i x g = (Ok y, g').
Proof.
  revert x g. induction i as [|i IH]; intros x g; simpl; [by eexists _, _|].
  unfold bind, random_interval. apply IH.
Qed.

Lemma take_positions_suffix {A} (pre l : list A) :
  take_positions (pre ++ l) (seq (length pre) (length l)) = l.
Proof.
  unfold take_positions. revert pre. induction l as [|x l IH]; intros pre; [done|].
  simpl. rewrite list_lookup_middle by done. simpl. f_equal.
  specialize (IH (pre ++ [x])). rewrite <- app_assoc, length_app in IH.
  simpl in IH. by rewrite Nat.add_1_r in IH.
Qed.

Lemma take_positions_seq {A} (l : list A) : take_positions l (seq 0 (length l)) = l.
Proof. apply (take_positions_suffix [] l). Qed.

Lemma take_positions_take {A} (l : list A) idx n :
  Forall (fun i => i < length l)%nat idx ->
  take_positions l (take n idx) = take n (take_positions l idx).
Proof.
  unfold take_positions. intros H. revert n.
  induction H as [|i idx Hi H IH]; intros [|n]; simpl; try done.
  destruct (lookup_lt_is_Some_2 l i Hi) as [x ->]. simpl. by rewrite IH.
Qed.

Lemma sample_drawn df n g d g' :
  sample df n g = (Ok d, g') ->
  columns d = columns df /\ drawn_from (rows df) n (rows d).
Proof.
  unfold sample. case_bool_decide as Hn; [done|].
  unfold bind, choice, permutation. unfold bind.
  destruct (shuffle _ _ g) as [[idx|e] g1] eqn:Es; [|done].
  unfold ret. intros [= <- <-]. split; [done|]. simpl.
  apply shuffle_perm in Es.
  exists (take_positions (rows df) idx). split.
  - pose proof (take_positions_seq (rows df)) as E.
    unfold take_positions in E |- *. by rewrite Es, E.
  - apply take_positions_take. rewrite Es. apply Forall_forall.
    intros i Hi. apply elem_of_seq in Hi. lia.
Qed.

Lemma where_str_contains df p :
  mask_rows (rows df)
    (Visualizations.str_contains p <$> ((fun r => cell r "player_positions") <$> rows df))
  = List.filter (fun r => Visualizations.str_contains p (cell r "player_positions"))
      (rows df).
Proof.
  rewrite <- list_fmap_compose.
  induction (rows df) as [|r l IH]; csimpl; [done|].
  destruct (Visualizations.str_contains _ _); by rewrite IH.
Qed.

Lemma series_str_contains_ok pat cells mask :
  Visualizations.series_str_contains pat cells = Ok mask ->
  mask = Visualizations.str_contains pat <$> cells.
Proof.
  unfold Visualizations.series_str_contains.
  destruct (_ && _); [done|]. by intros [= <-].
Qed.

(** C3 (amended).  The two sampled charts are functions of the frame,
    the parameters and the state of numpy's global generator.  Whatever
    that state, each chart, when it is returned, is the scatter plot of
    [min(1000, n)] rows drawn without repetition from the [n] rows of
    the frame (for the first chart: of the rows that pass the position
    filter, a filter without regular-expression operator): a frame of at
    most 1000 rows is shown in full, in an order that the generator
    decides. *)
Theorem sampled_charts_show_a_sample
    (df : DataFrame) (position_filter : option string) (g : RandomState) :
  (forall fig1 g1,
     literal_filter position_filter ->
     Visualizations.create_value_vs_performance_scatter df position_filter g
       = (Ok fig1, g1) ->
     exists shown fig0,
       drawn_from (position_filtered df position_filter)
         (Nat.min 1000 (length (position_filtered df position_filter))) shown /\
       px_scatter (Frame (columns df) shown) "overall" "value_eur" "age"
         (Some "potential") ["long_name"; "club_name"; "player_positions"]
         "Player Value vs Overall Rating" = Ok fig0 /\
       fig1 = Fig (data fig0) (title fig0) (Some 500%Z) (Some (7 # 10)%Q)) /\
  (forall fig2 g2,
     App.age_vs_overall_scatter df g = (Ok fig2, g2) ->
     exists shown,
       drawn_from (rows df) (Nat.min 1000 (length (rows df))) shown /\
       px_scatter (Frame (columns df) shown) "age" "overall" "gender" None []
         "Age vs Overall Rating" = Ok fig2).
Proof.
  split.
  - intros fig1 g1 _.
    unfold Visualizations.create_value_vs_performance_scatter.
    unfold bind at 1.
    set (pre := match position_filter with Some p => _ | None => _ end).
    assert (Hpre : forall r ga, pre g = (r, ga) ->
              ga = g /\ forall d, r = Ok d ->
                columns d = columns df /\
                rows d = position_filtered df position_filter).
    { unfold pre. intros r ga.
      destruct position_filter as [p|]; [|by intros [= <- <-]; split; [|intros ? [= <-]]].
      destruct (bool_decide (p = "")) eqn:E1; simpl.
      { apply bool_decide_eq_true in E1 as ->.
        by intros [= <- <-]; split; [|intros ? [= <-]]. }
      destruct (bool_decide (p = "All")) eqn:E2; simpl.
      { apply bool_decide_eq_true in E2 as ->.
        by intros [= <- <-]; split; [|intros ? [= <-]]. }
      apply bool_decide_eq_false in E1, E2.
      unfold bind at 1, lift at 1.
      destruct (column df "player_positions") as [ps|] eqn:Ec;
        [|by intros [= <- <-]; split; [|intros ? [=]]].
      unfold bind at 1, lift at 1.
      destruct (Visualizations.series_str_contains p ps) as [mask|] eqn:Em;
        [|by intros [= <- <-]; split; [|intros ? [=]]].
      unfold ret. intros [= <- <-]. split; [done|]. intros d [= <-].
      split; [done|].
      apply series_str_contains_ok in Em as ->. apply column_cells in Ec as ->.
      cbn [rows where_]. rewrite where_str_contains. unfold position_filtered.
      destruct p as [|a p]; [done|].
      repeat (match goal with
              | |- context [match ?x with _ => _ end] => destruct x; try done
              end). }
    destruct (pre g) as [[d|e] ga] eqn:Epre; [|done].
    destruct (Hpre _ _ eq_refl) as [-> Hd]. destruct (Hd d eq_refl) as [Hc Hr].
    unfold bind at 1.
    destruct (sample d _ g) as [[ds|e] gb] eqn:Esam; [|done].
    apply sample_drawn in Esam as [Hcs Hdrawn].
    unfold bind, lift.
    destruct (px_scatter ds _ _ _ _ _ _) as [fig0|] eqn:Epx; [|done].
    intros [= <- <-]. exists (rows ds), fig0.
    rewrite <- Hr. split; [done|]. split; [|done].
    rewrite <- Hc, <- Hcs. by destruct ds.
  - intros fig2 g2. unfold App.age_vs_overall_scatter. unfold bind at 1.
    destruct (sample df _ g) as [[ds|e] gb] eqn:Esam; [|done].
    apply sample_drawn in Esam as [Hcs Hdrawn].
    unfold lift. intros [= <- <-]. exists (rows ds). split; [done|].
    rewrite <- Hcs. by destruct ds.
Qed.

Lemma sampled_charts_show_a_sample_witness :
  literal_filter (Some "ST") /\
  (exists fig1 shown fig0,
     drawn_from (position_filtered (numbered_frame 4) (Some "ST"))
       (Nat.min 1000 (length (position_filtered (numbered_frame 4) (Some "ST"))))
       shown /\
     px_scatter (Frame (columns (numbered_frame 4)) shown) "overall" "value_eur"
       "age" (Some "potential") ["long_name"; "club_name"; "player_positions"]
       "Player Value vs Overall Rating" = Ok fig0 /\
     fig1 = Fig (data fig0) (title fig0) (Some 500%Z) (Some (7 # 10)%Q)) /\
  (exists fig2 shown,
     drawn_from (rows (numbered_frame 4))
       (Nat.min 1000 (length (rows (numbered_frame 4)))) shown /\
     px_scatter (Frame (columns (numbered_frame 4)) shown) "age" "overall"
       "gender" None [] "Age vs Overall Rating" = Ok fig2).
Proof.
  destruct (sampled_charts_show_a_sample (numbered_frame 4) (Some "ST")
              counting_generator) as [H1 H2].
  assert (Hlit : literal_filter (Some "ST")) by (vm_compute; reflexivity).
  split; [exact Hlit|]. split.
  - eexists. eapply H1; [exact Hlit|]. vm_compute. reflexivity.
  - eexists. eapply H2. vm_compute. reflexivity.
Defined.

Lemma ok_exists {A} (r : result A) :
  match r with Ok _ => true | Raise _ => false end = true -> exists a, r = Ok a.
Proof. destruct r as [a|]; [by exists a|done]. Qed.

(** C3, as stated, fails.  Two calls of
    [create_value_vs_performance_scatter] in a row, on the same frame of
    1001 players and with the same filter, both return a chart, and the
    charts differ: the player rated 1000 is plotted by the first and not
    by the second. *)
Lemma sampled_chart_differs_between_calls :
  (exists fig1, first_call.1 = Ok fig1) /\
  (exists fig2, second_call.1 = Ok fig2) /\
  Num (of_Z 1000) ∈ plotted (first_call.1) /\
  (Num (of_Z 1000) ∉ plotted (second_call.1)) /\
  first_call.1 <> second_call.1.
Proof.
  assert (B1 : bool_decide (Num (of_Z 1000) ∈ plotted (first_call.1)) = true)
    by (vm_compute; reflexivity).
  assert (B2 : bool_decide (Num (of_Z 1000) ∈ plotted (second_call.1)) = false)
    by (vm_compute; reflexivity).
  apply bool_decide_eq_true in B1. apply bool_decide_eq_false in B2.
  split; [|split; [|split; [exact B1|split; [exact B2|]]]].
  - apply ok_exists. vm_compute. reflexivity.
  - apply ok_exists. vm_compute. reflexivity.
  - intros Heq. apply B2. rewrite <- Heq. exact B1.
Qed.

(** ** Loading *)



Lemma load_data_body_session w : (App.load_data_body w).2 = w.
Proof.
  unfold App.load_data_body, bind, read_csv, lift, ret.
  repeat (match goal with
          | |- context [match ?x with _ => _ end] => destruct x; simpl
          end); done.
Qed.

Lemma load_data_body_files w1 w2 :
  files w1 = files w2 -> (App.load_data_body w1).1 = (App.load_data_body w2).1.
Proof.
  intros Hf. unfold App.load_data_body, bind, read_csv, lift, ret. rewrite Hf.
  repeat (match goal with
          | |- context [match ?x with _ => _ end] => destruct x; simpl
          end); done.
Qed.

Lemma load_data_raise w e :
  (App.load_data_body w).1 = Raise e -> is_Exception e = true ->
  App.load_data w = (Ok None, Session (files w) (screen w ++ [loading_error e])).
Proof.
  intros Hr He. pose proof (load_data_body_session w) as Hs.
  unfold App.load_data, try_except. unfold bind at 1.
  destruct (App.load_data_body w) as [r w1]. simpl in *. subst.
  by rewrite He.
Qed.

(** What the reading raises (a missing file, a parse error) is what the
    body of [load_data] raises. *)
Lemma load_data_body_read_error w e :
  files w "data/male_players.csv" = Raise e \/
  (exists male, files w "data/male_players.csv" = Ok male /\
                files w "data/female_players.csv" = Raise e) ->
  (App.load_data_body w).1 = Raise e.
Proof.
  unfold App.load_data_body, bind, read_csv.
  intros [-> | (male & -> & ->)]; done.
Qed.

(** A core column that neither file has is a [KeyError]. *)
Lemma load_data_body_missing_column w male female :
  files w "data/male_players.csv" = Ok male ->
  files w "data/female_players.csv" = Ok female ->
  "overall" ∉ columns male -> "overall" ∉ columns female ->
  (App.load_data_body w).1 = Raise (KeyError "overall").
Proof.
  intros Hm Hf Nm Nf. unfold App.load_data_body, bind, read_csv.
  rewrite Hm, Hf. unfold lift at 1, dropna_subset, missing_column.
  assert (H : has_column
                (concat (assign_all male "gender" (Str "Male"))
                   (assign_all female "gender" (Str "Female"))) "overall" = false).
  { apply bool_decide_eq_false. unfold concat, assign_all. simpl.
    rewrite elem_of_app. intros [H|H].
    - destruct (has_column male "gender"); [done|].
      apply elem_of_app in H as [H|H]; [done|].
      by apply list_elem_of_singleton in H.
    - apply list_elem_of_In, filter_In in H as [H _]. apply list_elem_of_In in H.
      destruct (has_column female "gender"); [done|].
      apply elem_of_app in H as [H|H]; [done|].
      by apply list_elem_of_singleton in H. }
  simpl. by rewrite H.
Qed.

(** C6.  Whatever exception (an [Exception]: missing file, parse error,
    missing column, ...) the reading or the preprocessing raises,
    [load_data] does not let it through: it puts an error message on the
    page and returns [None]; [main] then stops, with the header and the
    message on the page and nothing rendered. *)
Theorem load_data_shows_error_and_main_stops (w : session) (e : exn) :
  (App.load_data_body w).1 = Raise e ->
  is_Exception e = true ->
  App.load_data w
    = (Ok None, Session (files w) (screen w ++ [loading_error e])) /\
  forall render,
    App.main render w
    = (Raise StopException,
       Session (files w) (screen w ++ [Markdown App.header; loading_error e])).
Proof.
  intros Hr He. split; [by apply load_data_raise|].
  intros render. unfold App.main. unfold bind at 1. unfold st_markdown at 1.
  set (w1 := Session (files w) (screen w ++ [Markdown App.header])).
  unfold bind at 1.
  rewrite (load_data_raise w1 e); [|by rewrite <- Hr; apply load_data_body_files|done].
  unfold st_stop, raise. simpl. by rewrite <- app_assoc.
Qed.

Lemma load_data_shows_error_and_main_stops_witness :
  App.load_data session_without_male_file
    = (Ok None,
       Session (files session_without_male_file)
         (screen session_without_male_file
            ++ [loading_error (FileNotFoundError "data/male_players.csv")])) /\
  forall render,
    App.main render session_without_male_file
    = (Raise StopException,
       Session (files session_without_male_file)
         (screen session_without_male_file
            ++ [Markdown App.header;
                loading_error (FileNotFoundError "data/male_players.csv")])).
Proof.
  apply (load_data_shows_error_and_main_stops session_without_male_file
           (FileNotFoundError "data/male_players.csv")).
  - vm_compute. reflexivity.
  - reflexivity.
Defined.

(** *** Which rows are kept *)

Lemma complete_core_fields r :
  complete App.core_fields r = core_present (core r).
Proof.
  unfold complete, core_present, core. simpl. by rewrite andb_true_r, andb_assoc.
Qed.

Lemma complete_ratings r :
  complete ["overall"; "potential"] r = ratings_present (core r).
Proof. unfold complete, ratings_present, core. simpl. by rewrite andb_true_r. Qed.

Lemma core_set_cell c v r :
  c ∉ App.core_fields -> core (set_cell c v r) = core r.
Proof.
  intros Hc. unfold core.
  rewrite !cell_set_cell_ne; [done|..]; intros ->; apply Hc; set_solver.
Qed.

Lemma other_columns_not_core :
  ("gender" ∉ App.core_fields) /\ ("wage_eur" ∉ App.core_fields) /\
  ("age_group" ∉ App.core_fields).
Proof. repeat split; apply (bool_decide_unpack _); exact I. Qed.

Lemma core_relabel i r : core (Row i (cells r)) = core r.
Proof. done. Qed.

Lemma core_imap_relabel (l : list row) n :
  core <$> imap (fun i r => Row (Z.of_nat (n + i)) (cells r)) l = core <$> l.
Proof.
  revert n. induction l as [|r l IH]; intros n; [done|]. csimpl. f_equal.
  rewrite <- (IH (S n)). f_equal. apply imap_ext. intros i x _. simpl.
  do 2 f_equal. lia.
Qed.

(** A filter that looks at the image under [f] only sees the same
    elements in two lists with the same images. *)
Section FilterByImage.
Context {A B : Type} (f : A -> B) (p : B -> bool).

Lemma filter_by_image (l1 l2 : list A) :
  f <$> l1 = f <$> l2 ->
  f <$> List.filter (fun x => p (f x)) l1 = f <$> List.filter (fun x => p (f x)) l2.
Proof.
  revert l2. induction l1 as [|x1 l1 IH]; intros [|x2 l2]; csimpl; try done.
  intros [= Hx Hl]. rewrite Hx. destruct (p (f x2)); csimpl.
  - rewrite Hx. f_equal. by apply IH.
  - by apply IH.
Qed.

Lemma filter_ext_image (q : A -> bool) (l : list A) :
  (forall x, q x = p (f x)) ->
  List.filter q l = List.filter (fun x => p (f x)) l.
Proof. intros H. induction l as [|x l IH]; simpl; [done|]. by rewrite H, IH. Qed.

Lemma Forall_filter_image (l : list A) :
  Forall (fun x => p (f x) = true) (List.filter (fun x => p (f x)) l).
Proof.
  apply Forall_forall. intros x Hx.
  by apply list_elem_of_In, filter_In in Hx as [_ ?].
Qed.

Lemma Forall_by_image (l1 l2 : list A) :
  f <$> l1 = f <$> l2 ->
  Forall (fun x => p (f x) = true) l2 -> Forall (fun x => p (f x) = true) l1.
Proof.
  revert l2. induction l1 as [|x1 l1 IH]; intros [|x2 l2]; csimpl; try done.
  intros [= Hx Hl] H. inversion H; subst. constructor; [by rewrite Hx|eauto].
Qed.
End FilterByImage.

(** The rows of the concatenation of the two files, the gender column
    added, have the core fields of the rows on file. *)
Lemma concat_core male female g1 g2 :
  core <$> rows (concat (assign_all male "gender" g1) (assign_all female "gender" g2))
  = core <$> players_on_file male female.
Proof.
  unfold concat, players_on_file. simpl.
  rewrite (core_imap_relabel _ 0). rewrite !fmap_app, <- !list_fmap_compose.
  f_equal; apply list_fmap_ext; intros i r _; simpl; apply core_set_cell;
    apply other_columns_not_core.
Qed.

Lemma assign_fillna_core df vs d :
  Forall (fun r => core_present (core r) = true) (rows df) ->
  column df "value_eur" = Ok vs ->
  assign df "value_eur" (fillna0 <$> vs) = Ok d ->
  core <$> rows d = core <$> rows df.
Proof.
  intros Hc Hv Ha. apply column_cells in Hv. apply assign_rows in Ha.
  rewrite Ha, Hv, <- list_fmap_compose, zip_with_fmap_self, <- list_fmap_compose.
  apply Forall_fmap_ext_1. eapply Forall_impl; [exact Hc|].
  intros r Hr. simpl. unfold core in *. unfold core_present in Hr. simpl in Hr.
  rewrite cell_set_cell, !cell_set_cell_ne by done.
  apply andb_true_iff in Hr as [_ Hr]. unfold fillna0. by rewrite Hr.
Qed.

Lemma assign_other_core df c vs d :
  c ∉ App.core_fields ->
  assign df c vs = Ok d ->
  core <$> rows d = core <$> rows df.
Proof.
  intros Hc Ha. pose proof (assign_length _ _ _ _ Ha) as Hlen.
  apply assign_rows in Ha. rewrite Ha. clear Ha.
  revert vs Hlen. induction (rows df) as [|r l IH]; intros [|v vs]; csimpl; try done.
  intros [= Hlen]. rewrite core_set_cell by done. f_equal. by apply IH.
Qed.

Lemma rmap_length {A B} (f : A -> result B) l ys :
  rmap f l = Ok ys -> length ys = length l.
Proof.
  revert ys. induction l as [|x l IH]; intros ys; simpl; [by intros [= <-]|].
  destruct (f x); simpl; [|done]. destruct (rmap f l); simpl; [|done].
  intros [= <-]. simpl. f_equal. by apply IH.
Qed.

Lemma dropna_subset_rows df cs d :
  dropna_subset df cs = Ok d -> rows d = List.filter (complete cs) (rows df).
Proof. unfold dropna_subset. destruct (missing_column df cs); by intros [= <-]. Qed.

Lemma app_load_data_rows w w' df :
  App.load_data w = (Ok (Some df), w') ->
  exists male female,
    files w "data/male_players.csv" = Ok male /\
    files w "data/female_players.csv" = Ok female /\
    core <$> rows df
    = core <$> List.filter (fun r => core_present (core r))
                 (players_on_file male female).
Proof.
  unfold App.load_data, try_except. unfold bind at 1.
  destruct (App.load_data_body w) as [[d|e] w1] eqn:Eb;
    [|destruct (is_Exception e); [|done]; unfold bind, st_error, ret; done].
  unfold ret. intros [= <- <-]. revert Eb.
  unfold App.load_data_body. unfold bind at 1. unfold read_csv at 1.
  destruct (files w "data/male_players.csv") as [male|] eqn:Em; [|done].
  unfold bind at 1. unfold read_csv at 1.
  destruct (files w "data/female_players.csv") as [female|] eqn:Ef; [|done].
  set (all0 := concat _ _).
  unfold bind at 1, lift at 1.
  destruct (dropna_subset all0 App.core_fields) as [all1|] eqn:E1; [|done].
  unfold bind at 1, lift at 1.
  destruct (column all1 "value_eur") as [vs|] eqn:Ev; [|done].
  unfold bind at 1, lift at 1.
  destruct (assign all1 "value_eur" _) as [all2|] eqn:E2; [|done].
  unfold bind at 1, lift at 1.
  destruct (column all2 "wage_eur") as [ws|] eqn:Ew; [|done].
  unfold bind at 1, lift at 1.
  destruct (assign all2 "wage_eur" _) as [all3|] eqn:E3; [|done].
  unfold bind at 1, lift at 1.
  destruct (column all3 "age") as [ages|] eqn:Eage; [|done].
  unfold bind at 1, lift at 1.
  destruct (rmap age_group ages) as [groups|] eqn:Eg; [|done].
  unfold bind at 1, lift at 1.
  destruct (assign all3 "age_group" groups) as [all4|] eqn:E4; [|done].
  unfold ret. intros [= <- <-].
  exists male, female. split; [done|]. split; [done|].
  apply dropna_subset_rows in E1.
  rewrite (filter_ext_image core core_present _ _ complete_core_fields) in E1.
  assert (H1 : core <$> rows all1
               = core <$> List.filter (fun r => core_present (core r))
                            (players_on_file male female)).
  { rewrite E1. apply filter_by_image. apply concat_core. }
  assert (F1 : Forall (fun r => core_present (core r) = true) (rows all1)).
  { rewrite E1. apply Forall_filter_image. }
  destruct other_columns_not_core as (_ & Hwage & Hgroup).
  rewrite (assign_other_core _ _ _ _ Hgroup E4).
  rewrite (assign_other_core _ _ _ _ Hwage E3).
  by rewrite (assign_fillna_core all1 vs all2).
Qed.

Lemma advanced_load_data_rows w w' df :
  AdvancedAnalytics.load_data w = (Ok (Some df), w') ->
  exists male female,
    files w "data/male_players.csv" = Ok male /\
    files w "data/female_players.csv" = Ok female /\
    core <$> rows df
    = core <$> List.filter (fun r => ratings_present (core r))
                 (players_on_file male female).
Proof.
  unfold AdvancedAnalytics.load_data, try_except. unfold bind at 1.
  destruct (AdvancedAnalytics.load_data_body w) as [[d|e] w1] eqn:Eb;
    [|destruct (is_Exception e); [|done]; unfold bind, st_error, ret; done].
  unfold ret. intros [= <- <-]. revert Eb.
  unfold AdvancedAnalytics.load_data_body. unfold bind at 1. unfold read_csv at 1.
  destruct (files w "data/male_players.csv") as [male|] eqn:Em; [|done].
  unfold bind at 1. unfold read_csv at 1.
  destruct (files w "data/female_players.csv") as [female|] eqn:Ef; [|done].
  set (all0 := concat _ _). unfold lift.
  destruct (dropna_subset all0 _) as [all1|] eqn:E1; [|done].
  intros [= <- <-].
  exists male, female. split; [done|]. split; [done|].
  apply dropna_subset_rows in E1.
  rewrite (filter_ext_image core ratings_present _ _ complete_ratings) in E1.
  rewrite E1. apply filter_by_image. apply concat_core.
Qed.

Lemma filter_core (p : value * value * value -> bool) (l : list row) :
  core <$> List.filter (fun r => p (core r)) l = List.filter p (core <$> l).
Proof.
  induction l as [|r l IH]; csimpl; [done|].
  destruct (p (core r)); csimpl; by rewrite IH.
Qed.

(** C7 (amended).  Whenever [load_data] of [app.py] returns a frame, its
    rows are the rows on file whose overall, potential and value are all
    present; whenever [load_data] of [advanced_analytics.py] returns a
    frame, its rows are the rows on file whose overall and potential are
    present, the value may be missing.  In both, the three fields are
    returned as they are on file, whatever their values: no range is
    checked. *)
Theorem load_data_keeps_rows_with_core_fields (w : session) :
  (forall df w',
     App.load_data w = (Ok (Some df), w') ->
     exists male female,
       files w "data/male_players.csv" = Ok male /\
       files w "data/female_players.csv" = Ok female /\
       core <$> rows df
         = List.filter core_present (core <$> players_on_file male female) /\
       Forall (fun r => complete App.core_fields r = true) (rows df)) /\
  (forall df w',
     AdvancedAnalytics.load_data w = (Ok (Some df), w') ->
     exists male female,
       files w "data/male_players.csv" = Ok male /\
       files w "data/female_players.csv" = Ok female /\
       core <$> rows df
         = List.filter ratings_present (core <$> players_on_file male female) /\
       Forall (fun r => complete ["overall"; "potential"] r = true) (rows df)).
Proof.
  split; intros df w' Hrun.
  - destruct (app_load_data_rows _ _ _ Hrun) as (male & female & Hm & Hf & Hr).
    exists male, female. split; [done|]. split; [done|].
    split; [by rewrite <- filter_core|].
    eapply Forall_impl; [|intros r Hc; rewrite complete_core_fields; exact Hc].
    eapply Forall_by_image; [exact Hr|]. apply Forall_filter_image.
  - destruct (advanced_load_data_rows _ _ _ Hrun) as (male & female & Hm & Hf & Hr).
    exists male, female. split; [done|]. split; [done|].
    split; [by rewrite <- filter_core|].
    eapply Forall_impl; [|intros r Hc; rewrite complete_ratings; exact Hc].
    eapply Forall_by_image; [exact Hr|]. apply Forall_filter_image.
Qed.

Lemma has_loaded_eq out :
  has_loaded out = true -> out = (Ok (Some (loaded out)), out.2).
Proof.
  unfold has_loaded, loaded. destruct out as [[[d|]|e] w]; simpl; done.
Qed.

Lemma load_data_keeps_rows_with_core_fields_witness :
  (exists male female,
     files session_with_odd_rows "data/male_players.csv" = Ok male /\
     files session_with_odd_rows "data/female_players.csv" = Ok female /\
     core <$> rows (loaded (App.load_data session_with_odd_rows))
       = List.filter core_present (core <$> players_on_file male female) /\
     Forall (fun r => complete App.core_fields r = true)
       (rows (loaded (App.load_data session_with_odd_rows)))) /\
  (exists male female,
     files session_with_odd_rows "data/male_players.csv" = Ok male /\
     files session_with_odd_rows "data/female_players.csv" = Ok female /\
     core <$> rows (loaded (AdvancedAnalytics.load_data session_with_odd_rows))
       = List.filter ratings_present (core <$> players_on_file male female) /\
     Forall (fun r => complete ["overall"; "potential"] r = true)
       (rows (loaded (AdvancedAnalytics.load_data session_with_odd_rows)))).
Proof.
  destruct (load_data_keeps_rows_with_core_fields session_with_odd_rows)
    as [H1 H2].
  split.
  - eapply H1. apply has_loaded_eq. vm_compute. reflexivity.
  - eapply H2. apply has_loaded_eq. vm_compute. reflexivity.
Defined.

(** C7, as stated, fails for the [load_data] of [advanced_analytics.py]:
    of a man on file with an overall rating and no value, the row is
    returned, its value missing.  (The woman rated 150 with a value of -3
    is returned too, as she is by [app.py].) *)
Lemma advanced_load_data_keeps_missing_value :
  has_loaded (AdvancedAnalytics.load_data session_with_odd_rows) = true /\
  core <$> rows (loaded (AdvancedAnalytics.load_data session_with_odd_rows))
  = [(Num (of_Z 81), Num (of_Z 70), Num NaN);
     (Num (of_Z 150), Num (of_Z 70), Num (of_Z (-3)))] /\
  ~ Forall (fun r => complete App.core_fields r = true)
      (rows (loaded (AdvancedAnalytics.load_data session_with_odd_rows))).
Proof.
  assert (E : core <$> rows (loaded (AdvancedAnalytics.load_data session_with_odd_rows))
              = [(Num (of_Z 81), Num (of_Z 70), Num NaN);
                 (Num (of_Z 150), Num (of_Z 70), Num (of_Z (-3)))])
    by (vm_compute; reflexivity).
  split; [vm_compute; reflexivity|]. split; [exact E|].
  intros H.
  assert (H' : Forall (fun c => core_present c = true)
                 (core <$> rows (loaded (AdvancedAnalytics.load_data
                                           session_with_odd_rows)))).
  { apply Forall_fmap. eapply Forall_impl; [exact H|].
    intros r Hr. simpl. by rewrite <- complete_core_fields. }
  rewrite E in H'. apply Forall_cons in H' as [H' _]. discriminate H'.
Qed.

(** ** The value predictor *)


Section Predictor.
Context `{Sklearn}.

Lemma sk_not_value_error {A} routine (o : option A) msg :
  sk routine o <> Raise (ValueError msg).
Proof. by destruct o. Qed.

(** Case analysis on what is examined, innermost first. *)
Ltac crunch :=
  repeat (match goal with
          | |- context [match ?x with _ => _ end] =>
              lazymatch x with
              | context [match _ with _ => _ end] => fail
              | _ => destruct x; simpl
              end
          end).

Lemma train_is_trained df self :
  Analytics.is_trained (Analytics.train df self).2
  = match (Analytics.train df self).1 with
    | Ok _ => true
    | Raise _ => Analytics.is_trained self
    end.
Proof.
  unfold Analytics.train, bind, get, put, lift, ret, sk. simpl.
  crunch; done.
Qed.

Lemma predict_state x self : (Analytics.predict x self).2 = self.
Proof.
  unfold Analytics.predict, bind, get, raise, lift, ret, sk, Analytics.first. simpl.
  crunch; done.
Qed.

Lemma get_feature_importance_state self :
  (Analytics.get_feature_importance self).2 = self.
Proof.
  unfold Analytics.get_feature_importance, bind, get, raise, lift, ret, sk. simpl.
  crunch; done.
Qed.

Lemma predict_guard x self :
  (Analytics.predict x self).1 = Raise not_trained
  <-> Analytics.is_trained self = false.
Proof.
  unfold Analytics.predict, bind, get, raise, lift, ret, sk, Analytics.first. simpl.
  destruct (Analytics.is_trained self); simpl; [|done].
  split; [|done]. crunch; done.
Qed.

Lemma get_feature_importance_guard self :
  (Analytics.get_feature_importance self).1 = Raise not_trained
  <-> Analytics.is_trained self = false.
Proof.
  unfold Analytics.get_feature_importance, bind, get, raise, lift, ret, sk. simpl.
  destruct (Analytics.is_trained self); simpl; [|done].
  split; [|done]. crunch; done.
Qed.

Lemma after_calls_snoc cs c :
  after_calls (cs ++ [c]) = (perform c (after_calls cs)).2.
Proof. unfold after_calls. by rewrite foldl_app. Qed.

Lemma train_succeeded_snoc cs c :
  train_succeeded (cs ++ [c]) <->
  train_succeeded cs \/
  exists df, c = Train df /\ (perform c (after_calls cs)).1 = None.
Proof.
  split.
  - intros (before & df & after & Hcs & Hok).
    destruct after as [|z after _] using rev_ind.
    + apply app_inj_tail in Hcs as [-> ->]. right. by exists df.
    + left. rewrite app_comm_cons, app_assoc in Hcs.
      apply app_inj_tail in Hcs as [-> _]. by exists before, df, after.
  - intros [(before & df & after & -> & Hok) | (df & -> & Hok)].
    + exists before, df, (after ++ [c]). by rewrite <- app_assoc.
    + by exists cs, df, [].
Qed.

Lemma is_trained_after_calls cs :
  Analytics.is_trained (after_calls cs) = true <-> train_succeeded cs.
Proof.
  induction cs as [|c cs IH] using rev_ind.
  - split; [done|]. intros (before & df & after & Hcs & _).
    by destruct before.
  - rewrite after_calls_snoc, train_succeeded_snoc, <- IH.
    destruct c as [df|x|]; simpl.
    + rewrite train_is_trained.
      destruct (Analytics.train df (after_calls cs)).1 as [m|e] eqn:E; simpl.
      * split; [|done]. intros _. right. by exists df.
      * split; [by left|]. by intros [?|(df' & _ & ?)].
    + rewrite predict_state. split; [by left|]. by intros [?|(df' & ? & _)].
    + rewrite get_feature_importance_state. split; [by left|].
      by intros [?|(df' & ? & _)].
Qed.
End Predictor.

(** C9.  A new predictor is not trained.  After any sequence of calls on
    a new predictor, [predict] and [get_feature_importance] raise the
    [ValueError] of their guard if and only if no call of [train] in the
    sequence has returned: they raise it as long as none has, and never
    again once one has. *)
Theorem predictor_raises_iff_not_trained `{Sklearn}
    (cs : list call) (player_features : list value) :
  Analytics.is_trained Analytics.init = false /\
  ((Analytics.predict player_features (after_calls cs)).1 = Raise not_trained
   <-> ~ train_succeeded cs) /\
  ((Analytics.get_feature_importance (after_calls cs)).1 = Raise not_trained
   <-> ~ train_succeeded cs).
Proof.
  split; [done|].
  rewrite predict_guard, get_feature_importance_guard, <- is_trained_after_calls.
  by destruct (Analytics.is_trained (after_calls cs)).
Qed.

(** With the example instance, training on six players returns, and the
    guard then lets [predict] through. *)
Lemma example_train_then_predict :
  @train_succeeded example_sklearn [Predict []; Train (example_frame 6)] /\
  (@Analytics.predict example_sklearn [Num (of_Z 70)]
     (@after_calls example_sklearn [Predict []; Train (example_frame 6)])).1
  = Ok (Analytics.ensemble (Fin 1000) (Fin 2000)).
Proof.
  split.
  - exists [Predict []], (example_frame 6), []. split; [done|].
    vm_compute. reflexivity.
  - vm_compute. reflexivity.
Qed.

(** ** Training data and the fitted predictor *)

Lemma rmap_in_range (vs : list value) ok :
  rmap Analytics.in_range vs = Ok ok ->
  ok = (fun v => match v with
                 | Num y => flt (Fin 0) y && flt y (Fin 200000000)
                 | Str _ => false
                 end) <$> vs.
Proof.
  revert ok. induction vs as [|v vs IH]; intros ok; simpl.
  - by intros [= <-].
  - destruct v as [y|]; simpl; [|done].
    destruct (rmap Analytics.in_range vs) as [ok'|]; simpl; [|done].
    intros [= <-]. csimpl. f_equal. by apply IH.
Qed.

Lemma values_restrict cs (l : list row) :
  values (Frame cs (restrict cs <$> l)) = (fun r => cell r <$> cs) <$> l.
Proof.
  unfold values. simpl. rewrite <- list_fmap_compose.
  apply list_fmap_ext. intros i r _. simpl.
  apply list_fmap_ext. intros j c Hc.
  apply cell_restrict. by eapply list_elem_of_lookup_2.
Qed.

(** X1.  When [prepare_data] returns, [X] and [y] hold, row for row and
    in the order of the frame, the features and the market value of
    exactly the players whose value lies strictly between 0 and 200
    million and who lack no feature.  A player worth 0 is left out. *)
Theorem prepare_data_keeps_trainable `{Sklearn}
    (self : Analytics.PlayerValuePredictor) (df : DataFrame)
    (X : list (list value)) (y : list value) :
  Analytics.prepare_data self df = Ok (X, y) ->
  let kept := List.filter (trainable (Analytics.feature_cols self)) (rows df) in
  X = (fun r => cell r <$> Analytics.feature_cols self) <$> kept /\
  y = (fun r => cell r "value_eur") <$> kept.
Proof.
  unfold Analytics.prepare_data.
  destruct (select df _) as [d|] eqn:Es; [|done]. cbn [rbind].
  destruct (column df "value_eur") as [vs|] eqn:Ev; [|done]. cbn [rbind].
  destruct (rmap Analytics.in_range vs) as [ok|] eqn:Eok; [|done]. cbn [rbind].
  intros [= <- <-].
  apply rmap_in_range in Eok. apply column_cells in Ev.
  unfold select in Es. destruct (missing_column _ _); [done|].
  injection Es as <-. cbn [rows].
  set (cs := Analytics.feature_cols self).
  assert (Hmask :
    zip_with andb ok (complete cs <$> (restrict cs <$> rows df))
    = trainable cs <$> rows df).
  { rewrite Eok, Ev, <- !list_fmap_compose.
    rewrite zip_with_fmap_same. apply list_fmap_ext. intros i r _. simpl.
    unfold trainable. by rewrite complete_restrict. }
  rewrite Hmask, values_restrict, Ev. split; apply mask_rows_fmap.
Qed.


Section PredictorFitted.
Context `{Sklearn}.

Ltac crunch :=
  repeat (match goal with
          | |- context [match ?x with _ => _ end] =>
              lazymatch x with
              | context [match _ with _ => _ end] => fail
              | _ => destruct x; simpl
              end
          end).

Lemma train_fitted df self :
  (Analytics.is_trained (Analytics.train df self).2 = true ->
   Analytics.is_trained self = true \/ fitted (Analytics.train df self).2) /\
  (fitted self -> fitted (Analytics.train df self).2) /\
  Analytics.feature_cols (Analytics.train df self).2 = Analytics.feature_cols self.
Proof.
  unfold fitted, Analytics.train, bind, get, put, lift, ret, sk. simpl.
  crunch; simpl; (split; [|split]); try done; eauto 10.
  all: try (intros (? & ? & ?); eauto 10).
Qed.

Lemma fitted_after_calls cs :
  (Analytics.is_trained (after_calls cs) = true -> fitted (after_calls cs)) /\
  Analytics.feature_cols (after_calls cs) = Analytics.feature_cols Analytics.init.
Proof.
  induction cs as [|c cs [IH1 IH2]] using rev_ind; [done|].
  rewrite after_calls_snoc. destruct c as [df|x|]; cbn [perform snd].
  - destruct (train_fitted df (after_calls cs)) as (H1 & H2 & H3).
    split; [|by rewrite H3]. intros Ht. destruct (H1 Ht); auto.
  - by rewrite predict_state.
  - by rewrite get_feature_importance_state.
Qed.
End PredictorFitted.

(** X2.  After any sequence of calls on a new predictor, a predictor
    that says it is trained has its scaler and its two regressors
    fitted, and its list of features is the one it was created with. *)
Theorem trained_predictor_is_fitted `{Sklearn} (cs : list call) :
  Analytics.is_trained (after_calls cs) = true ->
  fitted (after_calls cs) /\
  Analytics.feature_cols (after_calls cs) = Analytics.feature_cols Analytics.init.
Proof.
  intros Ht. destruct (fitted_after_calls cs) as [H1 H2]. auto.
Qed.

Lemma prepare_data_keeps_trainable_witness :
  @Analytics.prepare_data example_sklearn Analytics.init cheap_players
  = Ok ([cell (example_player 19) <$> init_features],
        [Num (of_Z 50000)]) /\
  [cell (example_player 19) <$> init_features]
  = (fun r => cell r <$> init_features)
      <$> List.filter (trainable (init_features))
            (rows cheap_players).
Proof.
  assert (Hrun :
    @Analytics.prepare_data example_sklearn Analytics.init cheap_players
    = Ok ([cell (example_player 19) <$> init_features],
          [Num (of_Z 50000)])) by (vm_compute; reflexivity).
  split; [exact Hrun|].
  exact (proj1 (prepare_data_keeps_trainable _ _ _ _ Hrun)).
Defined.

Lemma trained_predictor_is_fitted_witness :
  @Analytics.is_trained example_sklearn
    (after_calls [Predict []; Train (example_frame 6)]) = true /\
  @fitted example_sklearn (after_calls [Predict []; Train (example_frame 6)]).
Proof.
  assert (Ht : @Analytics.is_trained example_sklearn
                 (after_calls [Predict []; Train (example_frame 6)]) = true)
    by (vm_compute; reflexivity).
  split; [exact Ht|].
  exact (proj1 (trained_predictor_is_fitted _ Ht)).
Defined.

(** X4.  When [get_feature_importance] returns, its rows are the
    features of the predictor, each once, paired with the importance the
    forest gives at the same position, in descending order of
    importance (NaN last). *)
Theorem get_feature_importance_sorted `{Sklearn}
    (self : Analytics.PlayerValuePredictor) (table : list (string * float64)) :
  (Analytics.get_feature_importance self).1 = Ok table ->
  exists rf,
    Analytics.rf_model self = Some rf /\
    table ≡ₚ zip (Analytics.feature_cols self) (feature_importances_ rf) /\
    table.*1 ≡ₚ Analytics.feature_cols self /\
    StronglySorted (fun a b => desc_le a.2 b.2 = true) table.
Proof.
  unfold Analytics.get_feature_importance, bind, get, raise, lift, ret, sk.
  simpl. destruct (Analytics.is_trained self); simpl; [|done].
  destruct (Analytics.rf_model self) as [rf|]; simpl; [|done].
  case_bool_decide as Hlen; simpl; [|done].
  intros [= <-]. exists rf. split; [done|].
  split; [apply stable_sort_perm|]. split.
  - rewrite stable_sort_perm. rewrite fst_zip; [done|lia].
  - apply stable_sort_sorted.
    + intros x y. apply desc_le_total.
    + intros x y z. apply desc_le_trans.
Qed.

Lemma get_feature_importance_sorted_witness :
  (@Analytics.get_feature_importance example_sklearn
     (after_calls [Train (example_frame 6)])).1
  = Ok (zip (init_features) (replicate 13 (Fin (1 # 13)))) /\
  (zip (init_features)
     (replicate 13 (Fin (1 # 13)))).*1
  ≡ₚ @Analytics.feature_cols example_sklearn
       (after_calls [Train (example_frame 6)]).
Proof.
  assert (Hrun :
    (@Analytics.get_feature_importance example_sklearn
       (after_calls [Train (example_frame 6)])).1
    = Ok (zip (init_features) (replicate 13 (Fin (1 # 13)))))
    by (vm_compute; reflexivity).
  split; [exact Hrun|].
  destruct (get_feature_importance_sorted _ _ Hrun) as (rf & _ & _ & Hp & _).
  exact Hp.
Defined.

(** ** More on similar players and on the player report *)

Lemma elem_of_rev {A} (x : A) l : x ∈ rev l <-> x ∈ l.
Proof. rewrite rev_alt. apply elem_of_reverse. Qed.

Lemma fmap_rev {A B} (f : A -> B) l : f <$> rev l = rev (f <$> l).
Proof.
  induction l as [|x l IH]; csimpl; [done|]. by rewrite fmap_app, IH.
Qed.

Lemma StronglySorted_rev {A} (R : A -> A -> Prop) l :
  StronglySorted R l -> StronglySorted (fun a b => R b a) (rev l).
Proof.
  induction 1 as [|x l Hs IH Hx]; simpl; [constructor|].
  apply StronglySorted_app_2; [|done|repeat constructor].
  intros a b Ha Hb. apply list_elem_of_singleton in Hb as ->.
  rewrite Forall_forall in Hx. apply Hx. by apply elem_of_rev.
Qed.

Lemma StronglySorted_take_drop {A} (R : A -> A -> Prop) l a b :
  StronglySorted R l -> StronglySorted R (take b (drop a l)).
Proof.
  intros Hs. rewrite <- (take_drop a l) in Hs.
  apply StronglySorted_app_1_r in Hs.
  rewrite <- (take_drop b (drop a l)) in Hs.
  by apply StronglySorted_app_1_l in Hs.
Qed.

Lemma StronglySorted_fmap {A B} (R : B -> B -> Prop) (f : A -> B) l :
  StronglySorted (fun a b => R (f a) (f b)) l -> StronglySorted R (f <$> l).
Proof.
  induction 1 as [|x l Hs IH Hx]; csimpl; constructor; [done|].
  by apply Forall_fmap.
Qed.

Lemma take_positions_pairs {A} (xs : list A) (P : list (nat * A)) :
  Forall (fun p => xs !! p.1 = Some p.2) P ->
  take_positions xs (P.*1) = P.*2.
Proof.
  unfold take_positions.
  induction 1 as [|[i x] P Hx _ IH]; csimpl; [done|].
  simpl in Hx. rewrite Hx. csimpl. by rewrite IH.
Qed.

Lemma zip_seq_lookup {A} (xs : list A) n :
  Forall (fun p => p.1 >= n /\ xs !! (p.1 - n) = Some p.2)%nat
    (zip (seq n (length xs)) xs).
Proof.
  revert n. induction xs as [|x xs IH]; intros n; simpl; constructor.
  - simpl. split; [lia|]. by rewrite Nat.sub_diag.
  - eapply Forall_impl; [apply (IH (S n))|]. intros [i y] [Hi Hy]. simpl in *.
    split; [lia|]. replace (i - n)%nat with (S (i - S n)) by lia. done.
Qed.

(** The scores at the positions that [find_similar_players] picks are
    in descending order. *)
Lemma picked_scores_sorted (sims : list float64) (start stop : Z) :
  most_similar_first
    (take_positions sims (rev (py_slice (argsort sims) start stop))).
Proof.
  unfold argsort, py_slice.
  set (S := stable_sort _ _).
  rewrite <- fmap_drop, <- fmap_take, <- fmap_rev.
  assert (HS : Forall (fun p => sims !! p.1 = Some p.2) S).
  { unfold S. rewrite stable_sort_perm.
    eapply Forall_impl; [apply (zip_seq_lookup sims 0)|].
    intros [i y] [_ Hy]. simpl in *. by rewrite Nat.sub_0_r in Hy. }
  rewrite take_positions_pairs.
  - unfold most_similar_first. rewrite fmap_rev.
    apply (StronglySorted_rev (fun a b => asc_le a b = true)).
    apply StronglySorted_fmap, StronglySorted_take_drop.
    apply (stable_sort_sorted (fun a b => asc_le a.2 b.2)).
    + intros x y. apply asc_le_total.
    + intros x y z. apply asc_le_trans.
  - rewrite Forall_forall in *. intros p Hp. apply HS.
    rewrite elem_of_rev in Hp.
    by eapply subseteq_drop, subseteq_take, Hp.
Qed.

Lemma fmap_zip_with_set_cell c (vs : list value) (rs : list row) :
  length vs = length rs ->
  (fun r => cell r c) <$> zip_with (set_cell c) vs rs = vs.
Proof.
  revert rs. induction vs as [|v vs IH]; intros [|r rs]; csimpl; try done.
  intros [= Hl]. by rewrite cell_set_cell, IH.
Qed.

(** X5.  When [find_similar_players] returns, for an [n_similar] that is
    not negative, the frame has at most [n_similar] rows, and its
    similarity scores come in descending order. *)
Theorem find_similar_players_most_similar_first `{Sklearn}
    (s : store) (l : loc) (df : DataFrame) (id n : Z) (out : DataFrame) :
  s !! l = Some df ->
  (0 <= n)%Z ->
  returned (Analytics.find_similar_players l id n s) = Some out ->
  (length (rows out) <= Z.to_nat n)%nat /\
  most_similar_first (num_key "similarity_score" <$> rows out).
Proof.
  intros Hl Hn. unfold Analytics.find_similar_players.
  unfold bind at 1. rewrite (getitem_run _ _ _ _ Hl).
  destruct (column df "player_id") as [ids|]; [|done].
  unfold bind at 1. rewrite (derive_run _ _ _ _ Hl).
  unfold bind at 1. rewrite (load_run _ _ _ (lookup_snoc _ _)).
  destruct (empty _).
  { unfold alloc, returned.
    replace (length (s ++ [where_ df (eq_cell id <$> ids)]))
      with (length (s ++ [where_ df (eq_cell id <$> ids)]) + 0)%nat by lia.
    rewrite lookup_app_r by lia.
    replace (_ + 0 - _)%nat with 0%nat by lia. intros [= <-]. simpl.
    split; [lia|constructor]. }
  unfold bind at 1, lift at 1.
  destruct (rbind _ _) as [tf|]; [|done].
  unfold bind at 1. rewrite (derive_run _ _ df) by by apply lookup_old.
  destruct (select df _) as [sel|]; [|done].
  unfold bind at 1. rewrite (derive_run _ _ _ _ (lookup_snoc _ _)).
  unfold bind at 1. rewrite (load_run _ _ _ (lookup_snoc _ _)).
  unfold bind at 1, lift at 1.
  destruct (cosine_similarity _ _) as [matrix|]; [|done].
  unfold bind at 1, lift at 1.
  destruct (Analytics.first matrix) as [sims|]; [|done].
  pose proof (picked_scores_sorted sims (- n - 1) (-1)) as Hsorted.
  pose proof (py_slice_length (argsort sims) n Hn) as Hlen.
  set (idx := rev _) in *. set (labels := take_positions _ idx).
  unfold bind at 1.
  rewrite (derive_run _ _ df)
    by (rewrite <- !app_assoc; by apply lookup_old).
  unfold bind at 1. rewrite (copy_run _ _ _ (lookup_snoc _ _)).
  unfold bind at 1. rewrite (setitem_run _ _ _ _ _ (lookup_snoc _ _)).
  destruct (assign _ _ _) as [scored|] eqn:Ea; [|done].
  rewrite insert_snoc, (derive_run _ _ _ _ (lookup_snoc _ _)).
  destruct (select scored _) as [final|] eqn:Es; [|done].
  unfold returned. rewrite lookup_snoc. intros [= <-].
  apply select_rows in Es as ->. cbn [rows].
  pose proof (assign_rows _ _ _ _ Ea) as Hrows.
  unfold assign in Ea. case_bool_decide as Hsame; [|done]. clear Ea.
  split.
  - rewrite length_fmap, Hrows, length_zip_with, length_fmap.
    pose proof (take_positions_length sims idx).
    unfold idx in *. rewrite length_rev in *. lia.
  - rewrite <- list_fmap_compose.
    erewrite (list_fmap_ext _ (fun r => as_num (cell r "similarity_score")));
      [|intros i r _; unfold num_key; simpl;
        rewrite cell_restrict; [done|repeat constructor]].
    rewrite (list_fmap_compose (fun r => cell r "similarity_score") as_num).
    rewrite Hrows, fmap_zip_with_set_cell by done.
    rewrite <- list_fmap_compose.
    erewrite (list_fmap_ext _ (fun x => x)); [|done]. by rewrite list_fmap_id.
Qed.

Lemma find_similar_players_most_similar_first_witness :
  exists out,
    returned (@Analytics.find_similar_players example_sklearn 0%nat 101 2
                [example_frame 4]) = Some out /\
    (length (rows out) <= Z.to_nat 2)%nat /\
    most_similar_first (num_key "similarity_score" <$> rows out).
Proof.
  eexists. split; [vm_compute; reflexivity|].
  apply (@find_similar_players_most_similar_first example_sklearn
           [example_frame 4] 0%nat (example_frame 4) 101 2).
  - reflexivity.
  - lia.
  - vm_compute; reflexivity.
Defined.

Lemma has_player_mask df id :
  mask_rows (rows df) (eq_cell id <$> ((fun r => cell r "player_id") <$> rows df))
  = List.filter (fun r => eq_cell id (cell r "player_id")) (rows df).
Proof.
  rewrite <- list_fmap_compose.
  rewrite <- (list_fmap_id (rows df)) at 1.
  rewrite mask_rows_fmap. by rewrite list_fmap_id.
Qed.

Lemma filter_nil_not_Exists {A} (p : A -> bool) l :
  List.filter p l = [] <-> ~ Exists (fun x => p x = true) l.
Proof.
  induction l as [|x l IH]; simpl.
  - split; [|done]. intros _ He. inversion He.
  - rewrite Exists_cons. destruct (p x) eqn:E.
    + split; [done|]. intros Hn. destruct Hn. by left.
    + rewrite IH. split; intros Hn; [intros [?|?]; [congruence|auto]|auto].
Qed.

(** X6.  For an id that no row of the frame carries,
    [find_similar_players] returns a frame with no row and no column,
    whatever [n_similar] is. *)
Theorem find_similar_players_unknown_player `{Sklearn}
    (s : store) (l : loc) (df : DataFrame) (id n : Z) :
  s !! l = Some df ->
  has_column df "player_id" = true ->
  ~ has_player df id ->
  returned (Analytics.find_similar_players l id n s) = Some empty_frame.
Proof.
  intros Hl Hc Hno. apply find_similar_players_unknown_id with df; try done.
  apply Forall_forall. intros r Hr.
  destruct (eq_cell id (cell r "player_id")) eqn:E; [|done].
  destruct Hno. apply Exists_exists. eauto.
Qed.

Lemma find_similar_players_unknown_player_witness :
  ~ has_player (example_frame 4) 7 /\
  returned (@Analytics.find_similar_players example_sklearn 0%nat 7 5
              [example_frame 4]) = Some empty_frame.
Proof.
  assert (Hno : ~ has_player (example_frame 4) 7).
  { unfold has_player. rewrite <- filter_nil_not_Exists. vm_compute. reflexivity. }
  split; [exact Hno|].
  apply (@find_similar_players_unknown_player example_sklearn
           [example_frame 4] 0%nat (example_frame 4) 7 5).
  - reflexivity.
  - vm_compute. reflexivity.
  - exact Hno.
Defined.

Lemma finite_row_complete cs r :
  complete cs r = false -> finite_row (cell r <$> cs) = None.
Proof.
  intros Hc. apply mapM_None. apply Exists_fmap.
  unfold complete in Hc.
  induction cs as [|c cs IH]; simpl in Hc; [done|].
  destruct (notna (cell r c)) eqn:E; simpl in Hc.
  - right. by apply IH.
  - left. simpl. by destruct (cell r c) as [[]|].
Qed.

Lemma filter_Exists {A} (p : A -> bool) (Q : A -> Prop) l :
  Exists (fun x => p x = true /\ Q x) l -> Exists Q (List.filter p l).
Proof.
  induction 1 as [x l [Hp Hq]|x l _ IH]; simpl.
  - rewrite Hp. by left.
  - destruct (p x); [by right|done].
Qed.

(** What [find_similar_players] does when a row with the id of the
    target lacks one of the eight similarity features. *)
Lemma find_similar_players_incomplete `{Sklearn}
    (s : store) (l : loc) (df : DataFrame) (id n : Z) :
  s !! l = Some df ->
  has_column df "player_id" = true ->
  missing_column df Analytics.similarity_features = None ->
  Exists (fun r => eq_cell id (cell r "player_id") = true /\
                   complete Analytics.similarity_features r = false) (rows df) ->
  (Analytics.find_similar_players l id n s).1
  = Raise (SklearnError "cosine_similarity").
Proof.
  intros Hl Hc Hm Hex. unfold Analytics.find_similar_players.
  unfold bind at 1. rewrite (getitem_run _ _ _ _ Hl).
  unfold column. rewrite Hc.
  unfold bind at 1. rewrite (derive_run _ _ _ _ Hl).
  unfold bind at 1. rewrite (load_run _ _ _ (lookup_snoc _ _)).
  unfold where_ at 1 2. rewrite has_player_mask.
  set (target := List.filter _ (rows df)).
  assert (Ht : Exists (fun r => complete Analytics.similarity_features r = false)
                 target) by by apply filter_Exists.
  assert (Hne : empty (Frame (columns df) target) = false).
  { unfold empty. simpl. apply orb_false_intro; apply bool_decide_eq_false.
    - intros E. rewrite E in Ht. inversion Ht.
    - intros E. apply has_column_true in Hc. rewrite E in Hc. inversion Hc. }
  rewrite Hne.
  unfold bind at 1, lift at 1. unfold select at 1.
  change (missing_column (Frame (columns df) target) Analytics.similarity_features)
    with (missing_column df Analytics.similarity_features).
  rewrite Hm. cbn [rbind rows].
  unfold bind at 1. rewrite (derive_run _ _ df) by by apply lookup_old.
  unfold select. rewrite Hm.
  unfold bind at 1. rewrite (derive_run _ _ _ _ (lookup_snoc _ _)).
  unfold bind at 1. rewrite (load_run _ _ _ (lookup_snoc _ _)).
  unfold bind at 1, lift at 1.
  unfold cosine_similarity. rewrite values_restrict.
  replace (mapM finite_row _) with (@None (list (list Q))); [done|].
  symmetry. apply mapM_None. apply Exists_fmap.
  eapply Exists_impl; [exact Ht|]. intros r Hr.
  by apply finite_row_complete.
Qed.

(** X7.  When a row with the id of the target lacks one of the eight
    similarity features (a goalkeeper has no pace), and the frame has
    the columns, [find_similar_players] raises the error of
    [cosine_similarity] on a NaN: it returns no similar player. *)
Theorem find_similar_players_incomplete_target `{Sklearn}
    (s : store) (l : loc) (df : DataFrame) (id n : Z) :
  s !! l = Some df ->
  has_column df "player_id" = true ->
  missing_column df Analytics.similarity_features = None ->
  Exists (fun r => eq_cell id (cell r "player_id") = true /\
                   complete Analytics.similarity_features r = false) (rows df) ->
  (Analytics.find_similar_players l id n s).1
  = Raise (SklearnError "cosine_similarity").
Proof. apply find_similar_players_incomplete. Qed.

Lemma find_similar_players_incomplete_target_witness :
  (@Analytics.find_similar_players example_sklearn 0%nat 101 5
     [squad_with_goalkeeper]).1
  = Raise (SklearnError "cosine_similarity").
Proof.
  apply (@find_similar_players_incomplete_target example_sklearn
           [squad_with_goalkeeper] 0%nat squad_with_goalkeeper 101 5).
  - reflexivity.
  - vm_compute. reflexivity.
  - vm_compute. reflexivity.
  - right. left. split; vm_compute; reflexivity.
Defined.

(** *** The player report *)

Lemma bind_lift {S A B} (x : result A) (k : A -> M S B) s :
  bind (lift x) k s = match x with Ok a => k a s | Raise e => (Raise e, s) end.
Proof. unfold bind, lift. by destruct x. Qed.

Lemma bind_raises {S A B} (m : M S A) (k : A -> M S B) s e :
  (m s).1 = Raise e -> (bind m k s).1 = Raise e.
Proof. unfold bind. destruct (m s) as [[a|e'] s']; simpl; congruence. Qed.

(** X8.  For an id that no row of the frame carries,
    [generate_player_report] raises [IndexError]: it does not get as far
    as [find_similar_players] and its empty frame. *)
Theorem generate_player_report_unknown_player `{Sklearn}
    (s : store) (l : loc) (df : DataFrame) (id : Z) :
  s !! l = Some df ->
  has_column df "player_id" = true ->
  ~ has_player df id ->
  (AnalyticsReport.generate_player_report l id s).1
  = Raise (IndexError "single positional indexer is out-of-bounds").
Proof.
  intros Hl Hc Hno. unfold AnalyticsReport.generate_player_report.
  unfold bind at 1. rewrite (getitem_run _ _ _ _ Hl).
  unfold column. rewrite Hc.
  unfold bind at 1. rewrite (derive_run _ _ _ _ Hl).
  unfold bind at 1. rewrite (load_run _ _ _ (lookup_snoc _ _)).
  rewrite bind_lift. unfold iloc0, where_. cbn [rows].
  rewrite has_player_mask.
  apply filter_nil_not_Exists in Hno. by rewrite Hno.
Qed.

Lemma generate_player_report_unknown_player_witness :
  ~ has_player (example_frame 4) 7 /\
  (@AnalyticsReport.generate_player_report example_sklearn 0%nat 7
     [example_frame 4]).1
  = Raise (IndexError "single positional indexer is out-of-bounds").
Proof.
  assert (Hno : ~ has_player (example_frame 4) 7).
  { unfold has_player. rewrite <- filter_nil_not_Exists. vm_compute. reflexivity. }
  split; [exact Hno|].
  apply (@generate_player_report_unknown_player example_sklearn
           [example_frame 4] 0%nat (example_frame 4) 7).
  - reflexivity.
  - vm_compute. reflexivity.
  - exact Hno.
Defined.

(** X9.  [generate_player_report] returns no report for a player with a
    row that lacks one of the eight similarity features (every
    goalkeeper, who has no pace): whatever else happens, the call ends
    in an exception. *)
Theorem generate_player_report_incomplete_player `{Sklearn}
    (s : store) (l : loc) (df : DataFrame) (id : Z) :
  s !! l = Some df ->
  has_column df "player_id" = true ->
  missing_column df Analytics.similarity_features = None ->
  Exists (fun r => eq_cell id (cell r "player_id") = true /\
                   complete Analytics.similarity_features r = false) (rows df) ->
  exists e, (AnalyticsReport.generate_player_report l id s).1 = Raise e.
Proof.
  intros Hl Hc Hm Hex. unfold AnalyticsReport.generate_player_report.
  unfold bind at 1. rewrite (getitem_run _ _ _ _ Hl).
  unfold column. rewrite Hc.
  unfold bind at 1. rewrite (derive_run _ _ _ _ Hl).
  unfold bind at 1. rewrite (load_run _ _ _ (lookup_snoc _ _)).
  set (s1 := s ++ _).
  assert (Hl1 : s1 !! l = Some df) by by apply lookup_old.
  pose proof (find_similar_players_incomplete s1 l df id 5 Hl1 Hc Hm Hex) as Hf.
  repeat (rewrite bind_lift;
          match goal with
          | |- context [match ?x with Ok _ => _ | Raise _ => _ end] =>
              destruct x; [|by eexists]
          end).
  eexists. apply bind_raises. exact Hf.
Qed.

Lemma generate_player_report_incomplete_player_witness :
  exists e,
    (@AnalyticsReport.generate_player_report example_sklearn 0%nat 101
       [squad_with_goalkeeper]).1 = Raise e.
Proof.
  apply (@generate_player_report_incomplete_player example_sklearn
           [squad_with_goalkeeper] 0%nat squad_with_goalkeeper 101).
  - reflexivity.
  - vm_compute. reflexivity.
  - vm_compute. reflexivity.
  - right. left. split; vm_compute; reflexivity.
Defined.

Lemma generate_player_report_keeps `{Sklearn} s0 l id :
  keeps s0 (AnalyticsReport.generate_player_report l id)
    (fun rep => fresh_from s0 (AnalyticsReport.similar_players rep)).
Proof.
  unfold AnalyticsReport.generate_player_report.
  do 14 (eapply keeps_bind; [keeps_step|intros ? ?]).
  eapply keeps_bind; [apply find_similar_players_keeps|intros ? ?].
  repeat (eapply keeps_bind; [keeps_step|intros ? ?]).
  by apply keeps_ret.
Qed.

(** X10.  [generate_player_report] leaves the frame it is given, and
    every other frame there was, as it found them, whether it returns
    or raises; the frame of similar players in a report is a new
    object. *)
Theorem generate_player_report_leaves_input `{Sklearn}
    (s : store) (l : loc) (df : DataFrame) (id : Z) :
  s !! l = Some df ->
  let out := AnalyticsReport.generate_player_report l id s in
  out.2 !! l = Some df /\
  take (length s) out.2 = s /\
  forall rep, out.1 = Ok rep ->
    (length s <= AnalyticsReport.similar_players rep)%nat /\
    AnalyticsReport.similar_players rep <> l.
Proof.
  intros Hl out.
  destruct (generate_player_report_keeps s l id s out.1 out.2 (reflexivity _))
    as [[new Hnew] Hfresh]; [apply surjective_pairing|].
  rewrite Hnew. split; [by apply lookup_old|].
  split; [by rewrite take_app_length|].
  intros rep Hrep. specialize (Hfresh rep Hrep). unfold fresh_from in Hfresh.
  split; [done|]. apply lookup_lt_Some in Hl. lia.
Qed.

Lemma generate_player_report_leaves_input_witness :
  let out := @AnalyticsReport.generate_player_report example_sklearn 0%nat 101
               [example_frame 4] in
  out.2 !! 0%nat = Some (example_frame 4) /\
  take 1 out.2 = [example_frame 4] /\
  forall rep, out.1 = Ok rep ->
    (1 <= AnalyticsReport.similar_players rep)%nat /\
    AnalyticsReport.similar_players rep <> 0%nat.
Proof.
  apply (@generate_player_report_leaves_input example_sklearn
           [example_frame 4] 0%nat (example_frame 4) 101).
  reflexivity.
Defined.

(** ** When the search for undervalued players returns *)

Lemma zip_rmap_div_ok (rs : list row) vs :
  zip_rmap div_cells ((fun r => cell r "value_eur") <$> rs)
    ((fun r => cell r "overall") <$> rs) = Ok vs ->
  Forall (fun r => is_numeric (cell r "value_eur") = true /\
                   is_numeric (cell r "overall") = true) rs.
Proof.
  revert vs. induction rs as [|r rs IH]; intros vs; csimpl; [constructor|].
  destruct (cell r "value_eur") as [x|] eqn:Ex; simpl; [|done].
  destruct (cell r "overall") as [y|] eqn:Ey; simpl; [|done].
  destruct (zip_rmap _ _ _) as [vs'|] eqn:E; simpl; [|done]. intros _.
  constructor; [by rewrite Ex, Ey|]. by eapply IH.
Qed.

Lemma column_has df c vs : column df c = Ok vs -> c ∈ columns df.
Proof.
  unfold column. destruct (has_column df c) eqn:E; [|done].
  intros _. by apply has_column_true.
Qed.

(** X11.  [identify_undervalued_players] returns exactly on the frames
    that have the columns [value_eur], [overall], [long_name] and
    [club_name] with a number (or NaN) in every cell of the first two;
    on any other frame it raises. *)
Theorem identify_undervalued_players_returns_iff
    (s : store) (l : loc) (df : DataFrame) (t : float64) :
  s !! l = Some df ->
  (exists l' s', Analytics.identify_undervalued_players l t s = (Ok l', s'))
  <->
  (forall c, c ∈ ["value_eur"; "overall"; "long_name"; "club_name"] ->
             c ∈ columns df) /\
  Forall (fun r => is_numeric (cell r "value_eur") = true /\
                   is_numeric (cell r "overall") = true) (rows df).
Proof.
  intros Hl. split.
  2: { intros [Hcols Hnum]. by apply identify_undervalued_players_returns with df. }
  intros (l' & s' & Hrun). revert Hrun.
  unfold Analytics.identify_undervalued_players.
  unfold bind at 1. rewrite (copy_run _ _ _ Hl).
  unfold bind at 1. rewrite (getitem_run _ _ df) by apply lookup_snoc.
  destruct (column df "value_eur") as [vs|] eqn:Ev; [|done].
  unfold bind at 1. rewrite (getitem_run _ _ df) by apply lookup_snoc.
  destruct (column df "overall") as [os|] eqn:Eo; [|done].
  unfold bind at 1. unfold lift at 1.
  destruct (zip_rmap div_cells vs os) as [rs|] eqn:Er; [|done].
  unfold bind at 1. rewrite (setitem_run _ _ df) by apply lookup_snoc.
  destruct (assign df "value_per_overall" rs) as [d1|] eqn:Ea; [|done].
  rewrite insert_snoc.
  unfold bind at 1. rewrite (getitem_run _ _ d1) by apply lookup_snoc.
  destruct (column d1 "value_per_overall") as [vpo|] eqn:Evpo; [|done].
  unfold bind at 1. rewrite (derive_run _ _ d1) by apply lookup_snoc.
  unfold bind at 1. rewrite (derive_run _ _ _ _ (lookup_snoc _ _)).
  match goal with
  | |- context [sort_values ?d ?k] =>
      destruct (sort_values d k) as [d2|] eqn:Es; [|done]
  end.
  unfold bind at 1. rewrite (derive_run _ _ _ _ (lookup_snoc _ _)).
  destruct (select d2 Analytics.undervalued_columns) as [d3|] eqn:Esel; [|done].
  intros _.
  pose proof (column_has _ _ _ Ev) as Hv. pose proof (column_has _ _ _ Eo) as Ho.
  apply column_cells in Ev, Eo. subst vs os.
  split; [|by eapply zip_rmap_div_ok].
  unfold sort_values in Es. destruct (missing_column _ _); [done|].
  injection Es as <-.
  unfold select in Esel. destruct (missing_column _ _) eqn:Em; [done|].
  pose proof (proj1 (missing_column_none _ _) Em) as Hsel. cbn [columns where_] in Hsel.
  unfold assign in Ea. case_bool_decide; [|done]. injection Ea as <-.
  cbn [columns] in Hsel.
  assert (Hin : forall c, c ∈ ["long_name"; "club_name"] -> c ∈ columns df).
  { intros c Hc.
    assert (Hc' : c ∈ Analytics.undervalued_columns).
    { unfold Analytics.undervalued_columns.
      repeat (apply elem_of_cons in Hc as [-> | Hc]);
        [repeat constructor ..|by apply elem_of_nil in Hc]. }
    specialize (Hsel c Hc').
    destruct (has_column df "value_per_overall"); [done|].
    apply elem_of_app in Hsel as [?|Hx]; [done|].
    apply list_elem_of_singleton in Hx. subst c.
    repeat (apply elem_of_cons in Hc as [Hc | Hc]); try done.
    by apply elem_of_nil in Hc. }
  intros c Hc.
  apply elem_of_cons in Hc as [-> | Hc]; [done|].
  apply elem_of_cons in Hc as [-> | Hc]; [done|]. by apply Hin.
Qed.

Lemma identify_undervalued_players_returns_iff_witness :
  (exists l' s',
     Analytics.identify_undervalued_players 0%nat (Fin (8 # 10)) [example_frame 6]
     = (Ok l', s'))
  <->
  (forall c, c ∈ ["value_eur"; "overall"; "long_name"; "club_name"] ->
             c ∈ columns (example_frame 6)) /\
  Forall (fun r => is_numeric (cell r "value_eur") = true /\
                   is_numeric (cell r "overall") = true) (rows (example_frame 6)).
Proof.
  apply (identify_undervalued_players_returns_iff
           [example_frame 6] 0%nat (example_frame 6) (Fin (8 # 10))).
  reflexivity.
Defined.

(** ** Formations and teams *)

Lemma rmap_Forall2 {A B} (f : A -> result B) l ys :
  rmap f l = Ok ys -> Forall2 (fun x y => f x = Ok y) l ys.
Proof.
  revert ys. induction l as [|x l IH]; intros ys; simpl.
  - intros [= <-]. constructor.
  - destruct (f x) as [y|] eqn:E; simpl; [|done].
    destruct (rmap f l) as [ys'|]; simpl; [|done].
    intros [= <-]. constructor; [done|]. by apply IH.
Qed.

Lemma nlargest_rows df n c d :
  nlargest df n c = Ok d ->
  d = Frame (columns df)
        (take (Z.to_nat n)
           (stable_sort (fun a b => desc_le (num_key c a) (num_key c b)) (rows df))).
Proof.
  unfold nlargest. destruct (numeric_column df c); simpl; [|done].
  by intros [= <-].
Qed.

Lemma best_for_rated df slot entry :
  TacticalDashboard.best_for df slot = Ok entry ->
  entry.1 = slot.1 /\ best_rated df slot.1 (slot.2 * 3) entry.2.
Proof.
  unfold TacticalDashboard.best_for.
  destruct (column df "player_positions") as [ps|] eqn:Ep; cbn [rbind]; [|done].
  destruct (Visualizations.series_str_contains _ ps) as [mask|] eqn:Em;
    cbn [rbind]; [|done].
  destruct (nlargest _ _ _) as [best|] eqn:En; cbn [rbind]; [|done].
  destruct (select best _) as [shown|] eqn:Es; cbn [rbind]; [|done].
  intros [= <-]. split; [done|].
  apply select_rows in Es as ->. apply nlargest_rows in En as ->.
  apply series_str_contains_ok in Em as ->.
  apply column_cells in Ep as ->. split; [done|]. cbn [rows where_ fst snd].
  rewrite where_str_contains.
  eexists. split; [done|]. split; [apply stable_sort_perm|].
  apply (stable_sort_sorted
           (fun a b => desc_le (num_key "overall" a) (num_key "overall" b))).
  - intros x y. apply desc_le_total.
  - intros x y z. apply desc_le_trans.
Qed.

(** X12.  [tactical_formation_analyzer] returns [None] for every
    formation other than 4-3-3 and 4-4-2, and for those only, whatever
    the frame is. *)
Theorem tactical_formation_analyzer_none (df : DataFrame) (formation : string) :
  TacticalDashboard.tactical_formation_analyzer df formation = Ok None
  <-> formation <> "4-3-3" /\ formation <> "4-4-2".
Proof.
  unfold TacticalDashboard.tactical_formation_analyzer.
  destruct (find _ _) as [[name slots]|] eqn:Ef.
  - apply find_some in Ef as [Hin Hname]. apply bool_decide_eq_true in Hname.
    simpl in Hname. subst name. split.
    + cbn [snd]. by destruct (rmap _ slots).
    + intros [H1 H2]. exfalso. apply list_elem_of_In in Hin.
      unfold TacticalDashboard.formation_positions in Hin.
      apply elem_of_cons in Hin as [Hin|Hin]; [congruence|].
      apply elem_of_cons in Hin as [Hin|Hin]; [congruence|].
      by apply elem_of_nil in Hin.
  - split; [|done]. intros _.
    pose proof (find_none _ _ Ef) as Hn.
    unfold TacticalDashboard.formation_positions in Hn.
    split; intros ->.
    + specialize (Hn (_, _) (or_introl eq_refl)).
      by rewrite bool_decide_eq_true_2 in Hn.
    + specialize (Hn (_, _) (or_intror (or_introl eq_refl))).
      by rewrite bool_decide_eq_true_2 in Hn.
Qed.

(** X13.  When [tactical_formation_analyzer] returns a team, the team
    has one entry for each position of the formation, in the order of
    the formation; the entry of a position with [count] places holds the
    first [3 * count] of the players whose positions contain the name of
    the position, in descending order of overall rating, with their
    name, club, rating and value. *)
Theorem tactical_formation_analyzer_best_rated
    (df : DataFrame) (formation : string) (team : list (string * DataFrame)) :
  TacticalDashboard.tactical_formation_analyzer df formation = Ok (Some team) ->
  exists slots,
    (formation, slots) ∈ TacticalDashboard.formation_positions /\
    Forall2 (fun slot entry =>
               entry.1 = slot.1 /\ best_rated df slot.1 (slot.2 * 3) entry.2)
      slots team.
Proof.
  unfold TacticalDashboard.tactical_formation_analyzer.
  destruct (find _ _) as [[name slots]|] eqn:Ef; [|done].
  apply find_some in Ef as [Hin Hname]. apply bool_decide_eq_true in Hname.
  simpl in Hname. subst name. apply list_elem_of_In in Hin.
  cbn [snd]. destruct (rmap _ slots) as [entries|] eqn:Er; simpl; [|done].
  intros [= <-]. exists slots. split; [done|].
  apply rmap_Forall2 in Er. eapply Forall2_impl; [exact Er|].
  intros slot entry. apply best_for_rated.
Qed.

Lemma tactical_formation_analyzer_best_rated_witness :
  exists team slots,
    TacticalDashboard.tactical_formation_analyzer (example_frame 8) "4-4-2"
    = Ok (Some team) /\
    (("4-4-2", slots) ∈ TacticalDashboard.formation_positions) /\
    Forall2 (fun slot entry =>
               entry.1 = slot.1 /\
               best_rated (example_frame 8) slot.1 (slot.2 * 3) entry.2)
      slots team.
Proof.
  assert (Hrun : exists team,
    TacticalDashboard.tactical_formation_analyzer (example_frame 8) "4-4-2"
    = Ok (Some team)) by (eexists; vm_compute; reflexivity).
  destruct Hrun as [team Hrun]. exists team.
  destruct (tactical_formation_analyzer_best_rated _ _ _ Hrun) as (slots & H1 & H2).
  exists slots. split; [exact Hrun|]. split; [exact H1|exact H2].
Defined.

Lemma selected_mask df names :
  mask_rows (rows df) (isin names <$> ((fun r => cell r "long_name") <$> rows df))
  = List.filter (selected names) (rows df).
Proof.
  rewrite <- list_fmap_compose.
  rewrite <- (list_fmap_id (rows df)) at 1.
  rewrite mask_rows_fmap. by rewrite list_fmap_id.
Qed.

Lemma column_ok df c :
  c ∈ columns df -> column df c = Ok ((fun r => cell r c) <$> rows df).
Proof. intros Hc. unfold column. by rewrite (proj2 (has_column_true df c)). Qed.

(** X14.  With eleven names or more, none of them the name of a player
    of the frame, [create_team_chemistry_analysis] still returns team
    statistics, those of a team without players: the averages are NaN,
    the total value is 0, and no nationality and no league is counted. *)
Theorem create_team_chemistry_analysis_no_player
    (df : DataFrame) (selected_players : list string) :
  (11 <= length selected_players)%nat ->
  (forall c, c ∈ team_columns -> c ∈ columns df) ->
  Forall (fun r => selected selected_players r = false) (rows df) ->
  TeamBuilder.create_team_chemistry_analysis df selected_players
  = Ok (Some (TeamBuilder.TeamStats NaN NaN (Fin 0) 0 0 NaN NaN NaN NaN)).
Proof.
  intros Hlen Hcols Hnone. unfold TeamBuilder.create_team_chemistry_analysis.
  rewrite bool_decide_eq_false_2 by lia.
  rewrite column_ok by (apply Hcols; unfold team_columns; set_solver).
  cbn [rbind]. unfold where_. rewrite selected_mask.
  replace (List.filter _ (rows df)) with (@nil row).
  2: { symmetry. apply filter_nil_not_Exists. intros Hex.
       apply Exists_exists in Hex as (r & Hr & Hs).
       rewrite Forall_forall in Hnone. specialize (Hnone r Hr). congruence. }
  unfold numeric_column.
  rewrite !column_ok by (apply Hcols; unfold team_columns; set_solver).
  reflexivity.
Qed.

Lemma create_team_chemistry_analysis_no_player_witness :
  TeamBuilder.create_team_chemistry_analysis (example_league 4) strangers
  = Ok (Some (TeamBuilder.TeamStats NaN NaN (Fin 0) 0 0 NaN NaN NaN NaN)).
Proof.
  apply (create_team_chemistry_analysis_no_player (example_league 4) strangers).
  - vm_compute. lia.
  - intros c Hc. apply (bool_decide_unpack _).
    unfold team_columns in Hc.
    repeat (apply elem_of_cons in Hc as [-> | Hc]; [vm_compute; exact I|]).
    by apply elem_of_nil in Hc.
  - repeat constructor.
Defined.

(** X15.  [create_team_chemistry_analysis] counts the names it is given
    and looks at nothing else of the selection but which names are in
    it: fewer than eleven names give [None] whatever the frame, and two
    selections of eleven names or more with the same names in them, in
    any order and any number of times, give the same result. *)
Theorem create_team_chemistry_analysis_names
    (df : DataFrame) (selection other : list string) :
  ((length selection < 11)%nat ->
   TeamBuilder.create_team_chemistry_analysis df selection = Ok None) /\
  ((11 <= length selection)%nat -> (11 <= length other)%nat ->
   (forall name, name ∈ selection <-> name ∈ other) ->
   TeamBuilder.create_team_chemistry_analysis df selection
   = TeamBuilder.create_team_chemistry_analysis df other).
Proof.
  unfold TeamBuilder.create_team_chemistry_analysis. split.
  - intros Hlt. by rewrite bool_decide_eq_true_2.
  - intros H1 H2 Hsame. rewrite !bool_decide_eq_false_2 by lia.
    destruct (column df "long_name") as [names|]; [|done]. cbn [rbind].
    replace (isin other <$> names) with (isin selection <$> names); [done|].
    apply list_fmap_ext. intros i [x|name] _; simpl; [done|].
    apply bool_decide_ext, Hsame.
Qed.

Lemma create_team_chemistry_analysis_names_witness :
  TeamBuilder.create_team_chemistry_analysis (example_league 4)
    (replicate 11 "Player")
  = TeamBuilder.create_team_chemistry_analysis (example_league 4)
      (replicate 30 "Player").
Proof.
  apply (create_team_chemistry_analysis_names (example_league 4)
           (replicate 11 "Player") (replicate 30 "Player")).
  - vm_compute. lia.
  - vm_compute. lia.
  - intros name. split; intros Hn; apply elem_of_replicate in Hn as [-> _];
      apply elem_of_replicate; split; done.
Defined.

(** ** Cluster characteristics *)

Lemma same_value_sym a b : same_value a b = same_value b a.
Proof.
  destruct a as [x|s], b as [y|t]; simpl; try done.
  - unfold feqb. apply andb_comm.
  - apply bool_decide_ext. split; congruence.
Qed.

Lemma feqb_trans x y z : feqb x y = true -> feqb y z = true -> feqb x z = true.
Proof.
  unfold feqb. rewrite !andb_true_iff. intros [H1 H2] [H3 H4].
  split; eapply fle_trans; eauto.
Qed.

Lemma same_value_trans a b c :
  same_value a b = true -> same_value b c = true -> same_value a c = true.
Proof.
  destruct a as [x|s], b as [y|t], c as [z|u]; simpl; try done.
  - apply feqb_trans.
  - rewrite !bool_decide_eq_true. congruence.
Qed.

Lemma same_value_notna a b : same_value a b = true -> notna a = true /\ notna b = true.
Proof.
  destruct a as [[]|s], b as [[]|t]; simpl; done.
Qed.

Lemma same_key_sym a b : same_key a b = same_key b a.
Proof.
  unfold same_key. rewrite (same_value_sym a b). f_equal. apply andb_comm.
Qed.

Lemma same_key_value a b : notna a = true -> same_key a b = same_value a b.
Proof. unfold same_key. by intros ->. Qed.

Lemma same_key_trans a b c :
  same_key a b = true -> same_key b c = true -> same_key a c = true.
Proof.
  unfold same_key. rewrite !orb_true_iff, !andb_true_iff, !negb_true_iff.
  intros [[Ha Hb]|Hab] [[Hb' Hc]|Hbc]; auto.
  - apply same_value_notna in Hbc as [? _]. congruence.
  - apply same_value_notna in Hab as [_ ?]. congruence.
  - right. by eapply same_value_trans.
Qed.

Lemma same_key_eq a b c : same_key a b = true -> same_key c a = same_key c b.
Proof.
  intros Hab. destruct (same_key c b) eqn:E.
  - eapply same_key_trans; [exact E|]. by rewrite same_key_sym.
  - destruct (same_key c a) eqn:E'; [|done].
    by rewrite (same_key_trans _ _ _ E' Hab) in E.
Qed.

Lemma filter_comm {A} (p q : A -> bool) l :
  List.filter p (List.filter q l) = List.filter q (List.filter p l).
Proof.
  induction l as [|x l IH]; simpl; [done|].
  destruct (p x) eqn:Ep, (q x) eqn:Eq; simpl; rewrite ?Ep, ?Eq, IH; done.
Qed.

Lemma filter_absorb {A} (p q : A -> bool) l :
  (forall x, p x = true -> q x = true) ->
  List.filter p (List.filter q l) = List.filter p l.
Proof.
  intros Hpq. induction l as [|x l IH]; simpl; [done|].
  destruct (q x) eqn:Eq; simpl.
  - by rewrite IH.
  - destruct (p x) eqn:Ep; [|done]. apply Hpq in Ep. congruence.
Qed.

Lemma filter_length_le {A} (p : A -> bool) l :
  (length (List.filter p l) <= length l)%nat.
Proof. induction l as [|x l IH]; simpl; [done|]. destruct (p x); simpl; lia. Qed.

Lemma filter_split_length {A} (p q : A -> bool) l :
  length (List.filter p l)
  = (length (List.filter p (List.filter q l))
     + length (List.filter (fun x => p x && negb (q x)) l))%nat.
Proof.
  induction l as [|x l IH]; simpl; [done|].
  destruct (p x) eqn:Ep, (q x) eqn:Eq; simpl; rewrite ?Ep, ?Eq; simpl; lia.
Qed.

(** Taking the distinct values commutes with leaving out the values equal
    to one of them. *)
Lemma unique_filter x l :
  List.filter (fun w => negb (same_key w x)) (unique l)
  = unique (List.filter (fun w => negb (same_key w x)) l).
Proof.
  induction l as [|y l IH]; simpl; [done|].
  destruct (same_key y x) eqn:E; simpl.
  - rewrite <- IH. apply filter_absorb. intros v Hv.
    apply negb_true_iff in Hv. apply negb_true_iff.
    by rewrite (same_key_eq _ _ v E).
  - by rewrite filter_comm, IH.
Qed.

Lemma unique_cons x l :
  unique (x :: l) = x :: unique (List.filter (fun w => negb (same_key w x)) l).
Proof. simpl. by rewrite unique_filter. Qed.

Lemma unique_elem v l : v ∈ unique l -> v ∈ l.
Proof.
  revert v. induction l as [|x l IH]; intros v; simpl; [done|].
  intros Hv. apply elem_of_cons in Hv as [->|Hv]; [left|right].
  apply IH. apply list_elem_of_In in Hv. apply filter_In in Hv as [Hv _].
  by apply list_elem_of_In.
Qed.

(** Every value that is not NaN is counted under exactly one of the
    distinct values. *)
Lemma unique_counts (l : list value) :
  sum_list ((fun v => length (List.filter (same_value v) l)) <$> unique l)
  = length (List.filter notna l).
Proof.
  remember (length l) as n eqn:Hn. revert l Hn.
  induction n as [n IH] using lt_wf_ind. intros [|x l] Hn; [done|].
  rewrite unique_cons. set (q := fun w => negb (same_key w x)).
  csimpl.
  assert (Hrest : forall v, v ∈ unique (List.filter q l) ->
            length (List.filter (same_value v) (x :: l))
            = length (List.filter (same_value v) (List.filter q l))).
  { intros v Hv. apply unique_elem in Hv.
    apply list_elem_of_In, filter_In in Hv as [_ Hq].
    unfold q in Hq. apply negb_true_iff in Hq.
    assert (Hvx : same_value v x = false).
    { destruct (same_value v x) eqn:E; [|done].
      unfold same_key in Hq. rewrite E in Hq. by rewrite orb_true_r in Hq. }
    simpl. rewrite Hvx.
    symmetry. apply (f_equal (@length value)). apply filter_absorb.
    intros w Hw. unfold q. apply negb_true_iff.
    destruct (same_key w x) eqn:E; [|done].
    assert (same_key v x = true); [|congruence].
    eapply same_key_trans; [|exact E].
    unfold same_key. by rewrite Hw, orb_true_r. }
  rewrite (list_fmap_ext _
             (fun v => length (List.filter (same_value v) (List.filter q l)))
             (unique (List.filter q l))).
  2: { intros i v Hi. apply Hrest. by eapply list_elem_of_lookup_2. }
  rewrite (IH (length (List.filter q l))); [| |done].
  2: { pose proof (filter_length_le q l). simpl in Hn. lia. }
  assert (Hx : length (List.filter (same_value x) l)
               = length (List.filter (fun w => notna w && negb (q w)) l)).
  { f_equal. apply filter_ext. intros w. unfold q. rewrite negb_involutive.
    destruct (notna w) eqn:Ew; simpl.
    - rewrite same_key_value by done. apply same_value_sym.
    - destruct (same_value x w) eqn:E; [|done].
      apply same_value_notna in E as [_ ?]. congruence. }
  pose proof (filter_split_length notna q l) as Hsplit.
  destruct (notna x) eqn:Ex.
  - assert (same_value x x = true) as ->.
    { rewrite <- same_key_value by done. unfold same_key.
      destruct x as [[]|]; simpl in *; try done.
      + unfold feqb. simpl. by rewrite (proj2 (Qle_bool_iff q0 q0) (Qle_refl _)).
      + by rewrite bool_decide_eq_true_2. }
    simpl. lia.
  - assert (same_value x x = false) as -> by by destruct x as [[]|].
    lia.
Qed.

Lemma filter_fmap_length {A B} (f : A -> B) (p : B -> bool) l :
  length (List.filter p (f <$> l)) = length (List.filter (fun x => p (f x)) l).
Proof.
  induction l as [|x l IH]; csimpl; [done|].
  destruct (p (f x)); simpl; by rewrite IH.
Qed.

Lemma members_mask df id :
  mask_rows (rows df) (same_value id <$> ((fun r => cell r "cluster") <$> rows df))
  = members df id.
Proof.
  rewrite <- list_fmap_compose.
  rewrite <- (list_fmap_id (rows df)) at 1.
  rewrite mask_rows_fmap. by rewrite list_fmap_id.
Qed.

Lemma cluster_row_spec df id info :
  TacticalDashboard.cluster_row df id = Ok info ->
  TacticalDashboard.cluster_id info = id /\
  TacticalDashboard.player_count info = length (members df id) /\
  (length (TacticalDashboard.top_players info) <= 3)%nat /\
  (length (TacticalDashboard.top_players info) <= length (members df id))%nat.
Proof.
  unfold TacticalDashboard.cluster_row.
  destruct (column df "cluster") as [cl|] eqn:Ec; cbn [rbind]; [|done].
  apply column_cells in Ec as ->.
  destruct (select _ _) as [feats|]; cbn [rbind]; [|done].
  destruct (rmap _ TacticalAnalysis.cluster_features) as [avg|]; cbn [rbind]; [|done].
  destruct (nlargest _ _ _) as [top|] eqn:En; cbn [rbind]; [|done].
  destruct (column top "long_name") as [names|] eqn:Et; cbn [rbind]; [|done].
  intros [= <-]. cbn [TacticalDashboard.cluster_id TacticalDashboard.player_count
                      TacticalDashboard.top_players rows where_].
  rewrite members_mask.
  split; [done|]. split; [done|].
  apply column_cells in Et as ->. apply nlargest_rows in En as ->.
  cbn [rows where_]. rewrite members_mask, length_fmap, length_take.
  rewrite stable_sort_length. split; lia.
Qed.

Lemma get_cluster_characteristics_spec df infos :
  TacticalDashboard.get_cluster_characteristics df = Ok infos ->
  TacticalDashboard.cluster_id <$> infos
  = stable_sort py_le (unique ((fun r => cell r "cluster") <$> rows df)) /\
  Forall (fun info =>
            TacticalDashboard.player_count info
            = length (members df (TacticalDashboard.cluster_id info)) /\
            (length (TacticalDashboard.top_players info) <= 3)%nat /\
            (length (TacticalDashboard.top_players info)
             <= TacticalDashboard.player_count info)%nat) infos.
Proof.
  unfold TacticalDashboard.get_cluster_characteristics.
  destruct (column df "cluster") as [cl|] eqn:Ec; simpl; [|done].
  apply column_cells in Ec as ->.
  unfold py_sorted. destruct (_ || _); simpl; [|done].
  intros Hr. apply rmap_Forall2 in Hr.
  induction Hr as [|id info ids infos Hrow _ [IH1 IH2]]; [by split|].
  apply cluster_row_spec in Hrow as (Hid & Hcount & Htop & Htop').
  split.
  - csimpl. by rewrite Hid, IH1.
  - constructor; [|done]. rewrite Hid, Hcount. split; [done|]. split; [done|lia].
Qed.

Lemma get_cluster_characteristics_counts_aux df infos :
  TacticalDashboard.get_cluster_characteristics df = Ok infos ->
  sum_list (TacticalDashboard.player_count <$> infos)
  = length (List.filter (fun r => notna (cell r "cluster")) (rows df)).
Proof.
  intros Hrun. apply get_cluster_characteristics_spec in Hrun as [Hids Hall].
  set (cl := (fun r => cell r "cluster") <$> rows df) in *.
  assert (Hc : TacticalDashboard.player_count <$> infos
               = (fun v => length (List.filter (same_value v) cl))
                   <$> (TacticalDashboard.cluster_id <$> infos)).
  { rewrite <- list_fmap_compose. apply Forall_fmap_ext_1.
    eapply Forall_impl; [exact Hall|]. intros info (Hcount & _). simpl.
    rewrite Hcount. unfold cl, members. by rewrite filter_fmap_length. }
  rewrite Hc, Hids, stable_sort_perm, unique_counts.
  unfold cl. by rewrite filter_fmap_length.
Qed.

(** X16.  When [get_cluster_characteristics] returns, every entry counts
    the rows whose cluster id is the id of the entry and names at most
    three top players, never more than it counts; and the counts of all
    the entries add up to the number of rows that have a cluster id:
    every such row is counted once. *)
Theorem get_cluster_characteristics_counts
    (clustered_df : DataFrame) (infos : list TacticalDashboard.cluster_info) :
  TacticalDashboard.get_cluster_characteristics clustered_df = Ok infos ->
  Forall (fun info =>
            TacticalDashboard.player_count info
            = length (members clustered_df (TacticalDashboard.cluster_id info)) /\
            (length (TacticalDashboard.top_players info) <= 3)%nat /\
            (length (TacticalDashboard.top_players info)
             <= TacticalDashboard.player_count info)%nat) infos /\
  sum_list (TacticalDashboard.player_count <$> infos)
  = length (List.filter (fun r => notna (cell r "cluster")) (rows clustered_df)).
Proof.
  intros Hrun. split.
  - by apply get_cluster_characteristics_spec in Hrun as [_ Hall].
  - by apply get_cluster_characteristics_counts_aux.
Qed.

Lemma get_cluster_characteristics_counts_witness :
  exists infos,
    TacticalDashboard.get_cluster_characteristics example_clustered = Ok infos /\
    sum_list (TacticalDashboard.player_count <$> infos)
    = length (List.filter (fun r => notna (cell r "cluster"))
                (rows example_clustered)).
Proof.
  assert (Hrun : exists infos,
    TacticalDashboard.get_cluster_characteristics example_clustered = Ok infos)
    by (eexists; vm_compute; reflexivity).
  destruct Hrun as [infos Hrun]. exists infos. split; [exact Hrun|].
  exact (proj2 (get_cluster_characteristics_counts _ _ Hrun)).
Defined.

(** *** The Player Clustering mode *)

Lemma fle_of_Z a b : fle (of_Z a) (of_Z b) = (a <=? b)%Z.
Proof.
  unfold of_Z. simpl. apply eq_true_iff_eq.
  rewrite Qle_bool_iff, Z.leb_le. by rewrite Zle_Qle.
Qed.

Lemma same_key_cluster_cell a b :
  same_key (cluster_cell a) (cluster_cell b) = bool_decide (a = b).
Proof.
  unfold same_key, cluster_cell. simpl. unfold feqb. rewrite !fle_of_Z.
  apply eq_true_iff_eq. rewrite andb_true_iff, !Z.leb_le, bool_decide_eq_true. lia.
Qed.

Lemma py_le_cluster_cell a b :
  py_le (cluster_cell a) (cluster_cell b) = (a <=? b)%Z.
Proof. apply fle_of_Z. Qed.

Lemma filter_fmap_swap {A B} (f : A -> B) (p : B -> bool) l :
  List.filter p (f <$> l) = f <$> List.filter (fun x => p (f x)) l.
Proof.
  induction l as [|x l IH]; csimpl; [done|].
  destruct (p (f x)); csimpl; by rewrite IH.
Qed.

Lemma unique_cluster_cells (ks : list Z) :
  exists ks',
    unique (cluster_cell <$> ks) = cluster_cell <$> ks' /\
    NoDup ks' /\ forall k, k ∈ ks' <-> k ∈ ks.
Proof.
  induction ks as [|k ks (ks' & Hu & Hnd & Hin)].
  - exists []. split; [done|]. split; [constructor|done].
  - exists (k :: List.filter (fun j => negb (bool_decide (j = k))) ks').
    assert (Hf : forall j,
              j ∈ List.filter (fun j => negb (bool_decide (j = k))) ks'
              <-> j <> k /\ j ∈ ks').
    { intros j. rewrite list_elem_of_In, filter_In, <- list_elem_of_In.
      rewrite negb_true_iff, bool_decide_eq_false. tauto. }
    split; [|split].
    + csimpl. rewrite Hu, filter_fmap_swap. f_equal. f_equal.
      apply filter_ext. intros j. by rewrite same_key_cluster_cell.
    + constructor; [rewrite Hf; tauto|].
      clear -Hnd. induction Hnd as [|j l Hj _ IH]; simpl; [constructor|].
      destruct (negb _); [|done]. constructor; [|done].
      intros Hj'. apply Hj. apply list_elem_of_In, filter_In in Hj' as [Hj' _].
      by apply list_elem_of_In.
    + intros j. rewrite !elem_of_cons, Hf, Hin.
      destruct (decide (j = k)); tauto.
Qed.

Lemma insert_sorted_fmap {A B} (f : A -> B) le le' x l :
  (forall a b, le' (f a) (f b) = le a b) ->
  insert_sorted le' (f x) (f <$> l) = f <$> insert_sorted le x l.
Proof.
  intros Hle. induction l as [|y l IH]; csimpl; [done|].
  rewrite Hle. destruct (le x y); csimpl; [done|]. by rewrite IH.
Qed.

Lemma stable_sort_fmap {A B} (f : A -> B) le le' l :
  (forall a b, le' (f a) (f b) = le a b) ->
  stable_sort le' (f <$> l) = f <$> stable_sort le l.
Proof.
  intros Hle. induction l as [|x l IH]; csimpl; [done|].
  rewrite IH. by apply insert_sorted_fmap.
Qed.

Lemma sorted_NoDup_lt (ks : list Z) :
  StronglySorted (fun a b => (a <=? b)%Z = true) ks -> NoDup ks ->
  StronglySorted Z.lt ks.
Proof.
  induction 1 as [|k ks Hs IH Hk]; intros Hnd; [constructor|].
  apply NoDup_cons in Hnd as [Hk' Hnd]. constructor; [by apply IH|].
  rewrite Forall_forall in *. intros j Hj. specialize (Hk j Hj).
  apply Z.leb_le in Hk. assert (j <> k) by (intros ->; done). lia.
Qed.

Lemma rmap_ge_cell m (rs : list row) mask :
  rmap (ge_cell m) ((fun r => cell r "overall") <$> rs) = Ok mask ->
  mask = rated_at_least m <$> rs.
Proof.
  revert mask. induction rs as [|r rs IH]; intros mask; csimpl.
  - by intros [= <-].
  - unfold rated_at_least, num_key.
    destruct (cell r "overall") as [x|]; simpl; [|done].
    destruct (rmap _ _) as [mask'|]; simpl; [|done].
    intros [= <-]. f_equal. by apply IH.
Qed.

Lemma filter_all {A} (p : A -> bool) l :
  Forall (fun x => p x = true) l -> List.filter p l = l.
Proof. induction 1 as [|x l Hx _ IH]; simpl; [done|]. by rewrite Hx, IH. Qed.

Lemma complete_cluster_features r :
  complete TacticalAnalysis.cluster_features r
  = complete TacticalDashboard.loaded_fields r.
Proof.
  unfold complete. simpl.
  destruct (notna (cell r "pace")), (notna (cell r "shooting")),
    (notna (cell r "passing")), (notna (cell r "dribbling")),
    (notna (cell r "defending")), (notna (cell r "physic")),
    (notna (cell r "overall")); done.
Qed.

Section PlayerClustering.
Context `{Sklearn}.
Hypothesis Hk : kmeans_contract.
Hypothesis Hs : scaler_contract.

Lemma player_clustering_run (s : store) l df n m l' infos s' :
  s !! l = Some df ->
  Forall (fun r => complete TacticalDashboard.loaded_fields r = true) (rows df) ->
  TacticalDashboard.player_clustering l n m s = (Ok (l', infos), s') ->
  exists out clusters ids,
    s' !! l' = Some out /\
    rows out = zip_with set_cluster clusters
                 (List.filter (rated_at_least m) (rows df)) /\
    length clusters = length (List.filter (rated_at_least m) (rows df)) /\
    Forall (fun k => 0 <= k < n)%Z clusters /\
    TacticalDashboard.cluster_id <$> infos = cluster_cell <$> ids /\
    StronglySorted Z.lt ids /\
    (forall k, k ∈ ids <-> k ∈ clusters) /\
    sum_list (TacticalDashboard.player_count <$> infos)
    = length (List.filter (rated_at_least m) (rows df)).
Proof.
  intros Hl Hcomplete. unfold TacticalDashboard.player_clustering.
  unfold bind at 1. rewrite (getitem_run _ _ _ _ Hl).
  destruct (column df "overall") as [overall|] eqn:Eo; [|done].
  apply column_cells in Eo as ->.
  rewrite bind_lift.
  destruct (rmap (ge_cell m) _) as [mask|] eqn:Em; [|done].
  apply rmap_ge_cell in Em as ->.
  unfold bind at 1. rewrite (derive_run _ _ _ _ Hl).
  unfold where_. rewrite <- (list_fmap_id (rows df)) at 1.
  rewrite mask_rows_fmap, list_fmap_id.
  set (kept := List.filter (rated_at_least m) (rows df)).
  set (fdf := Frame (columns df) kept).
  unfold bind at 1.
  destruct (TacticalAnalysis.perform_clustering _ _ _) as [[l1|e] s2] eqn:Epc;
    [|done].
  destruct (perform_clustering_run Hk Hs _ _ fdf _ _ _ (lookup_snoc _ _) Epc)
    as (out & clusters & Hout & Hrows & Hlen & Hrange).
  assert (Hkept : List.filter (complete TacticalAnalysis.cluster_features) (rows fdf)
                  = kept).
  { apply filter_all. unfold fdf, kept. cbn [rows].
    apply Forall_forall. intros r Hr.
    apply list_elem_of_In, filter_In in Hr as [Hr _]. cbv beta.
    rewrite complete_cluster_features.
    rewrite Forall_forall in Hcomplete. by apply Hcomplete, list_elem_of_In. }
  rewrite Hkept in Hrows, Hlen.
  unfold bind at 1. rewrite (load_run _ _ _ Hout).
  rewrite bind_lift.
  destruct (TacticalDashboard.get_cluster_characteristics out) as [chars|] eqn:Ec;
    [|done].
  unfold ret. intros [= <- <- <-].
  assert (Hcl : (fun r => cell r "cluster") <$> rows out = cluster_cell <$> clusters).
  { rewrite Hrows. clearbody kept. clear -Hlen. revert kept Hlen.
    induction clusters as [|k ks IH]; intros [|r rs]; csimpl; try done.
    intros [= Hlen]. unfold set_cluster at 1. rewrite cell_set_cell.
    f_equal. by apply IH. }
  pose proof (get_cluster_characteristics_spec _ _ Ec) as [Hids _].
  pose proof (get_cluster_characteristics_counts_aux _ _ Ec) as Hsum.
  rewrite Hcl in Hids.
  destruct (unique_cluster_cells clusters) as (ks & Hu & Hnd & Hin).
  rewrite Hu in Hids.
  rewrite (stable_sort_fmap cluster_cell Z.leb) in Hids
    by apply py_le_cluster_cell.
  exists out, clusters, (stable_sort Z.leb ks).
  split; [done|]. split; [done|]. split; [done|]. split; [done|].
  split; [done|]. split; [|split].
  - apply sorted_NoDup_lt.
    + apply (stable_sort_sorted Z.leb).
      * intros a b. rewrite !Z.leb_le. lia.
      * intros a b c. rewrite !Z.leb_le. lia.
    + by rewrite stable_sort_perm.
  - intros k. by rewrite stable_sort_perm.
  - rewrite Hsum. rewrite <- filter_fmap_length with (f := fun r => cell r "cluster").
    rewrite Hcl, filter_fmap_length. rewrite filter_all by by apply Forall_true.
    by rewrite Hlen.
Qed.
End PlayerClustering.

Lemma lt_sorted_NoDup (ks : list Z) : StronglySorted Z.lt ks -> NoDup ks.
Proof.
  induction 1 as [|k ks _ IH Hk]; constructor; [|done].
  intros Hin. rewrite Forall_forall in Hk. specialize (Hk k Hin). lia.
Qed.

Lemma distinct_in_range (ks : list Z) n :
  NoDup ks -> Forall (fun k => 0 <= k < n)%Z ks -> (length ks <= Z.to_nat n)%nat.
Proof.
  intros Hnd Hr. rewrite <- (length_seqZ 0 n).
  apply submseteq_length, NoDup_submseteq; [done|].
  intros k Hk. rewrite Forall_forall in Hr. specialize (Hr k Hk).
  apply elem_of_seqZ. lia.
Qed.

(** X17.  The Player Clustering mode on a frame where no rating is
    missing, as [load_data] returns it: when the clustering and its
    table of characteristics are made, every player rated at least
    [min_overall] is in the clustered frame, once and in the order of
    the frame, with a cluster id from 0 to [n_clusters - 1]; the table
    has one entry for each id that was given, in ascending order, so
    [n_clusters] entries at most; and its player counts add up to the
    number of those players. *)
Theorem player_clustering_counts_every_player `{Sklearn}
    (s : store) (l : loc) (df : DataFrame) (n_clusters min_overall : Z)
    (l' : loc) (infos : list TacticalDashboard.cluster_info) (s' : store) :
  kmeans_contract -> scaler_contract ->
  s !! l = Some df ->
  Forall (fun r => complete TacticalDashboard.loaded_fields r = true) (rows df) ->
  TacticalDashboard.player_clustering l n_clusters min_overall s
  = (Ok (l', infos), s') ->
  exists out clusters ids,
    s' !! l' = Some out /\
    rows out = zip_with set_cluster clusters
                 (List.filter (rated_at_least min_overall) (rows df)) /\
    length clusters
    = length (List.filter (rated_at_least min_overall) (rows df)) /\
    Forall (fun k => 0 <= k < n_clusters)%Z clusters /\
    TacticalDashboard.cluster_id <$> infos = cluster_cell <$> ids /\
    StronglySorted Z.lt ids /\
    (forall k, k ∈ ids <-> k ∈ clusters) /\
    (length infos <= Z.to_nat n_clusters)%nat /\
    sum_list (TacticalDashboard.player_count <$> infos)
    = length (List.filter (rated_at_least min_overall) (rows df)).
Proof.
  intros Hk Hs Hl Hcomplete Hrun.
  destruct (player_clustering_run Hk Hs _ _ _ _ _ _ _ _ Hl Hcomplete Hrun)
    as (out & clusters & ids & H1 & H2 & H3 & H4 & H5 & H6 & H7 & H8).
  exists out, clusters, ids. repeat (split; [done|]). split; [|done].
  apply (f_equal length) in H5. rewrite !length_fmap in H5. rewrite H5.
  apply distinct_in_range; [by apply lt_sorted_NoDup|].
  rewrite Forall_forall in *. intros k Hin. apply H4, H7, Hin.
Qed.

Lemma player_clustering_counts_every_player_witness :
  exists l' infos s',
    @TacticalDashboard.player_clustering example_sklearn 0%nat 2 62
      [example_frame 6] = (Ok (l', infos), s') /\
    (length infos <= Z.to_nat 2)%nat /\
    sum_list (TacticalDashboard.player_count <$> infos)
    = length (List.filter (rated_at_least 62) (rows (example_frame 6))).
Proof.
  assert (Hrun : exists a,
    (@TacticalDashboard.player_clustering example_sklearn 0%nat 2 62
       [example_frame 6]).1 = Ok a) by (eexists; vm_compute; reflexivity).
  destruct Hrun as [[l' infos] Hrun]. apply run_returns in Hrun.
  eexists l', infos, _. split; [exact Hrun|].
  assert (Hcomplete :
    Forall (fun r => complete TacticalDashboard.loaded_fields r = true)
      (rows (example_frame 6))) by repeat constructor.
  destruct (@player_clustering_counts_every_player example_sklearn
              [example_frame 6] 0%nat (example_frame 6) 2 62 l' infos _
              example_kmeans_contract example_scaler_contract eq_refl
              Hcomplete Hrun)
    as (out & clusters & ids & _ & _ & _ & _ & _ & _ & _ & Hlen & Hsum).
  split; [exact Hlen|exact Hsum].
Defined.

(** *** What the tactical dashboard loads *)

Lemma complete_relabel cs i r : complete cs (Row i (cells r)) = complete cs r.
Proof. done. Qed.

Lemma filter_imap_relabel cs (l : list row) n :
  cells <$> List.filter (complete cs)
              (imap (fun i r => Row (Z.of_nat (n + i)) (cells r)) l)
  = cells <$> List.filter (complete cs) l /\
  StronglySorted Z.lt
    (label <$> List.filter (complete cs)
                 (imap (fun i r => Row (Z.of_nat (n + i)) (cells r)) l)) /\
  Forall (fun k => Z.of_nat n <= k)%Z
    (label <$> List.filter (complete cs)
                 (imap (fun i r => Row (Z.of_nat (n + i)) (cells r)) l)).
Proof.
  revert n. induction l as [|r l IH]; intros n.
  - split; [done|]. split; constructor.
  - destruct (IH (S n)) as (IH1 & IH2 & IH3).
    assert (E : imap (fun i r => Row (Z.of_nat (n + i)) (cells r)) (r :: l)
                = Row (Z.of_nat n) (cells r)
                  :: imap (fun i r => Row (Z.of_nat (S n + i)) (cells r)) l).
    { csimpl. f_equal; [by rewrite Nat.add_0_r|].
      apply imap_ext. intros i x _. simpl. do 2 f_equal. lia. }
    rewrite E. cbn [List.filter]. rewrite complete_relabel.
    destruct (complete cs r); rewrite ?fmap_cons; cbn [label cells].
    + split; [by rewrite IH1|]. split.
      * constructor; [done|]. eapply Forall_impl; [exact IH3|].
        intros k Hk. simpl in Hk. lia.
      * constructor; [lia|]. eapply Forall_impl; [exact IH3|].
        intros k Hk. simpl in Hk. lia.
    + split; [done|]. split; [done|].
      eapply Forall_impl; [exact IH3|]. intros k Hk. simpl in Hk. lia.
Qed.

(** X18.  When the [load_data] of the tactical dashboard returns a
    frame, its rows are the rows of the two files, male players first,
    with all their cells and their gender, less every row that lacks one
    of the seven ratings (every goalkeeper, who has no pace); the index
    labels grow along the frame, so no two rows share one; and nothing
    is put on the page. *)
Theorem tactical_load_data_keeps_rated_players
    (w w' : session) (df : DataFrame) :
  TacticalDashboard.load_data w = (Ok (Some df), w') ->
  exists male female,
    files w "data/male_players.csv" = Ok male /\
    files w "data/female_players.csv" = Ok female /\
    cells <$> rows df
    = cells <$> List.filter (complete TacticalDashboard.loaded_fields)
                  (tagged_players male female) /\
    Forall (fun r => complete TacticalDashboard.loaded_fields r = true) (rows df) /\
    StronglySorted Z.lt (label <$> rows df) /\
    w' = w.
Proof.
  unfold TacticalDashboard.load_data, try_except. unfold bind at 1.
  destruct (TacticalDashboard.load_data_body w) as [[d|e] w1] eqn:Eb;
    [|destruct (is_Exception e); [|done]; unfold bind, st_error, ret; done].
  unfold ret. intros [= <- <-]. revert Eb.
  unfold TacticalDashboard.load_data_body. unfold bind at 1. unfold read_csv at 1.
  destruct (files w "data/male_players.csv") as [male|] eqn:Em; [|done].
  unfold bind at 1. unfold read_csv at 1.
  destruct (files w "data/female_players.csv") as [female|] eqn:Ef; [|done].
  set (all0 := concat _ _). unfold lift.
  destruct (dropna_subset all0 _) as [all1|] eqn:E1; [|done].
  intros [= <- <-].
  exists male, female. split; [done|]. split; [done|].
  apply dropna_subset_rows in E1. rewrite E1.
  assert (Hall : rows all0
                 = imap (fun i r => Row (Z.of_nat (0 + i)) (cells r))
                     (tagged_players male female)) by done.
  rewrite Hall.
  destruct (filter_imap_relabel TacticalDashboard.loaded_fields
              (tagged_players male female) 0) as (H1 & H2 & _).
  split; [done|]. split; [|done].
  apply Forall_forall. intros r Hr.
  by apply list_elem_of_In, filter_In in Hr as [_ Hr].
Qed.

Lemma tactical_load_data_keeps_rated_players_witness :
  exists male female,
    files session_with_goalkeeper "data/male_players.csv" = Ok male /\
    files session_with_goalkeeper "data/female_players.csv" = Ok female /\
    cells <$> rows (loaded (TacticalDashboard.load_data session_with_goalkeeper))
    = cells <$> List.filter (complete TacticalDashboard.loaded_fields)
                  (tagged_players male female) /\
    length (rows (loaded (TacticalDashboard.load_data session_with_goalkeeper)))
    = 4%nat.
Proof.
  destruct (tactical_load_data_keeps_rated_players session_with_goalkeeper
              (TacticalDashboard.load_data session_with_goalkeeper).2
              (loaded (TacticalDashboard.load_data session_with_goalkeeper)))
    as (male & female & Hm & Hf & Hrows & _).
  - apply has_loaded_eq. vm_compute. reflexivity.
  - exists male, female. split; [exact Hm|]. split; [exact Hf|].
    split; [exact Hrows|]. vm_compute. reflexivity.
Defined.

(** ** The sidebar filters and the skills of a player *)

Lemma series_of_lookup df r c :
  c ∈ columns df -> series_of df r !! c = Some (cell r c).
Proof.
  unfold series_of. induction (columns df) as [|x cs IH]; intros Hc.
  - by apply elem_of_nil in Hc.
  - csimpl. destruct (decide (c = x)) as [->|Hne].
    + by rewrite lookup_insert_eq.
    + rewrite lookup_insert_ne by done. apply IH.
      by apply elem_of_cons in Hc as [?|?].
Qed.

Lemma rmap_ok {A B} (f : A -> result B) (g : A -> B) l :
  Forall (fun x => f x = Ok (g x)) l -> rmap f l = Ok (g <$> l).
Proof.
  induction 1 as [|x l Hx _ IH]; csimpl; [done|]. by rewrite Hx, IH.
Qed.

(** X19.  On a frame with a [player_id] column, [get_player_skills]
    returns the skills of the first row with the id: one entry, in the
    order pace, shooting, passing, dribbling, defending, physic, for
    each of the six that is a column of the frame; a skill that is no
    column is left out, and none is a [KeyError].  When no row has the
    id it raises [IndexError]. *)
Theorem get_player_skills_of_first_match (df : DataFrame) (player_id : Z) :
  has_column df "player_id" = true ->
  AppFilters.get_player_skills df player_id
  = match first_with_id df player_id with
    | Some player =>
        Ok ((fun col => (col, cell player col))
              <$> List.filter (has_column df) AppFilters.skill_cols)
    | None => Raise (IndexError "single positional indexer is out-of-bounds")
    end.
Proof.
  intros Hc. unfold AppFilters.get_player_skills, first_with_id.
  unfold column. rewrite Hc. cbn [rbind].
  unfold iloc0, where_. cbn [rows]. rewrite has_player_mask.
  destruct (List.filter _ (rows df)) as [|r rest]; [done|].
  cbn [rbind List.head]. apply rmap_ok.
  apply Forall_forall. intros c Hin.
  apply list_elem_of_In, filter_In in Hin as [_ Hin].
  apply has_column_true in Hin.
  unfold item. change (columns (Frame (columns df) (r :: rest))) with (columns df).
  by rewrite (series_of_lookup (Frame (columns df) (r :: rest)) r c Hin).
Qed.

Lemma get_player_skills_of_first_match_witness :
  AppFilters.get_player_skills
    (Frame ["player_id"; "pace"; "physic"] (rows (example_frame 3))) 101
  = Ok [("pace", Num (of_Z 51)); ("physic", Num (of_Z 65))].
Proof.
  rewrite (get_player_skills_of_first_match
             (Frame ["player_id"; "pace"; "physic"] (rows (example_frame 3))) 101).
  - vm_compute. reflexivity.
  - vm_compute. reflexivity.
Defined.

Lemma filter_unless_all_rows sel c test (on_cell : string -> value -> bool) df d :
  (forall vs mask, test sel vs = Ok mask -> mask = on_cell sel <$> vs) ->
  AppFilters.filter_unless_all sel c test df = Ok d ->
  columns d = columns df /\
  rows d = List.filter
             (fun r => bool_decide (sel = "All") || on_cell sel (cell r c))
             (rows df).
Proof.
  intros Htest. unfold AppFilters.filter_unless_all. case_bool_decide as E.
  - intros [= <-]. split; [done|]. symmetry. by apply filter_all, Forall_true.
  - destruct (column df c) as [vs|] eqn:Ec; cbn [rbind]; [|done].
    destruct (test sel vs) as [mask|] eqn:Em; cbn [rbind]; [|done].
    intros [= <-]. split; [done|]. apply Htest in Em as ->.
    apply column_cells in Ec as ->.
    cbn [rows where_ orb]. rewrite <- list_fmap_compose.
    rewrite <- (list_fmap_id (rows df)) at 1.
    rewrite mask_rows_fmap. by rewrite list_fmap_id.
Qed.

Lemma series_eq_ok name cells mask :
  AppFilters.series_eq name cells = Ok mask -> mask = eq_str name <$> cells.
Proof. by intros [= <-]. Qed.

Lemma rmap_in_range_within lo hi (vs : list value) mask :
  rmap (AppFilters.in_range lo hi) vs = Ok mask ->
  mask = within (lo, hi) <$> vs.
Proof.
  revert mask. induction vs as [|v vs IH]; intros mask; csimpl.
  - by intros [= <-].
  - unfold AppFilters.in_range at 1, ge_cell, le_cell, within.
    destruct v as [x|]; simpl; [|done].
    destruct (rmap _ vs) as [mask'|]; simpl; [|done].
    intros [= <-]. f_equal. by apply IH.
Qed.

Lemma filter_filter {A} (p q : A -> bool) l :
  List.filter p (List.filter q l) = List.filter (fun x => q x && p x) l.
Proof.
  induction l as [|x l IH]; simpl; [done|].
  destruct (q x); simpl; [|done]. destruct (p x); by rewrite IH.
Qed.

(** X20.  For a selected position that holds no operator of a regular
    expression (the positions on offer are those of the data): when the
    filters of the sidebar have been applied, the filtered frame has the
    columns of the loaded frame and exactly its rows, in their order,
    that pass every filter at once: the gender, the position (as a part
    of the positions of the player) and the league, each unless it is on
    ['All'], and the two ranges with both ends included.  A row without
    age or without overall rating passes no range. *)
Theorem apply_filters_keeps_passing_rows
    (df : DataFrame)
    (selected_gender selected_position selected_league : string)
    (age_range overall_range : Z * Z) (filtered_df : DataFrame) :
  Visualizations.literal selected_position = true ->
  AppFilters.apply_filters df selected_gender selected_position selected_league
    age_range overall_range = Ok filtered_df ->
  columns filtered_df = columns df /\
  rows filtered_df
  = List.filter (passes selected_gender selected_position selected_league
                   age_range overall_range) (rows df) /\
  Forall (fun r => notna (cell r "age") = true /\
                   notna (cell r "overall") = true) (rows filtered_df).
Proof.
  intros _. unfold AppFilters.apply_filters.
  destruct (AppFilters.filter_unless_all selected_gender _ _ df)
    as [d1|] eqn:E1; cbn [rbind]; [|done].
  destruct (AppFilters.filter_unless_all selected_position _ _ d1)
    as [d2|] eqn:E2; cbn [rbind]; [|done].
  destruct (AppFilters.filter_unless_all selected_league _ _ d2)
    as [d3|] eqn:E3; cbn [rbind]; [|done].
  destruct (column d3 "age") as [age|] eqn:Ea; cbn [rbind]; [|done].
  destruct (rmap _ age) as [age_ok|] eqn:Eao; cbn [rbind]; [|done].
  destruct (column d3 "overall") as [overall|] eqn:Eo; cbn [rbind]; [|done].
  destruct (rmap _ overall) as [overall_ok|] eqn:Eoo; cbn [rbind]; [|done].
  intros [= <-].
  apply (filter_unless_all_rows _ _ _ eq_str) in E1 as [C1 R1];
    [|apply series_eq_ok].
  apply (filter_unless_all_rows _ _ _ Visualizations.str_contains) in E2
    as [C2 R2]; [|apply series_str_contains_ok].
  apply (filter_unless_all_rows _ _ _ eq_str) in E3 as [C3 R3];
    [|apply series_eq_ok].
  apply rmap_in_range_within in Eao, Eoo.
  apply column_cells in Ea, Eo. subst age overall age_ok overall_ok.
  rewrite <- !list_fmap_compose, zip_with_fmap_same.
  match goal with
  | |- _ /\ rows ?d = _ /\ _ =>
      assert (Hrows :
        rows d = List.filter (passes selected_gender selected_position
                                selected_league age_range overall_range) (rows df))
  end.
  { cbn [rows where_]. rewrite <- (list_fmap_id (rows d3)) at 1.
    rewrite mask_rows_fmap, list_fmap_id.
    rewrite R3, R2, R1, !filter_filter. apply filter_ext. intros r.
    unfold passes. destruct age_range, overall_range. cbn [fst snd].
    by rewrite !andb_assoc. }
  split; [cbn [columns where_]; congruence|]. split; [exact Hrows|].
  rewrite Hrows. apply Forall_forall. intros r Hr.
  apply list_elem_of_In, filter_In in Hr as [_ Hr].
  unfold passes, within in Hr. rewrite !andb_true_iff in Hr.
  destruct Hr as (_ & ((Ha & _) & (Ho & _))).
  destruct (cell r "age") as [[]|], (cell r "overall") as [[]|]; done.
Qed.

Lemma apply_filters_keeps_passing_rows_witness :
  Visualizations.literal "ST" = true /\
  exists filtered_df,
    AppFilters.apply_filters (example_frame 6) "All" "ST" "All" (18, 35)%Z (62, 95)%Z
    = Ok filtered_df /\
    rows filtered_df
    = List.filter (passes "All" "ST" "All" (18, 35)%Z (62, 95)%Z)
        (rows (example_frame 6)).
Proof.
  assert (Hrun : exists filtered_df,
    AppFilters.apply_filters (example_frame 6) "All" "ST" "All" (18, 35)%Z (62, 95)%Z
    = Ok filtered_df) by (eexists; vm_compute; reflexivity).
  assert (Hlit : Visualizations.literal "ST" = true) by (vm_compute; reflexivity).
  split; [exact Hlit|].
  destruct Hrun as [filtered_df Hrun]. exists filtered_df.
  split; [exact Hrun|].
  exact (proj1 (proj2 (apply_filters_keeps_passing_rows _ _ _ _ _ _ _ Hlit Hrun))).
Defined.

(** ** Market trends *)

Lemma string_compare_trans s1 s2 s3 c :
  String.compare s1 s2 = c -> String.compare s2 s3 = c -> String.compare s1 s3 = c.
Proof.
  revert s2 s3 c.
  induction s1 as [|a1 s1 IH]; intros [|a2 s2] [|a3 s3] c; simpl;
    try congruence.
  unfold Ascii.compare.
  destruct (N.compare_spec (Ascii.N_of_ascii a1) (Ascii.N_of_ascii a2))
    as [E12|L12|G12];
    destruct (N.compare_spec (Ascii.N_of_ascii a2) (Ascii.N_of_ascii a3))
      as [E23|L23|G23];
    intros H1 H2; try congruence.
  - rewrite E12, E23, N.compare_refl. by apply IH with s2.
  - subst c. rewrite (proj2 (N.compare_lt_iff _ _)); [done|lia].
  - subst c. rewrite (proj2 (N.compare_gt_iff _ _)); [done|lia].
  - subst c. rewrite (proj2 (N.compare_lt_iff _ _)); [done|lia].
  - subst c. rewrite (proj2 (N.compare_lt_iff _ _)); [done|lia].
  - subst c. rewrite (proj2 (N.compare_gt_iff _ _)); [done|lia].
  - subst c. rewrite (proj2 (N.compare_gt_iff _ _)); [done|lia].
Qed.

Lemma string_leb_trans s1 s2 s3 :
  String.leb s1 s2 = true -> String.leb s2 s3 = true -> String.leb s1 s3 = true.
Proof.
  unfold String.leb.
  destruct (String.compare s1 s2) eqn:E12; [| |done];
    destruct (String.compare s2 s3) eqn:E23; try done; intros _ _.
  - by rewrite (string_compare_trans _ _ _ _ E12 E23).
  - apply String.compare_eq_iff in E12 as ->. by rewrite E23.
  - apply String.compare_eq_iff in E23 as <-. by rewrite E12.
  - by rewrite (string_compare_trans _ _ _ _ E12 E23).
Qed.

Lemma key_le_total : total key_le.
Proof.
  intros [x|s] [y|t]; simpl; auto.
  - apply asc_le_total.
  - apply String.leb_total.
Qed.

Lemma key_le_trans : transitive key_le.
Proof.
  intros [x|s] [y|t] [z|u]; simpl; try done.
  - apply asc_le_trans.
  - apply string_leb_trans.
Qed.

Lemma fst_tagged {A B} (g : A -> B) (l : list A) :
  ((fun k => (k, g k)) <$> l).*1 = l.
Proof. induction l as [|x l IH]; csimpl; [done|]. by rewrite IH. Qed.

Lemma groupby_mean_trend df key trend :
  groupby_mean df key "value_eur" = Ok trend ->
  trend_of df key trend /\
  StronglySorted (fun a b => key_le a b = true) trend.*1.
Proof.
  unfold groupby_mean, trend_of.
  destruct (column df key) as [keys|] eqn:Ek; cbn [rbind]; [|done].
  destruct (numeric_column df "value_eur"); cbn [rbind]; [|done].
  intros [= <-]. apply column_cells in Ek as ->.
  rewrite fst_tagged.
  split; [split|].
  - apply stable_sort_perm.
  - apply Forall_fmap. by apply Forall_true.
  - apply stable_sort_sorted; [apply key_le_total|apply key_le_trans].
Qed.

Lemma trend_of_perm df key t1 t2 : t1 ≡ₚ t2 -> trend_of df key t2 -> trend_of df key t1.
Proof.
  intros Hp [H1 H2]. split; [by rewrite Hp|]. by rewrite Hp.
Qed.

Lemma sort_series_top_ten df key trend :
  trend_of df key trend ->
  top_ten_of df key (take 10 (sort_series_descending trend)).
Proof.
  intros Ht. exists (sort_series_descending trend). split; [done|]. split.
  - eapply trend_of_perm; [apply stable_sort_perm|done].
  - apply (stable_sort_sorted (fun a b : value * float64 => desc_le a.2 b.2)).
    + intros x y. apply desc_le_total.
    + intros x y z. apply desc_le_trans.
Qed.

(** X22.  When [analyze_market_trends] returns: the age trend and the
    overall trend have one entry for each age, or rating, that occurs
    in the frame, in ascending order, with the mean [value_eur] of the
    players who have it (missing values skipped); the position trend and
    the league trend are the ten entries with the highest mean, highest
    first, of the same table by position string and by league.  Rows
    whose key is missing are in no group. *)
Theorem analyze_market_trends_groups
    (df : DataFrame) (trends : AnalyticsTrends.trends) :
  AnalyticsTrends.analyze_market_trends df = Ok trends ->
  (trend_of df "age" (AnalyticsTrends.age trends) /\
   StronglySorted (fun a b => key_le a b = true) (AnalyticsTrends.age trends).*1) /\
  (trend_of df "overall" (AnalyticsTrends.overall trends) /\
   StronglySorted (fun a b => key_le a b = true)
     (AnalyticsTrends.overall trends).*1) /\
  top_ten_of df "player_positions" (AnalyticsTrends.position trends) /\
  top_ten_of df "league_name" (AnalyticsTrends.league trends).
Proof.
  unfold AnalyticsTrends.analyze_market_trends.
  destruct (groupby_mean df "age" _) as [a|] eqn:Ea; cbn [rbind]; [|done].
  destruct (groupby_mean df "overall" _) as [o|] eqn:Eo; cbn [rbind]; [|done].
  destruct (groupby_mean df "player_positions" _) as [p|] eqn:Ep; cbn [rbind];
    [|done].
  destruct (groupby_mean df "league_name" _) as [g|] eqn:Eg; cbn [rbind]; [|done].
  intros [= <-]. cbn [AnalyticsTrends.age AnalyticsTrends.overall
                      AnalyticsTrends.position AnalyticsTrends.league].
  apply groupby_mean_trend in Ea, Eo, Ep, Eg.
  split; [done|]. split; [done|].
  split; apply sort_series_top_ten; tauto.
Qed.

Lemma analyze_market_trends_groups_witness :
  exists trends,
    AnalyticsTrends.analyze_market_trends example_two_leagues = Ok trends /\
    top_ten_of example_two_leagues "league_name" (AnalyticsTrends.league trends).
Proof.
  assert (Hrun : exists trends,
    AnalyticsTrends.analyze_market_trends example_two_leagues = Ok trends)
    by (eexists; vm_compute; reflexivity).
  destruct Hrun as [trends Hrun]. exists trends. split; [exact Hrun|].
  exact (proj2 (proj2 (proj2 (analyze_market_trends_groups _ _ Hrun)))).
Defined.

(** ** When the ML Insights tab clusters *)

(** X23.  The clustering step of the ML Insights tab makes no clustered
    frame, and raises nothing, exactly when the filtered frame has at
    most 10 rows, or has the seven feature columns and at most 5 rows
    with all seven features; in every other case it returns a clustered
    frame or raises. *)
Theorem clustering_step_skips_small_frames `{Sklearn}
    (s : store) (l : loc) (df : DataFrame) (n_clusters : Z) :
  s !! l = Some df ->
  (App.clustering_step l n_clusters s).1 = Ok None
  <->
  (length (rows df) <= 10)%nat \/
  (missing_column df App.cluster_features = None /\
   (length (List.filter (complete App.cluster_features) (rows df)) <= 5)%nat).
Proof.
  intros Hl. unfold App.clustering_step.
  unfold bind at 1. rewrite (load_run _ _ _ Hl).
  case_bool_decide as H10.
  2: { split; [intros _; left; lia|done]. }
  unfold bind at 1. rewrite (derive_run _ _ _ _ Hl).
  unfold select. destruct (missing_column df App.cluster_features) as [c|] eqn:Em.
  { split; [done|]. intros [?|[? _]]; [lia|done]. }
  unfold bind at 1. rewrite (derive_run _ _ _ _ (lookup_snoc _ _)).
  unfold bind at 1. rewrite (load_run _ _ _ (lookup_snoc _ _)).
  assert (Hlen : length (rows (dropna (Frame App.cluster_features
                                         (restrict App.cluster_features <$> rows df))))
                 = length (List.filter (complete App.cluster_features) (rows df))).
  { unfold dropna. cbn [rows columns].
    rewrite filter_fmap_restrict. by rewrite length_fmap. }
  case_bool_decide as H5.
  2: { split; [intros _; right; split; [done|lia]|done]. }
  split; [|intros [?|[_ ?]]; lia].
  unfold bind at 1, lift at 1.
  destruct (fit_transform _) as [fitted|]; [|done].
  unfold bind at 1, lift at 1.
  destruct (sk _ _) as [clusters|]; [|done].
  unfold bind at 1.
  rewrite (derive_run _ _ df) by (rewrite <- !app_assoc; by apply lookup_old).
  unfold bind at 1. rewrite (copy_run _ _ _ (lookup_snoc _ _)).
  unfold bind at 1. rewrite (setitem_run _ _ _ _ _ (lookup_snoc _ _)).
  by destruct (assign _ _ _).
Qed.

Lemma clustering_step_skips_small_frames_witness :
  (@App.clustering_step example_sklearn 0%nat 4 [example_frame 8]).1 = Ok None
  <->
  (length (rows (example_frame 8)) <= 10)%nat \/
  (missing_column (example_frame 8) App.cluster_features = None /\
   (length (List.filter (complete App.cluster_features) (rows (example_frame 8)))
    <= 5)%nat).
Proof.
  apply (@clustering_step_skips_small_frames example_sklearn
           [example_frame 8] 0%nat (example_frame 8) 4).
  reflexivity.
Defined.

(** ** Rounding keeps the sign *)

Lemma nearest_even_nonneg n d : (0 <= n)%Z -> (0 <= nearest_even n d)%Z.
Proof.
  intros Hn. unfold nearest_even.
  assert (0 <= n / Z.pos d)%Z by (apply Z.div_pos; lia).
  destruct (_ ?= _)%Z; [destruct (Z.even _)|..]; lia.
Qed.

Lemma scaled_nonneg n d p : (0 <= n)%Z -> (0 <= scaled n d p)%Z.
Proof.
  intros Hn. unfold scaled.
  destruct (0 <=? p)%Z; apply nearest_even_nonneg; [done|].
  apply Z.mul_nonneg_nonneg; [done|]. apply Z.pow_nonneg. lia.
Qed.

Lemma round64_not_nan q : is_nan (round64 q) = false.
Proof.
  unfold round64. cbv zeta.
  repeat (match goal with
          | |- context [if ?b then _ else _] => destruct b
          end); done.
Qed.

Lemma round64_nonneg q : (0 <= q)%Q -> nonneg (round64 q).
Proof.
  intros Hq. unfold nonneg, round64. cbv zeta.
  assert (Hn : (0 <= Qnum q)%Z).
  { unfold Qle in Hq. simpl in Hq. lia. }
  destruct (Z.abs (Qnum q) =? 0)%Z eqn:E0; [done|].
  apply Z.eqb_neq in E0.
  assert (Hpos : (0 < Qnum q)%Z) by lia.
  set (p := Z.max _ _).
  pose proof (scaled_nonneg (Z.abs (Qnum q)) (Qden q) p ltac:(lia)) as Hm.
  set (m := scaled _ _ _) in *.
  destruct (_ && _).
  { by rewrite (proj2 (Z.ltb_lt _ _) Hpos). }
  simpl. apply Qle_bool_iff. rewrite Qred_correct.
  rewrite Z.sgn_pos by done.
  destruct (0 <=? p)%Z.
  - unfold Qle. simpl.
    assert (0 <= 2 ^ p)%Z by (apply Z.pow_nonneg; lia). nia.
  - unfold Qle. simpl. lia.
Qed.

Lemma nonneg_cases x : nonneg x <-> x = PosInf \/ exists q, x = Fin q /\ (0 <= q)%Q.
Proof.
  unfold nonneg. destruct x as [| |q|]; simpl.
  - split; [done|]. intros [?|(? & ? & _)]; done.
  - split; [done|]. intros [?|(? & ? & _)]; done.
  - rewrite Qle_bool_iff. split.
    + intros H. right. by exists q.
    + intros [?|(? & [= <-] & ?)]; done.
  - split; [by left|done].
Qed.

Lemma fadd_nonneg x y : nonneg x -> nonneg y -> nonneg (fadd x y).
Proof.
  rewrite !nonneg_cases.
  intros [->|(a & -> & Ha)] [->|(b & -> & Hb)]; simpl; try by left.
  apply nonneg_cases, round64_nonneg. lra.
Qed.

Lemma fmul_nonneg c y : (0 < c)%Q -> nonneg y -> nonneg (fmul (Fin c) y).
Proof.
  intros Hc. rewrite !nonneg_cases. intros [->|(b & -> & Hb)].
  - left. simpl. by rewrite (proj1 (Qgt_alt c 0) Hc).
  - apply nonneg_cases, round64_nonneg. nra.
Qed.

Lemma fmul_fin_nonneg a b : (0 <= a)%Q -> (0 <= b)%Q -> nonneg (fmul (Fin a) (Fin b)).
Proof. intros Ha Hb. simpl. apply round64_nonneg. nra. Qed.

Lemma fdiv_nonneg x b : nonneg x -> (0 < b)%Q -> nonneg (fdiv x (Fin b)).
Proof.
  intros Hx Hb. apply nonneg_cases in Hx as [->|(a & -> & Ha)]; simpl.
  - assert (Qeq_bool b 0 = false) as ->.
    { destruct (Qeq_bool b 0) eqn:E; [|done]. apply Qeq_bool_iff in E. lra. }
    by rewrite (proj1 (Qgt_alt b 0) Hb).
  - assert (Qeq_bool b 0 = false) as ->.
    { destruct (Qeq_bool b 0) eqn:E; [|done]. apply Qeq_bool_iff in E. lra. }
    apply round64_nonneg. apply Qle_shift_div_l; [done|]. lra.
Qed.

(** ** The sign of a predicted value *)

Lemma ensemble_nonneg rf_pred gb_pred :
  nonneg rf_pred -> nonneg gb_pred -> nonneg (Analytics.ensemble rf_pred gb_pred).
Proof.
  intros Hrf Hgb. unfold Analytics.ensemble.
  assert (H6 : exists c, lit (6 # 10) = Fin c /\ (0 < c)%Q)
    by (eexists; split; [vm_compute; reflexivity|reflexivity]).
  assert (H4 : exists c, lit (4 # 10) = Fin c /\ (0 < c)%Q)
    by (eexists; split; [vm_compute; reflexivity|reflexivity]).
  destruct H6 as (c6 & -> & ?), H4 as (c4 & -> & ?).
  apply fadd_nonneg; by apply fmul_nonneg.
Qed.

(** The value is not always between the two predictions: with 0.9 from
    both regressors it is 0.9000000000000001. *)
Lemma ensemble_above_both :
  flt (lit (9 # 10)) (Analytics.ensemble (lit (9 # 10)) (lit (9 # 10))) = true.
Proof. vm_compute. reflexivity. Qed.

(** X3.  When [predict] returns, both regressors have given a
    prediction for the player, and the value returned is 0.6 times the
    forest's plus 0.4 times the boosting's, in float64 arithmetic; it is
    not negative, and not NaN, when neither prediction is. *)
Theorem predict_weighs_regressors `{Sklearn}
    (self : Analytics.PlayerValuePredictor) (player_features : list value)
    (v : float64) :
  (Analytics.predict player_features self).1 = Ok v ->
  exists rf_pred gb_pred,
    regressor_predictions self player_features = Some (rf_pred, gb_pred) /\
    v = fadd (fmul (lit (6 # 10)) rf_pred) (fmul (lit (4 # 10)) gb_pred) /\
    (nonneg rf_pred -> nonneg gb_pred -> nonneg v).
Proof.
  unfold Analytics.predict, regressor_predictions, bind, get, raise, lift, ret, sk.
  simpl. destruct (Analytics.is_trained self); simpl; [|done].
  destruct (Analytics.scaler self) as [sc|]; simpl; [|done].
  destruct (scaler_transform sc [player_features]) as [Xs|]; simpl; [|done].
  destruct (Analytics.rf_model self) as [rf|]; simpl; [|done].
  destruct (forest_predict rf Xs) as [[|a ra]|]; simpl; try done.
  destruct (Analytics.gb_model self) as [gb|]; simpl; [|done].
  destruct (boosting_predict gb Xs) as [[|b rb]|]; simpl; try done.
  intros [= <-]. exists a, b. split; [done|]. split; [done|].
  apply ensemble_nonneg.
Qed.

Lemma predict_weighs_regressors_witness :
  (@Analytics.predict example_sklearn [Num (of_Z 70)]
     (after_calls [Train (example_frame 6)])).1
  = Ok (Analytics.ensemble (Fin 1000) (Fin 2000)) /\
  exists rf_pred gb_pred,
    @regressor_predictions example_sklearn
      (after_calls [Train (example_frame 6)]) [Num (of_Z 70)]
    = Some (rf_pred, gb_pred) /\
    Analytics.ensemble (Fin 1000) (Fin 2000)
    = fadd (fmul (lit (6 # 10)) rf_pred) (fmul (lit (4 # 10)) gb_pred) /\
    (nonneg rf_pred -> nonneg gb_pred ->
     nonneg (Analytics.ensemble (Fin 1000) (Fin 2000))).
Proof.
  assert (Hrun :
    (@Analytics.predict example_sklearn [Num (of_Z 70)]
       (after_calls [Train (example_frame 6)])).1
    = Ok (Analytics.ensemble (Fin 1000) (Fin 2000))) by (vm_compute; reflexivity).
  split; [exact Hrun|].
  exact (predict_weighs_regressors _ _ _ Hrun).
Defined.

(** ** The sign of the performance index *)

Lemma filter_sublists {A} (p : A -> bool) l : List.filter p l ∈ sublists l.
Proof.
  induction l as [|x l IH]; simpl; [by left|].
  apply elem_of_app. destruct (p x); [left|by right].
  apply list_elem_of_fmap. by exists (List.filter p l).
Qed.

Lemma weights_sound position : sound_weights (weights_of_position position) = true.
Proof.
  pose proof (weights_of_position_cases position) as Hc.
  repeat (apply elem_of_cons in Hc as [-> | Hc]);
    [vm_compute; reflexivity ..|by apply elem_of_nil in Hc].
Qed.

Lemma weighted_sum_nonneg player_data weights acc :
  rated_nonneg player_data weights ->
  forallb (fun aw => flt (Fin 0) aw.2 && is_finite aw.2) weights = true ->
  nonneg acc ->
  nonneg (foldl (fun sum aw => fadd sum (fmul (attribute player_data aw.1) aw.2))
            acc (List.filter (present player_data) weights)).
Proof.
  revert acc. induction weights as [|[a w] ws IH]; intros acc Hin Hw Hacc; [done|].
  assert (Hws : rated_nonneg player_data ws).
  { intros a' v Ha' Hv. apply (Hin a' v); [by right|done]. }
  cbn [forallb] in Hw. apply andb_true_iff in Hw as [Hw Hws'].
  cbn [List.filter].
  destruct (present player_data (a, w)) eqn:Ep; [|by apply IH].
  cbn [foldl]. apply IH; [done..|].
  apply fadd_nonneg; [done|].
  unfold present in Ep. unfold attribute. cbn [fst snd] in *.
  destruct (player_data !! a) as [v|] eqn:Ea; [|done].
  destruct (Hin a v ltac:(by left) Ea) as [->|(q & -> & Hq)]; [done|].
  destruct w as [| |c|]; try done. simpl in Hw.
  apply andb_true_iff in Hw as [Hw _]. unfold Qlt_bool in Hw.
  apply negb_true_iff in Hw.
  apply fmul_fin_nonneg; [done|].
  destruct (Qlt_le_dec 0 c) as [?|Hle]; [lra|].
  apply Qle_bool_iff in Hle. congruence.
Qed.

(** X21.  For a record whose position is a string, or absent, and whose
    weighted attributes are NaN or numbers that are not negative,
    [calculate_performance_index] returns, and what it returns is not
    negative and not NaN. *)
Theorem calculate_performance_index_nonneg
    (player_data : gmap string value) (position : string) :
  position_is player_data position ->
  rated_nonneg player_data (weights_of_position position) ->
  exists x,
    Analytics.calculate_performance_index player_data = Ok x /\ nonneg x.
Proof.
  intros Hpos Hin.
  assert (Hnum : numeric_attributes player_data (weights_of_position position)).
  { intros a v Ha Hv. by destruct (Hin a v Ha Hv) as [->|(q & -> & _)]. }
  rewrite (calculate_performance_index_run _ _ Hpos Hnum).
  eexists. split; [done|].
  pose proof (weights_sound position) as Hs. unfold sound_weights in Hs.
  apply andb_true_iff in Hs as [Hw Hfin].
  pose proof (weighted_sum_nonneg player_data _ (Fin 0) Hin Hw eq_refl) as Hsum.
  fold (weighted_sum player_data (weights_of_position position)) in Hsum.
  rewrite forallb_forall in Hfin.
  specialize (Hfin _ (proj1 (list_elem_of_In _ _)
                        (filter_sublists (present player_data)
                           (weights_of_position position)))).
  fold (weight_present player_data (weights_of_position position)) in Hfin.
  unfold weighted_mean.
  destruct (weight_present player_data (weights_of_position position))
    as [| |t|] eqn:Et; try done.
  destruct (flt (Fin 0) (Fin t)) eqn:Elt; [|done].
  apply fdiv_nonneg; [done|]. simpl in Elt. unfold Qlt_bool in Elt.
  apply negb_true_iff in Elt.
  destruct (Qlt_le_dec 0 t) as [?|Hle]; [done|].
  apply Qle_bool_iff in Hle. congruence.
Qed.

Lemma calculate_performance_index_nonneg_witness :
  exists x,
    Analytics.calculate_performance_index complete_midfielder = Ok x /\ nonneg x.
Proof.
  apply (calculate_performance_index_nonneg complete_midfielder "CM, CDM").
  - reflexivity.
  - intros a v Ha Hv. right.
    change (weights_of_position "CM, CDM") with Analytics.midfielder_weights in Ha.
    unfold Analytics.midfielder_weights in Ha. cbn [fmap list_fmap fst] in Ha.
    repeat (apply elem_of_cons in Ha as [-> | Ha];
            [vm_compute in Hv; injection Hv as <-; eexists; split;
             [reflexivity|discriminate]|]).
    by apply elem_of_nil in Ha.
Defined.

(** The index can leave the scale of the attributes: a defender with 100
    everywhere gets 100.00000000000001. *)
Lemma defender_above_100 :
  exists x,
    Analytics.calculate_performance_index defender_at_100 = Ok x /\
    flt (Fin 100) x = true.
Proof. eexists. split; vm_compute; reflexivity. Qed.
